(** * Kabane: the record store over a remote git provider

    A shallow embedding of [src/api/github.ts] (remote content client,
    ticket store, asset store) and [src/utils/parser.ts] (record codec),
    with the properties the specification states about them and further
    properties of the same operations, read off the code.

    Conventions of the embedding.
    - A JavaScript string is a [string]: a sequence of 8-bit code units.
    - A JavaScript number is an integer [Z] (timestamps, status codes,
      estimates); fractional and non-finite numbers are outside the model.
    - A value whose shape is only known at run time (the result of
      [YAML.parse], a JSON body) is a [JSValue].
    - An [async] function is a computation [M A] over a [World]: the remote
      repository, the requests issued so far, the console and the clock.
      A [throw] is the [Throw] result. One call runs to completion from
      the world it is started in, and the clock stands still meanwhile;
      calls that overlap in time are calls started from worlds of one's
      choosing.
    - What the repository imports but does not contain (the [yaml] package,
      [btoa]/[atob], [encodeURIComponent], [FileReader], [Date] formatting
      and the provider behind [fetch]) is a class, [Platform] or [Provider],
      over which every definition is parameterised. *)

From Stdlib Require Import String Ascii List ZArith Lia Bool.
From Stdlib Require Import Decimal DecimalString DecimalZ.
Import ListNotations.

Local Open Scope string_scope.
Local Open Scope Z_scope.

Set Warnings "-register-all".

(* ===================================================================== *)
(** * String primitives of the JavaScript runtime *)
(* ===================================================================== *)

Module Str.

Definition chars (s : string) : list ascii := list_ascii_of_string s.
Definition of_chars (l : list ascii) : string := string_of_list_ascii l.

(** [s.startsWith(p)] *)
Definition startsWith (s p : string) : bool := String.prefix p s.

(** [s.endsWith(p)] *)
Definition endsWith (s p : string) : bool :=
  String.prefix (of_chars (List.rev (chars p))) (of_chars (List.rev (chars s))).

(** [s.split(c)] for a one-character separator: the pieces between the
    occurrences of [c]; never empty. *)
Fixpoint split_chars (c : ascii) (l : list ascii) : list (list ascii) :=
  match l with
  | [] => [[]]
  | a :: l' =>
      match split_chars c l' with
      | [] => [[a]]
      | p :: ps => if Ascii.eqb a c then [] :: p :: ps else (a :: p) :: ps
      end
  end.

Definition split (s : string) (c : ascii) : list string :=
  map of_chars (split_chars c (chars s)).

(** [xs.pop()] on a fresh array: its last element, if any. *)
Definition pop {A} (xs : list A) : option A := last (map Some xs) None.

(** [s.toLowerCase()] on the ASCII letters. *)
Definition lower_char (a : ascii) : ascii :=
  let n := nat_of_ascii a in
  if (Nat.leb 65 n && Nat.leb n 90)%bool then ascii_of_nat (n + 32) else a.

Definition toLowerCase (s : string) : string :=
  of_chars (map lower_char (chars s)).

(** [xs.includes(x)] on an array of strings. *)
Definition includes (xs : list string) (x : string) : bool :=
  existsb (String.eqb x) xs.

(** [xs.join(sep)] *)
Fixpoint join (sep : string) (xs : list string) : string :=
  match xs with
  | [] => ""
  | [x] => x
  | x :: rest => x ++ sep ++ join sep rest
  end.

Fixpoint drop_while {A} (p : A -> bool) (l : list A) : list A :=
  match l with
  | [] => []
  | a :: l' => if p a then drop_while p l' else l
  end.

Definition is_slash (a : ascii) : bool := Ascii.eqb a "/"%char.

(** [s.replace(/^\/+|\/+$/g, '')]: the leading run and the trailing run
    of slashes are removed. *)
Definition trim_slashes (s : string) : string :=
  of_chars (List.rev (drop_while is_slash (List.rev (drop_while is_slash (chars s))))).

(** [s.replace(/\n/g, '')] *)
Definition remove_newlines (s : string) : string :=
  of_chars (filter (fun a => negb (Ascii.eqb a "010"%char)) (chars s)).

(** [s.replace(/\.(yml|yaml)$/, '')] *)
Definition drop_suffix (s suf : string) : string :=
  substring 0 (String.length s - String.length suf) s.

Definition strip_yaml_extension (s : string) : string :=
  if endsWith s ".yml" then drop_suffix s ".yml"
  else if endsWith s ".yaml" then drop_suffix s ".yaml"
  else s.

Definition between (lo hi : nat) (a : ascii) : bool :=
  let n := nat_of_ascii a in (Nat.leb lo n && Nat.leb n hi)%bool.

(** The class [[a-zA-Z0-9.-]]. *)
Definition is_name_char (a : ascii) : bool :=
  (between 97 122 a || between 65 90 a || between 48 57 a
   || Ascii.eqb a "."%char || Ascii.eqb a "-"%char)%bool.

(** [s.replace(/[^a-zA-Z0-9.-]/g, '_')] *)
Definition sanitize (s : string) : string :=
  of_chars (map (fun a => if is_name_char a then a else "_"%char) (chars s)).

(** [String(n)] / [`${n}`] for an integer. *)
Definition of_Z (z : Z) : string := NilZero.string_of_int (Z.to_int z).

End Str.

(* ===================================================================== *)
(** * Values, exceptions and results *)
(* ===================================================================== *)

(** A JavaScript value as [YAML.parse] and [response.json()] produce them.
    An object keeps its keys in insertion order. *)
Inductive JSValue : Type :=
| JUndefined
| JNull
| JBool (b : bool)
| JNum (n : Z)
| JStr (s : string)
| JArr (items : list JSValue)
| JObj (fields : list (string * JSValue)).

(** What the code can [throw]: the client's own [GitHubAPIError] and the
    built-in errors ([Error], [TypeError], [SyntaxError], ...), the latter
    kept by constructor name and message. *)
Inductive Exn : Type :=
| GitHubAPIError (status : Z) (message : string) (response : JSValue)
| JSError (name : string) (message : string).

Inductive Result (A : Type) : Type :=
| Ok (a : A)
| Throw (e : Exn).
Arguments Ok {A} a.
Arguments Throw {A} e.

Definition rbind {A B} (r : Result A) (k : A -> Result B) : Result B :=
  match r with
  | Ok a => k a
  | Throw e => Throw e
  end.

Declare Scope result_scope.
Delimit Scope result_scope with result.
Notation "'let?' x := r 'in' k" := (rbind r (fun x => k))
  (at level 10, x name, r at level 100, k at level 200) : result_scope.

Module JS.

(** [if (v)], [v || d], [!v] *)
Definition truthy (v : JSValue) : bool :=
  match v with
  | JUndefined | JNull => false
  | JBool b => b
  | JNum n => negb (n =? 0)
  | JStr s => negb (String.eqb s "")
  | JArr _ | JObj _ => true
  end.

(** [a || b] *)
Definition or (a b : JSValue) : JSValue := if truthy a then a else b.

Fixpoint assoc (k : string) (fields : list (string * JSValue)) : option JSValue :=
  match fields with
  | [] => None
  | (k', v) :: rest => if String.eqb k k' then Some v else assoc k rest
  end.

(** [v.k] for a data property [k]: reading a property of [null] or
    [undefined] throws, a missing property is [undefined]. The property
    names of this program are own data properties only (never [length]
    or a prototype method), but for [push], which every array inherits:
    [checkPushAccess], the one place that reads it, treats the array
    apart. *)
Definition get (v : JSValue) (k : string) : Result JSValue :=
  match v with
  | JUndefined =>
      Throw (JSError "TypeError" ("Cannot read properties of undefined (reading '" ++ k ++ "')"))
  | JNull =>
      Throw (JSError "TypeError" ("Cannot read properties of null (reading '" ++ k ++ "')"))
  | JObj fields =>
      match assoc k fields with
      | Some x => Ok x
      | None => Ok JUndefined
      end
  | _ => Ok JUndefined
  end.

(** [v === s] for a string literal [s] *)
Definition eq_string (v : JSValue) (s : string) : bool :=
  match v with JStr x => String.eqb x s | _ => false end.

(** [Array.isArray(v)] *)
Definition isArray (v : JSValue) : bool :=
  match v with JArr _ => true | _ => false end.

(** [String(v)], also what a template literal and [new Error(message)]
    make of [v]. An object converts through the [toString] it inherits.
    An object with a [toString] entry of its own (no entry of a document
    is a function) makes the conversion throw a [TypeError]; such values
    are outside this function, and a statement that depends on a
    conversion of a value it does not control assumes [stringable]. *)
Fixpoint toString (v : JSValue) : string :=
  match v with
  | JUndefined => "undefined"
  | JNull => "null"
  | JBool true => "true"
  | JBool false => "false"
  | JNum n => Str.of_Z n
  | JStr s => s
  | JArr items =>
      Str.join ","
        (map (fun x => match x with
                       | JUndefined | JNull => ""
                       | _ => toString x
                       end) items)
  | JObj _ => "[object Object]"
  end.

(** The value denoted by [JSON.stringify(v)]: a property whose value is
    [undefined] is left out, an [undefined] array element becomes
    [null]. *)
Fixpoint json (v : JSValue) : JSValue :=
  match v with
  | JArr items =>
      JArr (map (fun x => match x with JUndefined => JNull | _ => json x end) items)
  | JObj fields =>
      JObj (flat_map (fun kv => let '(k, x) := kv in
                                match x with
                                | JUndefined => []
                                | _ => [(k, json x)]
                                end) fields)
  | _ => v
  end.

Definition has (k : string) (v : JSValue) : bool :=
  match v with
  | JObj fields => match assoc k fields with Some _ => true | None => false end
  | _ => false
  end.

End JS.

(* ===================================================================== *)
(** * External collaborators *)
(* ===================================================================== *)

(** A browser [File]: its name and its bytes. *)
Record File : Type := mkFile {
  file_name : string;
  file_bytes : string
}.

(** Library and runtime functions the sources import. *)
Class Platform : Type := {
  (** [YAML.parse]; [None] when it throws *)
  YAML_parse : string -> option JSValue;
  (** [YAML.stringify(data, {indent: 2, lineWidth: 0})] *)
  YAML_stringify : JSValue -> string;
  (** [btoa(unescape(encodeURIComponent(s)))] *)
  btoa_utf8 : string -> string;
  (** [atob]; [None] when it throws *)
  atob : string -> option string;
  encodeURIComponent : string -> string;
  (** [new Date(ms).toISOString()] *)
  toISOString : Z -> string;
  (** [FileReader.readAsDataURL]; [None] when the reader fails *)
  readAsDataURL : File -> option string
}.

Inductive Method : Type := GET | POST | PUT | PATCH | DELETE.

(** The argument of [fetch]. The JSON text of the body is kept as the
    value it denotes. *)
Record Request : Type := mkRequest {
  url : string;
  method : Method;
  headers : list (string * string);
  body : option JSValue
}.

(** A [Response]; [resp_json = None] when the body is not JSON. *)
Record Response : Type := mkResponse {
  resp_status : Z;
  resp_statusText : string;
  resp_json : option JSValue
}.

(** [response.ok] *)
Definition ok (r : Response) : bool :=
  (200 <=? resp_status r) && (resp_status r <=? 299).

(** The remote provider behind [fetch]: a state and its reaction to one
    request; [None] when the request does not complete (transport
    failure). *)
Class Provider : Type := {
  Remote : Type;
  serve : Request -> Remote -> option Response * Remote
}.

Inductive Level : Type := LogWarn | LogError.

(** What an operation can observe and change. *)
Record World `{Provider} : Type := mkWorld {
  remote : Remote;
  requests : list Request;            (* issued so far, oldest first *)
  console : list (Level * string);    (* lines written so far *)
  now : Z                             (* [Date.now()] *)
}.

(* ===================================================================== *)
(** * Computations *)
(* ===================================================================== *)

Section Monad.
Context `{Provider}.

Definition M (A : Type) : Type := World -> Result A * World.

Definition ret {A} (a : A) : M A := fun w => (Ok a, w).

Definition throw {A} (e : Exn) : M A := fun w => (Throw e, w).

Definition bind {A B} (m : M A) (k : A -> M B) : M B :=
  fun w =>
    match m w with
    | (Ok a, w') => k a w'
    | (Throw e, w') => (Throw e, w')
    end.

(** [try { m } catch (error) { h(error) }] *)
Definition try_catch {A} (m : M A) (h : Exn -> M A) : M A :=
  fun w =>
    match m w with
    | (Ok a, w') => (Ok a, w')
    | (Throw e, w') => h e w'
    end.

(** A synchronous, effect-free step that may throw. *)
Definition lift {A} (r : Result A) : M A := fun w => (r, w).

(** [fetch(url, init)]: the request is recorded and handed to the
    provider; a transport failure rejects with a [TypeError]. *)
Definition fetch (req : Request) : M Response :=
  fun w =>
    match serve req (remote w) with
    | (Some resp, r') =>
        (Ok resp, mkWorld _ r' (requests w ++ [req]) (console w) (now w))
    | (None, r') =>
        (Throw (JSError "TypeError" "Failed to fetch"),
         mkWorld _ r' (requests w ++ [req]) (console w) (now w))
    end.

(** [console.warn] / [console.error] *)
Definition console_log (l : Level) (line : string) : M unit :=
  fun w => (Ok tt, mkWorld _ (remote w) (requests w) (console w ++ [(l, line)]) (now w)).

(** [Date.now()] *)
Definition Date_now : M Z := fun w => (Ok (now w), w).

End Monad.

Declare Scope monad_scope.
Delimit Scope monad_scope with monad.
Notation "x <- m ;; k" := (bind m (fun x => k))
  (at level 61, m at next level, right associativity) : monad_scope.
Notation "m ;; k" := (bind m (fun _ => k))
  (at level 61, right associativity) : monad_scope.

Local Open Scope result_scope.

(* ===================================================================== *)
(** * Record codec ([src/utils/parser.ts]) *)
(* ===================================================================== *)

(** The declared field types of the interfaces in [src/types/index.ts] are
    not checked at run time. A field the decoder copies as it finds it is a
    [JSValue]; a field it validates or normalises has the validated type. *)

Record KanbanColumn : Type := mkColumn {
  col_id : JSValue;
  col_name : JSValue;
  col_statuses : list JSValue;
  col_color : JSValue
}.

Record TicketType : Type := mkTicketType {
  tt_id : JSValue;
  tt_name : JSValue;
  tt_icon : JSValue;
  tt_color : JSValue
}.

Record Version : Type := mkVersion {
  v_id : JSValue;
  v_name : JSValue;
  v_startDate : JSValue;
  v_targetDate : JSValue;
  v_createdAt : JSValue
}.

Inductive Priority : Type := low | medium | high | critical.

Definition priority_name (p : Priority) : string :=
  match p with
  | low => "low"
  | medium => "medium"
  | high => "high"
  | critical => "critical"
  end.

Record Ticket : Type := mkTicket {
  id : string;
  path : string;
  sha : JSValue;
  title : JSValue;
  type : JSValue;
  status : JSValue;
  priority : option Priority;
  assignees : option (list string);
  labels : option (list string);
  parent : JSValue;
  version : JSValue;
  estimate : option Z;
  dueDate : JSValue;
  description : JSValue;
  images : option (list string);
  createdAt : JSValue;
  updatedAt : JSValue
}.

(** [xs.map(f)] where [f] may throw: the first throw ends the loop. *)
Fixpoint map_result {A B} (f : A -> Result B) (xs : list A) : Result (list B) :=
  match xs with
  | [] => Ok []
  | x :: rest =>
      let? y := f x in
      let? ys := map_result f rest in
      Ok (y :: ys)
  end.

Section Codec.
Context `{Platform}.

(** The [console.error] line written before the rethrow is not kept. *)
Definition parseYaml (content : string) : Result JSValue :=
  match YAML_parse content with
  | Some v => Ok v
  | None => Throw (JSError "Error" "Invalid YAML format")
  end.

Definition serializeYaml (data : JSValue) : string := YAML_stringify data.

(** ** Columns *)

Definition column_of (col : JSValue) : Result KanbanColumn :=
  let? i := JS.get col "id" in
  let? n := JS.get col "name" in
  let? ss := JS.get col "statuses" in
  let? c := JS.get col "color" in
  Ok (mkColumn i n (match ss with JArr l => l | _ => [i] end) c).

Definition parseColumnsFile (content : string) : Result (list KanbanColumn) :=
  let? data := parseYaml content in
  let? columns := (if JS.isArray data then Ok data else JS.get data "columns") in
  match columns with
  | JArr cols => map_result column_of cols
  | _ => Throw (JSError "Error" "columns.yml must contain an array of columns")
  end.

Definition column_value (c : KanbanColumn) : JSValue :=
  JObj [("id", col_id c); ("name", col_name c);
        ("statuses", JArr (col_statuses c)); ("color", col_color c)].

Definition serializeColumnsFile (columns : list KanbanColumn) : string :=
  serializeYaml (JObj [("columns", JArr (map column_value columns))]).

(** ** Ticket types *)

Definition ticket_type_of (t : JSValue) : Result TicketType :=
  let? i := JS.get t "id" in
  let? n := JS.get t "name" in
  let? ic := JS.get t "icon" in
  let? c := JS.get t "color" in
  Ok (mkTicketType i n ic c).

Definition parseTicketTypesFile (content : string) : Result (list TicketType) :=
  let? data := parseYaml content in
  let? types := (if JS.isArray data then Ok data else JS.get data "ticketTypes") in
  match types with
  | JArr ts => map_result ticket_type_of ts
  | _ => Throw (JSError "Error" "ticketTypes.yml must contain an array of ticket types")
  end.

Definition ticket_type_value (t : TicketType) : JSValue :=
  JObj [("id", tt_id t); ("name", tt_name t); ("icon", tt_icon t); ("color", tt_color t)].

Definition serializeTicketTypesFile (types : list TicketType) : string :=
  serializeYaml (JObj [("ticketTypes", JArr (map ticket_type_value types))]).

(** ** Versions *)

Definition version_of (v : JSValue) : Result Version :=
  let? i := JS.get v "id" in
  let? n := JS.get v "name" in
  let? s := JS.get v "startDate" in
  let? t := JS.get v "targetDate" in
  let? c := JS.get v "createdAt" in
  Ok (mkVersion i n s t c).

Definition parseVersionsFile (content : string) : Result (list Version) :=
  let? data := parseYaml content in
  let? versions := (if JS.isArray data then Ok data else JS.get data "versions") in
  match versions with
  | JArr vs => map_result version_of vs
  | _ => Throw (JSError "Error" "versions.yml must contain an array of versions")
  end.

Definition version_value (v : Version) : JSValue :=
  JObj [("id", v_id v); ("name", v_name v); ("startDate", v_startDate v);
        ("targetDate", v_targetDate v); ("createdAt", v_createdAt v)].

Definition serializeVersionsFile (versions : list Version) : string :=
  serializeYaml (JObj [("versions", JArr (map version_value versions))]).

(** ** Tickets *)

Definition extractTicketId (path : string) : string :=
  let filename :=
    match Str.pop (Str.split path "/") with
    | Some f => if String.eqb f "" then path else f
    | None => path
    end in
  Str.strip_yaml_extension filename.

Definition validatePriority (priority : JSValue) : option Priority :=
  match priority with
  | JStr s =>
      if String.eqb s "low" then Some low
      else if String.eqb s "medium" then Some medium
      else if String.eqb s "high" then Some high
      else if String.eqb s "critical" then Some critical
      else None
  | _ => None
  end.

Definition normalizeArray (value : JSValue) : option (list string) :=
  match value with
  | JArr items => Some (map JS.toString items)
  | JStr s => Some [s]
  | _ => None
  end.

Definition parseTicketFile (content path : string) (sha : JSValue) : Result Ticket :=
  let? data := parseYaml content in
  let id := extractTicketId path in
  let? d_title := JS.get data "title" in
  let? d_type := JS.get data "type" in
  let? d_status := JS.get data "status" in
  let? d_priority := JS.get data "priority" in
  let? d_assignees := JS.get data "assignees" in
  let? d_labels := JS.get data "labels" in
  let? d_parent := JS.get data "parent" in
  let? d_version := JS.get data "version" in
  let? d_estimate := JS.get data "estimate" in
  let? d_dueDate := JS.get data "dueDate" in
  let? d_description := JS.get data "description" in
  let? d_images := JS.get data "images" in
  let? d_createdAt := JS.get data "createdAt" in
  let? d_updatedAt := JS.get data "updatedAt" in
  Ok {| id := id;
        path := path;
        sha := sha;
        title := JS.or d_title (JStr ("Ticket " ++ id));
        type := JS.or d_type (JStr "task");
        status := JS.or d_status (JStr "backlog");
        priority := validatePriority d_priority;
        assignees := normalizeArray d_assignees;
        labels := normalizeArray d_labels;
        parent := d_parent;
        version := d_version;
        estimate := match d_estimate with JNum n => Some n | _ => None end;
        dueDate := d_dueDate;
        description := d_description;
        images := normalizeArray d_images;
        createdAt := d_createdAt;
        updatedAt := d_updatedAt |}.

(** [if (c) data.k = v] *)
Definition field_if (c : bool) (k : string) (v : JSValue) : list (string * JSValue) :=
  if c then [(k, v)] else [].

(** [xs?.length] as a condition *)
Definition nonempty (xs : option (list string)) : bool :=
  match xs with
  | Some (_ :: _) => true
  | _ => false
  end.

Definition strings (xs : option (list string)) : JSValue :=
  match xs with
  | Some l => JArr (map JStr l)
  | None => JUndefined
  end.

Definition priority_value (p : option Priority) : JSValue :=
  match p with
  | Some x => JStr (priority_name x)
  | None => JUndefined
  end.

Definition number (n : option Z) : JSValue :=
  match n with
  | Some z => JNum z
  | None => JUndefined
  end.

(** [v !== undefined] *)
Definition defined (v : JSValue) : bool :=
  match v with JUndefined => false | _ => true end.

(** The object [serializeTicket] builds, keys in the order they are set;
    [time] is the clock read by [new Date()]. *)
Definition ticketYaml (time : Z) (ticket : Ticket) : JSValue :=
  JObj ([("title", title ticket); ("type", type ticket); ("status", status ticket)]
        ++ field_if (JS.truthy (priority_value (priority ticket)))
                    "priority" (priority_value (priority ticket))
        ++ field_if (nonempty (assignees ticket)) "assignees" (strings (assignees ticket))
        ++ field_if (nonempty (labels ticket)) "labels" (strings (labels ticket))
        ++ field_if (JS.truthy (parent ticket)) "parent" (parent ticket)
        ++ field_if (JS.truthy (version ticket)) "version" (version ticket)
        ++ field_if (defined (number (estimate ticket))) "estimate" (number (estimate ticket))
        ++ field_if (JS.truthy (dueDate ticket)) "dueDate" (dueDate ticket)
        ++ field_if (JS.truthy (description ticket)) "description" (description ticket)
        ++ field_if (nonempty (images ticket)) "images" (strings (images ticket))
        ++ field_if (JS.truthy (createdAt ticket)) "createdAt" (createdAt ticket)
        ++ [("updatedAt", JStr (toISOString time))]).

Definition serializeTicket (time : Z) (ticket : Ticket) : string :=
  serializeYaml (ticketYaml time ticket).

End Codec.

Local Open Scope monad_scope.

(* ===================================================================== *)
(** * Remote content client ([src/api/github.ts]) *)
(* ===================================================================== *)

Definition GITHUB_API_BASE : string := "https://api.github.com".

(** The getters of [GitHubAPIError], as the call sites use them:
    [error instanceof GitHubAPIError && error.isNotFound]. *)
Definition isNotFound (e : Exn) : bool :=
  match e with GitHubAPIError s _ _ => s =? 404 | JSError _ _ => false end.

Definition isUnauthorized (e : Exn) : bool :=
  match e with GitHubAPIError s _ _ => s =? 401 | JSError _ _ => false end.

Definition isForbidden (e : Exn) : bool :=
  match e with GitHubAPIError s _ _ => s =? 403 | JSError _ _ => false end.

Definition isConflict (e : Exn) : bool :=
  match e with GitHubAPIError s _ _ => s =? 409 | JSError _ _ => false end.

(** An optional string argument ([branch?: string]) used as a condition. *)
Definition given (x : option string) : bool :=
  match x with
  | Some s => negb (String.eqb s "")
  | None => false
  end.

Definition text (x : option string) : string :=
  match x with Some s => s | None => "" end.

(** A run-time value on which a string method is called. *)
Definition as_string (what : string) (v : JSValue) : Result string :=
  match v with
  | JStr s => Ok s
  | JUndefined =>
      Throw (JSError "TypeError" ("Cannot read properties of undefined (reading '" ++ what ++ "')"))
  | JNull =>
      Throw (JSError "TypeError" ("Cannot read properties of null (reading '" ++ what ++ "')"))
  | _ => Throw (JSError "TypeError" (what ++ " is not a function"))
  end.

(** [xs.filter(p)] where [p] may throw. *)
Fixpoint filter_result {A} (p : A -> Result bool) (xs : list A) : Result (list A) :=
  match xs with
  | [] => Ok []
  | x :: rest =>
      let? b := p x in
      let? ys := filter_result p rest in
      Ok (if b then x :: ys else ys)
  end.

Definition request_headers (token : string) : list (string * string) :=
  [("Authorization", "Bearer " ++ token);
   ("Accept", "application/vnd.github.v3+json");
   ("Content-Type", "application/json");
   ("X-GitHub-Api-Version", "2022-11-28")].

(** The request [githubFetch] hands to [fetch]. *)
Definition request_of (endpoint token : string) (m : Method) (b : JSValue) : Request :=
  {| url := if Str.startsWith endpoint "http" then endpoint
            else GITHUB_API_BASE ++ endpoint;
     method := m;
     headers := request_headers token;
     body := if JS.truthy b then Some (JS.json b) else None |}.

Section Client.
Context `{Platform} `{Provider}.

(** [githubFetch(endpoint, token, {method, body})]; no caller passes
    extra headers. An absent [body] is [JUndefined]. *)
Definition githubFetch (endpoint token : string) (m : Method) (b : JSValue)
  : M JSValue :=
  response <- fetch (request_of endpoint token m b) ;;
  if negb (ok response) then
    let error := match resp_json response with
                 | Some v => v
                 | None => JObj []
                 end in
    msg <- lift (JS.get error "message") ;;
    throw (GitHubAPIError (resp_status response)
             (if JS.truthy msg then JS.toString msg
              else "GitHub API error: " ++ resp_statusText response)
             error)
  else if resp_status response =? 204 then ret (JObj [])
  else match resp_json response with
       | Some v => ret v
       | None => throw (JSError "SyntaxError" "Unexpected end of JSON input")
       end.

Definition fetchRepository (owner repo token : string) : M JSValue :=
  githubFetch ("/repos/" ++ owner ++ "/" ++ repo) token GET JUndefined.

Definition contents_endpoint (owner repo path : string) : string :=
  "/repos/" ++ owner ++ "/" ++ repo ++ "/contents/" ++ path.

Definition fetchContents (owner repo path token : string) (ref : option string)
  : M JSValue :=
  let params := if given ref then "?ref=" ++ encodeURIComponent (text ref) else "" in
  githubFetch (contents_endpoint owner repo path ++ params) token GET JUndefined.

Definition fetchFileContent (owner repo path token : string) (ref : option string)
  : M (string * JSValue) :=
  response <- fetchContents owner repo path token ref ;;
  ty <- lift (JS.get response "type") ;;
  if negb (JS.eq_string ty "file")
  then throw (JSError "Error" ("Expected file but got " ++ JS.toString ty))
  else
    c <- lift (JS.get response "content") ;;
    if negb (JS.truthy c) then throw (JSError "Error" "File has no content")
    else
      b64 <- lift (as_string "response.content.replace" c) ;;
      match atob (Str.remove_newlines b64) with
      | None => throw (JSError "InvalidCharacterError"
                         "The string to be decoded is not correctly encoded.")
      | Some content =>
          s <- lift (JS.get response "sha") ;;
          ret (content, s)
      end.

(** The callback of the filter in [listFilesRecursively]. *)
Definition in_path (normalizedPath : string) (item : JSValue) : Result bool :=
  let? ty := JS.get item "type" in
  if negb (JS.eq_string ty "blob") then Ok false
  else
    let? p := JS.get item "path" in
    let? s := as_string "startsWith" p in
    Ok (Str.startsWith s normalizedPath).

Definition listFilesRecursively (owner repo path token : string) (branch : option string)
  : M (list JSValue) :=
  let branchRef := if given branch then text branch else "main" in
  refResponse <- githubFetch ("/repos/" ++ owner ++ "/" ++ repo ++ "/git/ref/heads/" ++ branchRef)
                   token GET JUndefined ;;
  obj <- lift (JS.get refResponse "object") ;;
  commit <- lift (JS.get obj "sha") ;;
  treeResponse <- githubFetch ("/repos/" ++ owner ++ "/" ++ repo ++ "/git/trees/"
                               ++ JS.toString commit ++ "?recursive=1")
                    token GET JUndefined ;;
  let normalizedPath := Str.trim_slashes path in
  tree <- lift (JS.get treeResponse "tree") ;;
  match tree with
  | JArr items => lift (filter_result (in_path normalizedPath) items)
  | JUndefined | JNull =>
      throw (JSError "TypeError" "Cannot read properties of undefined (reading 'filter')")
  | _ => throw (JSError "TypeError" "treeResponse.tree.filter is not a function")
  end.

(** [CreateOrUpdateFileParams] *)
Record CreateOrUpdateFileParams : Type := mkParams {
  p_owner : string;
  p_repo : string;
  p_path : string;
  p_content : string;
  p_message : string;
  p_sha : JSValue;              (* [JUndefined] when not given *)
  p_branch : option string
}.

(** The body [createOrUpdateFile] builds. *)
Definition put_body (params : CreateOrUpdateFileParams) : JSValue :=
  JObj ([("message", JStr (p_message params));
         ("content", JStr (btoa_utf8 (p_content params)))]
        ++ field_if (JS.truthy (p_sha params)) "sha" (p_sha params)
        ++ field_if (given (p_branch params)) "branch" (JStr (text (p_branch params)))).

Definition createOrUpdateFile (params : CreateOrUpdateFileParams) (token : string)
  : M JSValue :=
  githubFetch (contents_endpoint (p_owner params) (p_repo params) (p_path params))
    token PUT (put_body params).

Definition deleteFile (owner repo path : string) (sha : JSValue) (message token : string)
           (branch : option string) : M unit :=
  githubFetch (contents_endpoint owner repo path) token DELETE
    (JObj ([("message", JStr message); ("sha", sha)]
           ++ field_if (given branch) "branch" (JStr (text branch)))) ;;
  ret tt.

End Client.

(* ===================================================================== *)
(** * Ticket store and asset store ([src/api/github.ts]) *)
(* ===================================================================== *)

Definition KABANE_FOLDER : string := ".kabane".
Definition COLUMNS_FILE : string := KABANE_FOLDER ++ "/columns.yml".
Definition TICKET_TYPES_FILE : string := KABANE_FOLDER ++ "/ticketTypes.yml".
Definition VERSIONS_FILE : string := KABANE_FOLDER ++ "/versions.yml".
Definition TICKETS_FOLDER : string := KABANE_FOLDER ++ "/tickets".

Definition ALLOWED_IMAGE_EXTENSIONS : list string :=
  ["jpg"; "jpeg"; "png"; "gif"; "webp"; "svg"].

Definition isValidImageExtension (filename : string) : bool :=
  match Str.pop (Str.split filename ".") with
  | Some e =>
      let ext := Str.toLowerCase e in
      if String.eqb ext "" then false else Str.includes ALLOWED_IMAGE_EXTENSIONS ext
  | None => false
  end.

Definition getImagePath (ticketId imageName : string) : string :=
  ".kabane/images/" ++ ticketId ++ "/" ++ imageName.

(** The name [uploadImage] stores a file under, from the clock reading
    [timestamp] and the file's own name. *)
Definition imageName_of (timestamp : Z) (name : string) : string :=
  Str.of_Z timestamp ++ "-" ++ Str.sanitize name.

(** [isTicketFile] of [src/utils/parser.ts] *)
Fixpoint contains_chars (fuel : nat) (s p : string) : bool :=
  if String.prefix p s then true
  else match fuel, s with
       | S n, String _ s' => contains_chars n s' p
       | _, _ => false
       end.

Definition isTicketFile (path : string) : bool :=
  (Str.endsWith path ".yml" || Str.endsWith path ".yaml")
  && contains_chars (String.length path) path ".kabane/tickets/".

Section Store.
Context `{Platform} `{Provider}.

(** The body of the loop of [loadTickets] for one listed file that has a
    YAML extension: fetch, decode, push; a throw is logged and the file
    skipped. *)
Definition load_one (owner repo token : string) (branch : option string)
           (p : string) (tickets : list Ticket) : M (list Ticket) :=
  try_catch
    (cs <- fetchFileContent owner repo p token branch ;;
     ticket <- lift (parseTicketFile (fst cs) p (snd cs)) ;;
     ret (tickets ++ [ticket])%list)
    (fun error =>
       console_log LogWarn ("Failed to load ticket " ++ p ++ ":") ;;
       ret tickets).

Fixpoint load_each (owner repo token : string) (branch : option string)
         (files : list JSValue) (tickets : list Ticket) : M (list Ticket) :=
  match files with
  | [] => ret tickets
  | file :: rest =>
      fp <- lift (JS.get file "path") ;;
      p <- lift (as_string "endsWith" fp) ;;
      if negb (Str.endsWith p ".yml") && negb (Str.endsWith p ".yaml")
      then load_each owner repo token branch rest tickets
      else
        tickets' <- load_one owner repo token branch p tickets ;;
        load_each owner repo token branch rest tickets'
  end.

Definition loadTickets (owner repo token : string) (branch : option string)
  : M (list Ticket) :=
  try_catch
    (files <- listFilesRecursively owner repo TICKETS_FOLDER token branch ;;
     load_each owner repo token branch files [])
    (fun error => if isNotFound error then ret [] else throw error).

(** [createTicket]; the [path] and [sha] of the argument are not part of
    its type in the source and are not read. *)
Definition createTicket (owner repo : string) (ticket : Ticket) (token : string)
           (branch : option string) : M Ticket :=
  let p := TICKETS_FOLDER ++ "/" ++ id ticket ++ ".yml" in
  t1 <- Date_now ;;
  t2 <- Date_now ;;
  let fullTicket :=
    {| id := id ticket; path := p; sha := JStr "";
       title := title ticket; type := type ticket; status := status ticket;
       priority := priority ticket; assignees := assignees ticket;
       labels := labels ticket; parent := parent ticket; version := version ticket;
       estimate := estimate ticket; dueDate := dueDate ticket;
       description := description ticket; images := images ticket;
       createdAt := JStr (toISOString t1); updatedAt := JStr (toISOString t2) |} in
  t3 <- Date_now ;;
  response <- createOrUpdateFile
                {| p_owner := owner; p_repo := repo; p_path := p;
                   p_content := serializeTicket t3 fullTicket;
                   p_message := "✨ Create ticket: " ++ JS.toString (title ticket);
                   p_sha := JUndefined; p_branch := branch |} token ;;
  c <- lift (JS.get response "content") ;;
  s <- lift (JS.get c "sha") ;;
  ret {| id := id fullTicket; path := path fullTicket; sha := s;
         title := title fullTicket; type := type fullTicket; status := status fullTicket;
         priority := priority fullTicket; assignees := assignees fullTicket;
         labels := labels fullTicket; parent := parent fullTicket;
         version := version fullTicket; estimate := estimate fullTicket;
         dueDate := dueDate fullTicket; description := description fullTicket;
         images := images fullTicket; createdAt := createdAt fullTicket;
         updatedAt := updatedAt fullTicket |}.

(** The parameters [updateTicket] hands to [createOrUpdateFile]; [time]
    is the clock read while encoding. *)
Definition update_params (owner repo : string) (ticket : Ticket) (branch : option string)
           (time : Z) : CreateOrUpdateFileParams :=
  {| p_owner := owner; p_repo := repo; p_path := path ticket;
     p_content := serializeTicket time ticket;
     p_message := "📝 Update ticket: " ++ JS.toString (title ticket);
     p_sha := sha ticket; p_branch := branch |}.

Definition updateTicket (owner repo : string) (ticket : Ticket) (token : string)
           (branch : option string) : M Ticket :=
  t1 <- Date_now ;;
  response <- createOrUpdateFile (update_params owner repo ticket branch t1) token ;;
  c <- lift (JS.get response "content") ;;
  s <- lift (JS.get c "sha") ;;
  t2 <- Date_now ;;
  ret {| id := id ticket; path := path ticket; sha := s;
         title := title ticket; type := type ticket; status := status ticket;
         priority := priority ticket; assignees := assignees ticket;
         labels := labels ticket; parent := parent ticket; version := version ticket;
         estimate := estimate ticket; dueDate := dueDate ticket;
         description := description ticket; images := images ticket;
         createdAt := createdAt ticket;
         updatedAt := JStr (toISOString t2) |}.

Definition deleteTicketFile (owner repo : string) (ticket : Ticket) (token : string)
           (branch : option string) : M unit :=
  deleteFile owner repo (path ticket) (sha ticket)
    ("🗑️ Delete ticket: " ++ JS.toString (title ticket)) token branch.

(** ** Images *)

Definition getDefaultBranch (owner repo token : string) : M JSValue :=
  repository <- fetchRepository owner repo token ;;
  lift (JS.get repository "default_branch").

(** [fileToBase64]: the part of the data URL after the first comma. *)
Definition fileToBase64 (file : File) : M JSValue :=
  match readAsDataURL file with
  | None => throw (JSError "ProgressEvent" "error")
  | Some result =>
      ret (match nth_error (Str.split result ",") 1 with
           | Some base64 => JStr base64
           | None => JUndefined
           end)
  end.

Definition uploadImage (owner repo ticketId : string) (file : File) (token : string)
           (branch : option string) : M string :=
  if negb (isValidImageExtension (file_name file)) then
    throw (JSError "Error" ("Invalid image extension. Allowed: "
                            ++ Str.join ", " ALLOWED_IMAGE_EXTENSIONS))
  else
    content <- fileToBase64 file ;;
    timestamp <- Date_now ;;
    let imageName := imageName_of timestamp (file_name file) in
    let imagePath := getImagePath ticketId imageName in
    targetBranch <- (if given branch then ret (JStr (text branch))
                     else getDefaultBranch owner repo token) ;;
    githubFetch (contents_endpoint owner repo imagePath) token PUT
      (JObj [("message", JStr ("Add image " ++ imageName ++ " for ticket " ++ ticketId));
             ("content", content);
             ("branch", targetBranch)]) ;;
    ret imageName.

End Store.

(* ===================================================================== *)
(** * A reference platform *)
(* ===================================================================== *)

(** An executable instance of [Platform], used to run the operations on
    concrete inputs: documents are written in YAML's flow style (which is
    JSON), base64 is the standard alphabet with padding. *)
Module RefPlatform.

Definition dquote : ascii := ascii_of_nat 34.
Definition backslash : ascii := ascii_of_nat 92.

(** ** Flow-style documents *)

Fixpoint escape (l : list ascii) : list ascii :=
  match l with
  | [] => []
  | a :: r =>
      if Ascii.eqb a dquote || Ascii.eqb a backslash
      then backslash :: a :: escape r
      else a :: escape r
  end.

Definition quote (s : string) : string :=
  Str.of_chars (dquote :: escape (Str.chars s) ++ [dquote]).

Fixpoint print (v : JSValue) : string :=
  match v with
  | JUndefined | JNull => "null"
  | JBool true => "true"
  | JBool false => "false"
  | JNum n => Str.of_Z n
  | JStr s => quote s
  | JArr items => "[" ++ Str.join "," (map print items) ++ "]"
  | JObj fields =>
      "{" ++ Str.join "," (map (fun kv => let '(k, x) := kv in quote k ++ ":" ++ print x)
                               fields) ++ "}"
  end.

(** The text up to the closing quote, and what follows it. *)
Fixpoint read_string (l : list ascii) : option (list ascii * list ascii) :=
  match l with
  | [] => None
  | a :: r =>
      if Ascii.eqb a dquote then Some ([], r)
      else if Ascii.eqb a backslash then
        match r with
        | b :: r' =>
            match read_string r' with
            | Some (s, rest) => Some (b :: s, rest)
            | None => None
            end
        | [] => None
        end
      else
        match read_string r with
        | Some (s, rest) => Some (a :: s, rest)
        | None => None
        end
  end.

Definition digit (a : ascii) : option Z :=
  let n := nat_of_ascii a in
  if (Nat.leb 48 n && Nat.leb n 57)%bool then Some (Z.of_nat (n - 48)) else None.

Fixpoint read_digits (acc : Z) (l : list ascii) : Z * list ascii :=
  match l with
  | a :: r =>
      match digit a with
      | Some d => read_digits (10 * acc + d) r
      | None => (acc, l)
      end
  | [] => (acc, l)
  end.

Fixpoint read_value (fuel : nat) (l : list ascii) : option (JSValue * list ascii) :=
  match fuel with
  | O => None
  | S n =>
      match l with
      | "n" :: "u" :: "l" :: "l" :: r => Some (JNull, r)
      | "t" :: "r" :: "u" :: "e" :: r => Some (JBool true, r)
      | "f" :: "a" :: "l" :: "s" :: "e" :: r => Some (JBool false, r)
      | "[" :: "]" :: r => Some (JArr [], r)
      | "[" :: r =>
          match read_items n r with
          | Some (vs, rest) => Some (JArr vs, rest)
          | None => None
          end
      | "{" :: "}" :: r => Some (JObj [], r)
      | "{" :: r =>
          match read_fields n r with
          | Some (fs, rest) => Some (JObj fs, rest)
          | None => None
          end
      | "-" :: a :: r =>
          match digit a with
          | Some d => let '(z, rest) := read_digits d r in Some (JNum (- z), rest)
          | None => None
          end
      | a :: r =>
          if Ascii.eqb a dquote then
            match read_string r with
            | Some (s, rest) => Some (JStr (Str.of_chars s), rest)
            | None => None
            end
          else
            match digit a with
            | Some d => let '(z, rest) := read_digits d r in Some (JNum z, rest)
            | None => None
            end
      | [] => None
      end
  end%char
with read_items (fuel : nat) (l : list ascii) : option (list JSValue * list ascii) :=
  match fuel with
  | O => None
  | S n =>
      match read_value n l with
      | Some (v, "," :: r) =>
          match read_items n r with
          | Some (vs, rest) => Some (v :: vs, rest)
          | None => None
          end
      | Some (v, "]" :: r) => Some ([v], r)
      | _ => None
      end
  end%char
with read_fields (fuel : nat) (l : list ascii)
  : option (list (string * JSValue) * list ascii) :=
  match fuel with
  | O => None
  | S n =>
      match l with
      | q :: r =>
          if Ascii.eqb q dquote then
            match read_string r with
            | Some (k, ":" :: r') =>
                match read_value n r' with
                | Some (v, "," :: r2) =>
                    match read_fields n r2 with
                    | Some (fs, rest) => Some ((Str.of_chars k, v) :: fs, rest)
                    | None => None
                    end
                | Some (v, "}" :: r2) => Some ([(Str.of_chars k, v)], r2)
                | _ => None
                end
            | _ => None
            end
          else None
      | [] => None
      end
  end%char.

Definition parse (content : string) : option JSValue :=
  match read_value (S (String.length content)) (Str.chars content) with
  | Some (v, []) => Some v
  | _ => None
  end.

(** ** Base64 *)

Definition alphabet : list ascii :=
  Str.chars "ABCDEFGHIJKLMNOPQRSTUVWXYZabcdefghijklmnopqrstuvwxyz0123456789+/".

Definition sextet (n : N) : ascii := nth (N.to_nat n) alphabet "A"%char.

Fixpoint index_of (a : ascii) (l : list ascii) (i : N) : option N :=
  match l with
  | [] => None
  | b :: r => if Ascii.eqb a b then Some i else index_of a r (i + 1)%N
  end.

Definition byte (a : ascii) : N := N_of_ascii a.

Fixpoint encode (l : list ascii) : list ascii :=
  match l with
  | [] => []
  | [a] =>
      let n := (byte a * 16)%N in
      [sextet (n / 64); sextet (n mod 64); "="; "="]%N%char
  | [a; b] =>
      let n := ((byte a * 256 + byte b) * 4)%N in
      [sextet (n / 4096); sextet (n / 64 mod 64); sextet (n mod 64); "="%char]%N
  | a :: b :: c :: r =>
      let n := (byte a * 65536 + byte b * 256 + byte c)%N in
      (sextet (n / 262144) :: sextet (n / 4096 mod 64)
         :: sextet (n / 64 mod 64) :: sextet (n mod 64) :: encode r)%N
  end.

Definition value_of (a : ascii) : option N := index_of a alphabet 0%N.

Fixpoint decode (l : list ascii) : option (list ascii) :=
  match l with
  | [] => Some []
  | [a; b; "="; "="]%char =>
      match value_of a, value_of b with
      | Some x, Some y => Some [ascii_of_N ((x * 64 + y) / 16)]
      | _, _ => None
      end
  | [a; b; c; "="]%char =>
      match value_of a, value_of b, value_of c with
      | Some x, Some y, Some z =>
          let n := ((x * 4096 + y * 64 + z) / 4)%N in
          Some [ascii_of_N (n / 256); ascii_of_N (n mod 256)]
      | _, _, _ => None
      end
  | a :: b :: c :: d :: r =>
      match value_of a, value_of b, value_of c, value_of d, decode r with
      | Some x, Some y, Some z, Some t, Some rest =>
          let n := (x * 262144 + y * 4096 + z * 64 + t)%N in
          Some (ascii_of_N (n / 65536) :: ascii_of_N (n / 256 mod 256)
                  :: ascii_of_N (n mod 256) :: rest)
      | _, _, _, _, _ => None
      end
  | _ => None
  end.

Definition base64 (s : string) : string := Str.of_chars (encode (Str.chars s)).

Definition unbase64 (s : string) : option string :=
  option_map Str.of_chars (decode (Str.chars s)).

(** ** URI components and dates *)

Definition hex_digit (n : N) : ascii := nth (N.to_nat n) (Str.chars "0123456789ABCDEF") "0"%char.

Definition is_unreserved (a : ascii) : bool :=
  Str.is_name_char a
  || existsb (Ascii.eqb a) (Str.chars "_!~*'()").

Definition percent (s : string) : string :=
  Str.of_chars
    (flat_map (fun a => if is_unreserved a then [a]
                        else ["%"%char; hex_digit (byte a / 16); hex_digit (byte a mod 16)])
              (Str.chars s)).

Fixpoint zeros (n : nat) : string :=
  match n with O => "" | S k => "0" ++ zeros k end.

Definition pad (width : nat) (z : Z) : string :=
  let s := Str.of_Z z in zeros (width - String.length s) ++ s.

(** The proleptic Gregorian date of a millisecond count since the epoch. *)
Definition iso (ms : Z) : string :=
  let days := ms / 86400000 in
  let t := ms mod 86400000 in
  let z := days + 719468 in
  let era := z / 146097 in
  let doe := z mod 146097 in
  let yoe := (doe - doe / 1460 + doe / 36524 - doe / 146096) / 365 in
  let doy := doe - (365 * yoe + yoe / 4 - yoe / 100) in
  let mp := (5 * doy + 2) / 153 in
  let d := doy - (153 * mp + 2) / 5 + 1 in
  let m := if mp <? 10 then mp + 3 else mp - 9 in
  let y := yoe + era * 400 + (if m <=? 2 then 1 else 0) in
  pad 4 y ++ "-" ++ pad 2 m ++ "-" ++ pad 2 d ++ "T"
    ++ pad 2 (t / 3600000) ++ ":" ++ pad 2 (t / 60000 mod 60) ++ ":"
    ++ pad 2 (t / 1000 mod 60) ++ "." ++ pad 3 (t mod 1000) ++ "Z".

Definition data_url (file : File) : option string :=
  Some ("data:application/octet-stream;base64," ++ base64 (file_bytes file)).

Definition platform : Platform :=
  {| YAML_parse := parse;
     YAML_stringify := fun v => print (JS.json v);
     btoa_utf8 := base64;
     atob := unbase64;
     encodeURIComponent := percent;
     toISOString := iso;
     readAsDataURL := data_url |}.

End RefPlatform.

(* ===================================================================== *)
(** * A reference provider *)
(* ===================================================================== *)

(** An executable instance of [Provider]: one repository with one branch,
    answering the endpoints the client calls the way the provider's REST
    interface documents them. A write is gated on the blob hash: a [sha]
    that is not the stored one is answered 409, a missing [sha] for a
    stored file 422. A tree listing carries at most [r_tree_limit] entries
    and says so in [truncated]. *)
Module RefProvider.

Record Repo : Type := mkRepo {
  r_owner : string;
  r_name : string;
  r_branch : string;
  r_files : list (string * string);     (* path and content, in tree order *)
  r_tree_limit : nat;
  r_online : bool
}.

Definition blob_sha (content : string) : string :=
  "blob-" ++ RefPlatform.base64 content.

Definition strip_prefix (p s : string) : option string :=
  if String.prefix p s
  then Some (substring (String.length p) (String.length s - String.length p) s)
  else None.

Fixpoint lookup (p : string) (files : list (string * string)) : option string :=
  match files with
  | [] => None
  | (q, c) :: rest => if String.eqb p q then Some c else lookup p rest
  end.

Fixpoint store (p c : string) (files : list (string * string)) : list (string * string) :=
  match files with
  | [] => [(p, c)]
  | (q, d) :: rest => if String.eqb p q then (q, c) :: rest else (q, d) :: store p c rest
  end.

Definition remove (p : string) (files : list (string * string)) : list (string * string) :=
  filter (fun qc => negb (String.eqb p (fst qc))) files.

Definition base_name (p : string) : string :=
  match Str.pop (Str.split p "/") with Some f => f | None => p end.

Definition answer (code : Z) (reason : string) (v : JSValue) : Response :=
  {| resp_status := code; resp_statusText := reason; resp_json := Some v |}.

Definition failure (code : Z) (reason message : string) : Response :=
  answer code reason (JObj [("message", JStr message)]).

Definition not_found : Response := failure 404 "Not Found" "Not Found".

Definition content_value (p c : string) (inline : bool) : JSValue :=
  JObj ([("name", JStr (base_name p)); ("path", JStr p); ("sha", JStr (blob_sha c));
         ("size", JNum (Z.of_nat (String.length c))); ("type", JStr "file")]
        ++ if inline
           then [("content", JStr (RefPlatform.base64 c)); ("encoding", JStr "base64")]
           else []).

Definition tree_entry (pc : string * string) : JSValue :=
  JObj [("path", JStr (fst pc)); ("mode", JStr "100644"); ("type", JStr "blob");
        ("sha", JStr (blob_sha (snd pc)));
        ("size", JNum (Z.of_nat (String.length (snd pc))))].

Definition head_commit : string := "head".

Definition tree_value (repo : Repo) : JSValue :=
  JObj [("sha", JStr head_commit);
        ("tree", JArr (map tree_entry (firstn (r_tree_limit repo) (r_files repo))));
        ("truncated", JBool (Nat.ltb (r_tree_limit repo) (List.length (r_files repo))))].

Definition commit_value (p c message : string) : JSValue :=
  JObj [("content", content_value p c false);
        ("commit", JObj [("sha", JStr head_commit); ("message", JStr message)])].

Definition field (b : option JSValue) (k : string) : JSValue :=
  match b with
  | Some (JObj fields) =>
      match JS.assoc k fields with Some v => v | None => JUndefined end
  | _ => JUndefined
  end.

(** The outcome of an accepted write: the decoded content is stored. *)
Definition write (repo : Repo) (p : string) (b : option JSValue) (code : Z)
           (reason : string) : Response * Repo :=
  match field b "content" with
  | JStr b64 =>
      match RefPlatform.unbase64 b64 with
      | None => (failure 422 "Unprocessable Entity" "content is not valid Base64", repo)
      | Some c =>
          (answer code reason (commit_value p c (JS.toString (field b "message"))),
           mkRepo (r_owner repo) (r_name repo) (r_branch repo)
                  (store p c (r_files repo)) (r_tree_limit repo) (r_online repo))
      end
  | _ => (failure 422 "Unprocessable Entity" "content wasn't supplied", repo)
  end.

Definition put (repo : Repo) (p : string) (b : option JSValue) : Response * Repo :=
  match lookup p (r_files repo), field b "sha" with
  | None, JUndefined => write repo p b 201 "Created"
  | Some old, JUndefined =>
      (failure 422 "Unprocessable Entity" "Invalid request: sha wasn't supplied.", repo)
  | Some old, JStr h =>
      if String.eqb h (blob_sha old)
      then write repo p b 200 "OK"
      else (failure 409 "Conflict" (p ++ " does not match " ++ h), repo)
  | _, h => (failure 409 "Conflict" (p ++ " does not match " ++ JS.toString h), repo)
  end.

Definition delete (repo : Repo) (p : string) (b : option JSValue) : Response * Repo :=
  match lookup p (r_files repo), field b "sha" with
  | None, _ => (not_found, repo)
  | Some old, JStr h =>
      if String.eqb h (blob_sha old)
      then (answer 200 "OK" (JObj [("content", JNull)]),
            mkRepo (r_owner repo) (r_name repo) (r_branch repo)
                   (remove p (r_files repo)) (r_tree_limit repo) (r_online repo))
      else (failure 409 "Conflict" (p ++ " does not match " ++ h), repo)
  | Some old, JUndefined =>
      (failure 422 "Unprocessable Entity" "Invalid request: sha wasn't supplied.", repo)
  | Some old, h => (failure 409 "Conflict" (p ++ " does not match " ++ JS.toString h), repo)
  end.

Definition contents (repo : Repo) (req : Request) (target : string) : Response * Repo :=
  let p := match Str.split target "?" with q :: _ => q | [] => target end in
  match method req with
  | GET =>
      match lookup p (r_files repo) with
      | Some c => (answer 200 "OK" (content_value p c true), repo)
      | None => (not_found, repo)
      end
  | PUT => put repo p (body req)
  | DELETE => delete repo p (body req)
  | _ => (not_found, repo)
  end.

Definition route (repo : Repo) (req : Request) : Response * Repo :=
  let base := GITHUB_API_BASE ++ "/repos/" ++ r_owner repo ++ "/" ++ r_name repo in
  match strip_prefix base (url req) with
  | None => (not_found, repo)
  | Some rest =>
      if String.eqb rest "" then
        (answer 200 "OK" (JObj [("full_name", JStr (r_owner repo ++ "/" ++ r_name repo));
                                ("default_branch", JStr (r_branch repo))]), repo)
      else
        match strip_prefix "/git/ref/heads/" rest with
        | Some b =>
            if String.eqb b (r_branch repo)
            then (answer 200 "OK" (JObj [("ref", JStr ("refs/heads/" ++ b));
                                         ("object", JObj [("sha", JStr head_commit)])]), repo)
            else (not_found, repo)
        | None =>
            match strip_prefix "/git/trees/" rest with
            | Some _ => (answer 200 "OK" (tree_value repo), repo)
            | None =>
                match strip_prefix "/contents/" rest with
                | Some target => contents repo req target
                | None => (not_found, repo)
                end
            end
        end
  end.

Definition provider : Provider :=
  {| Remote := Repo;
     serve := fun req repo =>
                if r_online repo
                then let '(resp, repo') := route repo req in (Some resp, repo')
                else (None, repo) |}.

(** The hash the provider holds for a path. *)
Definition current_sha (repo : Repo) (p : string) : option string :=
  option_map blob_sha (lookup p (r_files repo)).

Definition world (repo : Repo) (time : Z) : @World provider :=
  @mkWorld provider repo [] [] time.

End RefProvider.

(* ===================================================================== *)
(** * Vocabulary of the statements *)
(* ===================================================================== *)

(** A name that ends, letter case aside, in none of the allowed extensions. *)
Definition no_allowed_suffix (name : string) : Prop :=
  forall e, In e ALLOWED_IMAGE_EXTENSIONS ->
            Str.endsWith (Str.toLowerCase name) e = false.

(** An error response whose body [githubFetch] can read a [message] from
    (anything but a JSON [null]). *)
Definition readable (resp : Response) : bool :=
  match resp_json resp with
  | Some JNull | Some JUndefined => false
  | _ => true
  end.

(** The provider's side of optimistic concurrency, for the resource at
    [u] in state [r], whose stored hash is [current] ([None] when nothing
    is stored): a [PUT] that carries a [sha] other than [current] is
    answered 409 and changes nothing. *)
Definition hash_gated `{Provider} (r : Remote) (u : string) (current : option string) : Prop :=
  forall req fields h,
    url req = u ->
    method req = PUT ->
    body req = Some (JObj fields) ->
    JS.assoc "sha" fields = Some (JStr h) ->
    current <> Some h ->
    exists resp, serve req r = (Some resp, r)
                 /\ resp_status resp = 409
                 /\ readable resp = true.

(** A field [serializeTicket] writes whenever it is set: a truthy value,
    or none at all. *)
Definition kept (v : JSValue) : Prop := JS.truthy v = true \/ v = JUndefined.

(** A list field [serializeTicket] writes whenever it is set: a list with
    an element, or none at all. *)
Definition listed (xs : option (list string)) : Prop := xs <> Some [].

(** [{ ...ticket, updatedAt: u }] *)
Definition with_updatedAt (u : JSValue) (t : Ticket) : Ticket :=
  {| id := id t; path := path t; sha := sha t;
     title := title t; type := type t; status := status t;
     priority := priority t; assignees := assignees t; labels := labels t;
     parent := parent t; version := version t; estimate := estimate t;
     dueDate := dueDate t; description := description t; images := images t;
     createdAt := createdAt t; updatedAt := u |}.

(** What [githubFetch] makes of the outcome of [fetch]. *)
Definition interpret (o : option Response) : Result JSValue :=
  match o with
  | None => Throw (JSError "TypeError" "Failed to fetch")
  | Some response =>
      if negb (ok response) then
        let error := match resp_json response with Some v => v | None => JObj [] end in
        let? msg := JS.get error "message" in
        Throw (GitHubAPIError (resp_status response)
                 (if JS.truthy msg then JS.toString msg
                  else "GitHub API error: " ++ resp_statusText response)
                 error)
      else if resp_status response =? 204 then Ok (JObj [])
      else match resp_json response with
           | Some v => Ok v
           | None => Throw (JSError "SyntaxError" "Unexpected end of JSON input")
           end
  end.

(** What [fetchFileContent] makes of the JSON it receives. *)
Definition file_of `{Platform} (response : JSValue) : Result (string * JSValue) :=
  let? ty := JS.get response "type" in
  if negb (JS.eq_string ty "file")
  then Throw (JSError "Error" ("Expected file but got " ++ JS.toString ty))
  else
    let? c := JS.get response "content" in
    if negb (JS.truthy c) then Throw (JSError "Error" "File has no content")
    else
      let? b64 := as_string "response.content.replace" c in
      match atob (Str.remove_newlines b64) with
      | None => Throw (JSError "InvalidCharacterError"
                         "The string to be decoded is not correctly encoded.")
      | Some content =>
          let? s := JS.get response "sha" in
          Ok (content, s)
      end.

(** The world after one more request. *)
Definition sent `{Provider} (req : Request) (w : World) (r : Remote) : World :=
  mkWorld _ r (requests w ++ [req]) (console w) (now w).

(** The world after one more console line. *)
Definition logged `{Provider} (l : Level) (line : string) (w : World) : World :=
  mkWorld _ (remote w) (requests w) (console w ++ [(l, line)]) (now w).

(** A provider state that a read leaves as it is. *)
Definition reads_only `{Provider} (r : Remote) : Prop :=
  forall req, method req = GET -> snd (serve req r) = r.

(** The provider answers [req] in state [r] with the JSON value [v] and
    moves to [r']. *)
Definition answers `{Provider} (req : Request) (r : Remote) (v : JSValue) (r' : Remote) : Prop :=
  exists resp, serve req r = (Some resp, r')
               /\ ok resp = true
               /\ (resp_status resp =? 204) = false
               /\ resp_json resp = Some v.

(** [path.endsWith('.yml') || path.endsWith('.yaml')] *)
Definition is_yaml (p : string) : bool :=
  negb (negb (Str.endsWith p ".yml") && negb (Str.endsWith p ".yaml")).

(** The paths of the listed files that have a YAML extension. *)
Definition yaml_paths (files : list JSValue) : list string :=
  flat_map (fun f => match JS.get f "path" with
                     | Ok (JStr p) => if is_yaml p then [p] else []
                     | _ => []
                     end) files.

(** A listed item whose [path] is a string. *)
Definition has_path (f : JSValue) : Prop := exists p, JS.get f "path" = Ok (JStr p).

(** [n] slashes. *)
Definition slashes (n : nat) : string := Str.of_chars (repeat "/"%char n).

(** The plain prefix test, in words: the entry is a blob and its path
    starts with [prefix]; nothing is asked of the character after the
    prefix. *)
Definition selected (prefix : string) (item : JSValue) : bool :=
  match JS.get item "type", JS.get item "path" with
  | Ok (JStr ty), Ok (JStr p) => String.eqb ty "blob" && Str.startsWith p prefix
  | _, _ => false
  end.

(** An entry of a tree that the filter can test without throwing: it is
    not [null], and when it is a blob its path is a string. *)
Definition testable (item : JSValue) : bool :=
  match JS.get item "type" with
  | Ok ty =>
      if JS.eq_string ty "blob"
      then match JS.get item "path" with Ok (JStr _) => true | _ => false end
      else true
  | Throw _ => false
  end.

(** The request [listFilesRecursively] resolves the branch with. *)
Definition ref_request (owner repo token : string) (branch : option string) : Request :=
  request_of ("/repos/" ++ owner ++ "/" ++ repo ++ "/git/ref/heads/"
              ++ (if given branch then text branch else "main")) token GET JUndefined.

(** The request [listFilesRecursively] reads the tree of [commit] with. *)
Definition tree_request (owner repo token : string) (commit : JSValue) : Request :=
  request_of ("/repos/" ++ owner ++ "/" ++ repo ++ "/git/trees/"
              ++ JS.toString commit ++ "?recursive=1") token GET JUndefined.

(** The request [loadTickets] reads the file at [p] with. *)
Definition file_request `{Platform} (owner repo token : string) (branch : option string)
           (p : string) : Request :=
  request_of (contents_endpoint owner repo p
              ++ (if given branch then "?ref=" ++ encodeURIComponent (text branch) else ""))
    token GET JUndefined.

(** The outcome of fetching and decoding the file at [p] in state [r]. *)
Definition decode `{Platform} `{Provider} (owner repo token : string) (branch : option string)
           (r : Remote) (p : string) : Result Ticket :=
  let? v := interpret (fst (serve (file_request owner repo token branch p) r)) in
  let? cs := file_of v in
  parseTicketFile (fst cs) p (snd cs).

(** The tickets of the files at [ps] that decode, in order. *)
Definition decoded `{Platform} `{Provider} (owner repo token : string) (branch : option string)
           (r : Remote) (ps : list string) : list Ticket :=
  flat_map (fun p => match decode owner repo token branch r p with
                     | Ok t => [t]
                     | Throw _ => []
                     end) ps.

(* ===================================================================== *)
(** * Sample data *)
(* ===================================================================== *)

Module Sample.

Definition P : Platform := RefPlatform.platform.
Definition V : Provider := RefProvider.provider.

Definition clock : Z := 1700000000123.

Definition ticket (hash : JSValue) : Ticket :=
  {| id := "t1"; path := ".kabane/tickets/t1.yml"; sha := hash;
     title := JStr "Fix login"; type := JStr "bug"; status := JStr "todo";
     priority := Some high; assignees := Some ["ann"]; labels := None;
     parent := JUndefined; version := JStr "v-1"; estimate := Some 3;
     dueDate := JUndefined; description := JStr "Login fails"; images := None;
     createdAt := JStr "2024-01-01T00:00:00.000Z";
     updatedAt := JStr "2024-01-02T00:00:00.000Z" |}.

(** The same ticket with an empty list of assignees. *)
Definition unassigned : Ticket :=
  {| id := "t1"; path := ".kabane/tickets/t1.yml"; sha := JStr "abc";
     title := JStr "Fix login"; type := JStr "bug"; status := JStr "todo";
     priority := Some high; assignees := Some []; labels := None;
     parent := JUndefined; version := JStr "v-1"; estimate := Some 3;
     dueDate := JUndefined; description := JStr "Login fails"; images := None;
     createdAt := JStr "2024-01-01T00:00:00.000Z";
     updatedAt := JStr "2024-01-02T00:00:00.000Z" |}.

(** The same ticket with an empty title. *)
Definition untitled : Ticket :=
  {| id := "t1"; path := ".kabane/tickets/t1.yml"; sha := JStr "abc";
     title := JStr ""; type := JStr "bug"; status := JStr "todo";
     priority := Some high; assignees := Some ["ann"]; labels := None;
     parent := JUndefined; version := JStr "v-1"; estimate := Some 3;
     dueDate := JUndefined; description := JStr "Login fails"; images := None;
     createdAt := JStr "2024-01-01T00:00:00.000Z";
     updatedAt := JStr "2024-01-02T00:00:00.000Z" |}.

Definition doc : string := @serializeTicket P clock (ticket (JStr "")).

Definition repository (files : list (string * string)) (limit : nat) : RefProvider.Repo :=
  RefProvider.mkRepo "o" "r" "main" files limit true.

(** One stored ticket. *)
Definition one_ticket : RefProvider.Repo :=
  repository [(".kabane/tickets/t1.yml", "{}")] 100.

(** No stored ticket. *)
Definition no_ticket : RefProvider.Repo :=
  repository [(".kabane/columns.yml", "[]")] 100.

(** Two stored tickets behind a tree listing of one entry. *)
Definition truncating : RefProvider.Repo :=
  repository [(".kabane/tickets/a.yml", doc); (".kabane/tickets/b.yml", doc)] 1.

(** Three ticket files, the second of which is not a document. *)
Definition one_bad : RefProvider.Repo :=
  repository [(".kabane/columns.yml", "[]");
              (".kabane/tickets/readme.md", "notes");
              (".kabane/tickets/t1.yml", doc);
              (".kabane/tickets/bad.yml", "{nonsense");
              (".kabane/tickets/t2.yaml", doc)] 100.

(** No tickets directory, and a neighbour whose name begins alike. *)
Definition archive_only : RefProvider.Repo :=
  repository [(".kabane/columns.yml", "[]");
              (".kabane/tickets-archive/old.yml", doc)] 100.

Definition world (repo : RefProvider.Repo) : @World V := RefProvider.world repo clock.

Definition ticket_url : string :=
  GITHUB_API_BASE ++ contents_endpoint "o" "r" ".kabane/tickets/t1.yml".

Definition screenshot : File := mkFile "screen shot.PNG" "one".
Definition screenshot' : File := mkFile "screen shot.PNG" "two".

Definition columns_items : list JSValue :=
  [JObj [("id", JStr "todo"); ("name", JStr "To Do")];
   JObj [("id", JStr "done"); ("name", JStr "Done"); ("statuses", JArr [JStr "done"; JStr "closed"])]].

End Sample.

(** What [listFilesRecursively] yields for the tickets folder of a sample
    repository, and the world it leaves. *)
Definition listed_in (repo : RefProvider.Repo) : list JSValue :=
  match fst (@listFilesRecursively Sample.V "o" "r" TICKETS_FOLDER "tok" (Some "main")
               (Sample.world repo)) with
  | Ok files => files
  | Throw _ => []
  end.

Definition after_listing (repo : RefProvider.Repo) : @World Sample.V :=
  snd (@listFilesRecursively Sample.V "o" "r" TICKETS_FOLDER "tok" (Some "main")
         (Sample.world repo)).

(* ===================================================================== *)
(** * Default configuration ([src/utils/parser.ts]) *)
(* ===================================================================== *)

Definition DEFAULT_COLUMNS : list KanbanColumn :=
  [mkColumn (JStr "todo") (JStr "To Do") [JStr "todo"] (JStr "#58a6ff");
   mkColumn (JStr "in-progress") (JStr "In Progress") [JStr "in-progress"] (JStr "#d29922");
   mkColumn (JStr "done") (JStr "Done") [JStr "done"] (JStr "#3fb950")].

(** The icons are the text the source file holds, character for character. *)
Definition DEFAULT_TICKET_TYPES : list TicketType :=
  [mkTicketType (JStr "epic") (JStr "Epic") (JStr "üéØ") (JStr "#a371f7");
   mkTicketType (JStr "story") (JStr "Story") (JStr "üìñ") (JStr "#58a6ff");
   mkTicketType (JStr "bug") (JStr "Bug") (JStr "üêõ") (JStr "#f85149");
   mkTicketType (JStr "task") (JStr "Task") (JStr "‚úÖ") (JStr "#3fb950")].

Definition DEFAULT_VERSIONS : list Version := [].

(** [KabaneConfig] of [src/types/index.ts] *)
Record KabaneConfig : Type := mkConfig {
  cfg_columns : list KanbanColumn;
  cfg_ticketTypes : list TicketType;
  cfg_versions : list Version
}.

Definition getDefaultConfig : KabaneConfig :=
  mkConfig DEFAULT_COLUMNS DEFAULT_TICKET_TYPES DEFAULT_VERSIONS.

(* ===================================================================== *)
(** * Repository, configuration and versions ([src/api/github.ts]) *)
(* ===================================================================== *)

(** [a === b]. Numbers, strings and booleans are compared by value. An
    array or an object is compared by identity, which a value does not
    carry: two of them are taken to be two objects. *)
Definition strict_eq (a b : JSValue) : bool :=
  match a, b with
  | JUndefined, JUndefined => true
  | JNull, JNull => true
  | JBool x, JBool y => Bool.eqb x y
  | JNum x, JNum y => x =? y
  | JStr x, JStr y => String.eqb x y
  | _, _ => false
  end.

(** [const [owner, repo] = fullName.split('/')] and the check after it. *)
Definition parseRepoFullName (fullName : string) : Result (string * string) :=
  match Str.split fullName "/" with
  | owner :: repo :: _ =>
      if String.eqb owner "" || String.eqb repo ""
      then Throw (JSError "Error" ("Invalid repository name: " ++ fullName))
      else Ok (owner, repo)
  | _ => Throw (JSError "Error" ("Invalid repository name: " ++ fullName))
  end.

(** [currentVersions.map(v => (v.id === version.id ? version : v))] *)
Definition replace_version (version : Version) (currentVersions : list Version) : list Version :=
  map (fun v => if strict_eq (v_id v) (v_id version) then version else v) currentVersions.

(** [currentVersions.filter(v => v.id !== versionId)] *)
Definition remove_version (versionId : string) (currentVersions : list Version) : list Version :=
  filter (fun v => negb (JS.eq_string (v_id v) versionId)) currentVersions.

(** A line feed. *)
Definition LF : string := String (ascii_of_nat 10) "".

Section Repository.
Context `{Platform} `{Provider}.

(** What [checkPushAccess] resolves to: a value of the answer or
    [false], or, when [permissions] is an array, the [push] method that
    every array inherits, a function and so no value of a document. *)
Inductive PushAccess : Type :=
| PushValue (v : JSValue)
| ArrayPush.

(** [repository.permissions?.push ?? false] sits in the [try]. *)
Definition checkPushAccess (owner repo token : string) : M PushAccess :=
  try_catch
    (repository <- fetchRepository owner repo token ;;
     permissions <- lift (JS.get repository "permissions") ;;
     match permissions with
     | JUndefined | JNull => ret (PushValue (JBool false))
     | JArr _ => ret ArrayPush
     | _ =>
         push <- lift (JS.get permissions "push") ;;
         ret (PushValue (match push with
                         | JUndefined | JNull => JBool false
                         | _ => push
                         end))
     end)
    (fun error => if isForbidden error then ret (PushValue (JBool false)) else throw error).

Definition checkKabaneFolderExists (owner repo token : string) (branch : option string)
  : M bool :=
  try_catch
    (let params := if given branch then "?ref=" ++ encodeURIComponent (text branch) else "" in
     githubFetch (contents_endpoint owner repo KABANE_FOLDER ++ params) token GET JUndefined ;;
     ret true)
    (fun error => if isNotFound error then ret false else throw error).

(** [...v] in an argument list: the elements of an array, the code units
    of a string; anything else is not iterable (the message is the
    engine's). *)
Definition spread (v : JSValue) : Result (list JSValue) :=
  match v with
  | JArr items => Ok items
  | JStr s => Ok (map (fun a => JStr (String a "")) (Str.chars s))
  | _ => Throw (JSError "TypeError"
                  "Spread syntax requires ...iterable[Symbol.iterator] to be a function")
  end.

(** The callback of the map in [loadContributors]. *)
Definition owner_of (fork : JSValue) : Result JSValue := JS.get fork "owner".

Definition loadContributors (owner repo token : string) : M (list JSValue) :=
  try_catch
    (response <- githubFetch ("/repos/" ++ owner ++ "/" ++ repo
                              ++ "/collaborators?permission=push") token GET JUndefined ;;
     collaborators <- lift (spread response) ;;
     forksResponse <- githubFetch ("/repos/" ++ owner ++ "/" ++ repo ++ "/forks")
                        token GET JUndefined ;;
     forkOwners <- (match forksResponse with
                    | JArr forks => lift (map_result owner_of forks)
                    | JUndefined =>
                        throw (JSError "TypeError"
                                 "Cannot read properties of undefined (reading 'map')")
                    | JNull =>
                        throw (JSError "TypeError"
                                 "Cannot read properties of null (reading 'map')")
                    | _ => throw (JSError "TypeError" "forksResponse.map is not a function")
                    end) ;;
     ret (collaborators ++ forkOwners)%list)
    (fun error => if isNotFound error then ret [] else throw error).

(** One of the three blocks of [loadKabaneConfig]: the file at [p] decoded
    by [parse], or [default] when fetching or decoding throws; the throw is
    written to the console unless it is a NotFound. *)
Definition load_or_default {A} (owner repo token : string) (branch : option string)
           (p label : string) (parse : string -> Result A) (default : A) : M A :=
  try_catch
    (cs <- fetchFileContent owner repo p token branch ;;
     lift (parse (fst cs)))
    (fun error =>
       (if negb (isNotFound error)
        then console_log LogWarn ("Failed to load " ++ label ++ ":")
        else ret tt) ;;
       ret default).

Definition loadKabaneConfig (owner repo token : string) (branch : option string)
  : M KabaneConfig :=
  columns <- load_or_default owner repo token branch COLUMNS_FILE "columns.yml"
               parseColumnsFile DEFAULT_COLUMNS ;;
  ticketTypes <- load_or_default owner repo token branch TICKET_TYPES_FILE "ticketTypes.yml"
                   parseTicketTypesFile DEFAULT_TICKET_TYPES ;;
  versions <- load_or_default owner repo token branch VERSIONS_FILE "versions.yml"
                parseVersionsFile DEFAULT_VERSIONS ;;
  ret (mkConfig columns ticketTypes versions).

(** The sample ticket of [initializeKabaneFolder]; [created] and [updated]
    are the two clock readings. *)
Definition sampleTicket (created updated : Z) : Ticket :=
  {| id := "welcome";
     path := TICKETS_FOLDER ++ "/welcome.yml";
     sha := JStr "";
     title := JStr "Welcome to Kabane!";
     type := JStr "task";
     status := JStr "backlog";
     priority := None; assignees := None; labels := None;
     parent := JUndefined; version := JUndefined; estimate := None;
     dueDate := JUndefined;
     description :=
       JStr ("This is your first ticket. Feel free to edit or delete it." ++ LF ++ LF
             ++ "Kabane stores your tickets as YAML files in the `.kabane/tickets/` folder.");
     images := None;
     createdAt := JStr (toISOString created);
     updatedAt := JStr (toISOString updated) |}.

Definition initializeKabaneFolder (owner repo token : string) (branch : option string)
  : M unit :=
  createOrUpdateFile
    {| p_owner := owner; p_repo := repo; p_path := COLUMNS_FILE;
       p_content := serializeColumnsFile DEFAULT_COLUMNS;
       p_message := "🎯 Initialize Kabane: Add columns.yml";
       p_sha := JUndefined; p_branch := branch |} token ;;
  createOrUpdateFile
    {| p_owner := owner; p_repo := repo; p_path := TICKET_TYPES_FILE;
       p_content := serializeTicketTypesFile DEFAULT_TICKET_TYPES;
       p_message := "🎯 Initialize Kabane: Add ticketTypes.yml";
       p_sha := JUndefined; p_branch := branch |} token ;;
  createOrUpdateFile
    {| p_owner := owner; p_repo := repo; p_path := VERSIONS_FILE;
       p_content := serializeVersionsFile DEFAULT_VERSIONS;
       p_message := "🎯 Initialize Kabane: Add versions.yml";
       p_sha := JUndefined; p_branch := branch |} token ;;
  t1 <- Date_now ;;
  t2 <- Date_now ;;
  t3 <- Date_now ;;
  createOrUpdateFile
    {| p_owner := owner; p_repo := repo; p_path := path (sampleTicket t1 t2);
       p_content := serializeTicket t3 (sampleTicket t1 t2);
       p_message := "🎯 Initialize Kabane: Add sample ticket";
       p_sha := JUndefined; p_branch := branch |} token ;;
  ret tt.

(** ** Versions *)

Definition saveVersions (owner repo : string) (versions : list Version) (token : string)
           (branch : option string) : M unit :=
  sha <- try_catch
           (cs <- fetchFileContent owner repo VERSIONS_FILE token branch ;;
            ret (snd cs))
           (fun error => if negb (isNotFound error) then throw error else ret JUndefined) ;;
  createOrUpdateFile
    {| p_owner := owner; p_repo := repo; p_path := VERSIONS_FILE;
       p_content := serializeVersionsFile versions;
       p_message := "📦 Update versions";
       p_sha := sha; p_branch := branch |} token ;;
  ret tt.

(** [createVersion]; the [createdAt] of the argument is not part of its
    type in the source and is overwritten. *)
Definition createVersion (owner repo : string) (version : Version)
           (currentVersions : list Version) (token : string) (branch : option string)
  : M (list Version) :=
  t <- Date_now ;;
  let newVersion := mkVersion (v_id version) (v_name version) (v_startDate version)
                      (v_targetDate version) (JStr (toISOString t)) in
  let updatedVersions := (currentVersions ++ [newVersion])%list in
  saveVersions owner repo updatedVersions token branch ;;
  ret updatedVersions.

Definition updateVersion (owner repo : string) (version : Version)
           (currentVersions : list Version) (token : string) (branch : option string)
  : M (list Version) :=
  let updatedVersions := replace_version version currentVersions in
  saveVersions owner repo updatedVersions token branch ;;
  ret updatedVersions.

Definition deleteVersion (owner repo versionId : string)
           (currentVersions : list Version) (token : string) (branch : option string)
  : M (list Version) :=
  let updatedVersions := remove_version versionId currentVersions in
  saveVersions owner repo updatedVersions token branch ;;
  ret updatedVersions.

End Repository.

(* ===================================================================== *)
(** * Images ([src/api/github.ts]) *)
(* ===================================================================== *)

(** [imageName.split('.').pop()?.toLowerCase() || ''] *)
Definition extension_of (imageName : string) : string :=
  match Str.pop (Str.split imageName ".") with
  | Some e => Str.toLowerCase e
  | None => ""
  end.

(** [mimeTypes[ext] || 'application/octet-stream'], as the text the
    template literal makes of it. The table is an object literal, so the
    two lower-case names it inherits, [constructor] and [__proto__], are
    found too: a function, with the text V8 prints for it, and an
    object. *)
Definition mime_of (ext : string) : string :=
  if String.eqb ext "jpg" then "image/jpeg"
  else if String.eqb ext "jpeg" then "image/jpeg"
  else if String.eqb ext "png" then "image/png"
  else if String.eqb ext "gif" then "image/gif"
  else if String.eqb ext "webp" then "image/webp"
  else if String.eqb ext "svg" then "image/svg+xml"
  else if String.eqb ext "constructor" then "function Object() { [native code] }"
  else if String.eqb ext "__proto__" then "[object Object]"
  else "application/octet-stream".

(** An optional string argument with a default ([branch: string = 'main']). *)
Definition or_main (branch : option string) : string :=
  match branch with Some b => b | None => "main" end.

Definition data_url_of (mimeType base64Content : string) : string :=
  "data:" ++ mimeType ++ ";base64," ++ base64Content.

Section Images.
Context `{Platform} `{Provider}.

Definition getImageAsDataUrl (owner repo ticketId imageName token : string)
           (branch : option string) : M string :=
  let imagePath := ".kabane/images/" ++ ticketId ++ "/" ++ imageName in
  let mimeType := mime_of (extension_of imageName) in
  response <- githubFetch (contents_endpoint owner repo imagePath ++ "?ref=" ++ or_main branch)
                token GET JUndefined ;;
  content <- lift (JS.get response "content") ;;
  if JS.truthy content then
    c <- lift (as_string "response.content.replace" content) ;;
    ret (data_url_of mimeType (Str.remove_newlines c))
  else
    s <- lift (JS.get response "sha") ;;
    if JS.truthy s then
      blobResponse <- githubFetch ("/repos/" ++ owner ++ "/" ++ repo ++ "/git/blobs/"
                                   ++ JS.toString s) token GET JUndefined ;;
      bc <- lift (JS.get blobResponse "content") ;;
      if JS.truthy bc then
        enc <- lift (JS.get blobResponse "encoding") ;;
        if JS.eq_string enc "base64" then
          c <- lift (as_string "blobResponse.content.replace" bc) ;;
          ret (data_url_of mimeType (Str.remove_newlines c))
        else throw (JSError "Error" "Unable to load image content")
      else throw (JSError "Error" "Unable to load image content")
    else throw (JSError "Error" "Unable to load image content").

(** [branch || (await getDefaultBranch(owner, repo, token))] *)
Definition target_branch (owner repo token : string) (branch : option string) : M JSValue :=
  if given branch then ret (JStr (text branch)) else getDefaultBranch owner repo token.

Definition deleteImage (owner repo ticketId imageName token : string)
           (branch : option string) : M unit :=
  let imagePath := getImagePath ticketId imageName in
  targetBranch <- target_branch owner repo token branch ;;
  file <- githubFetch (contents_endpoint owner repo imagePath ++ "?ref="
                       ++ JS.toString targetBranch) token GET JUndefined ;;
  s <- lift (JS.get file "sha") ;;
  githubFetch (contents_endpoint owner repo imagePath) token DELETE
    (JObj [("message", JStr ("Delete image " ++ imageName ++ " from ticket " ++ ticketId));
           ("sha", s);
           ("branch", targetBranch)]) ;;
  ret tt.

(** The callback of the filter in [listTicketImages]. *)
Definition is_image_file (item : JSValue) : Result bool :=
  let? ty := JS.get item "type" in
  if JS.eq_string ty "file" then
    let? n := JS.get item "name" in
    let? name := as_string "split" n in
    Ok (isValidImageExtension name)
  else Ok false.

(** The callback of the map in [listTicketImages]. *)
Definition name_of (item : JSValue) : Result JSValue := JS.get item "name".

Definition listTicketImages (owner repo ticketId token : string) (branch : option string)
  : M (list JSValue) :=
  let imagesPath := ".kabane/images/" ++ ticketId in
  targetBranch <- target_branch owner repo token branch ;;
  try_catch
    (contents <- githubFetch (contents_endpoint owner repo imagesPath ++ "?ref="
                              ++ JS.toString targetBranch) token GET JUndefined ;;
     match contents with
     | JArr items =>
         kept <- lift (filter_result is_image_file items) ;;
         lift (map_result name_of kept)
     | JUndefined | JNull =>
         throw (JSError "TypeError" "Cannot read properties of undefined (reading 'filter')")
     | _ => throw (JSError "TypeError" "contents.filter is not a function")
     end)
    (fun error => if isNotFound error then ret [] else throw error).

End Images.

(* ===================================================================== *)
(** * Vocabulary of the further statements *)
(* ===================================================================== *)

(** The character [c] does not occur in [s]. *)
Definition lacks (c : ascii) (s : string) : bool :=
  forallb (fun a => negb (Ascii.eqb a c)) (Str.chars s).

(** [data.k] when [data] is neither [null] nor [undefined]. *)
Definition field_of (data : JSValue) (k : string) : JSValue :=
  match data with
  | JObj fields => match JS.assoc k fields with Some x => x | None => JUndefined end
  | _ => JUndefined
  end.

(** [null] or [undefined] *)
Definition nullish (v : JSValue) : bool :=
  match v with JUndefined | JNull => true | _ => false end.

(** [String(v)] converts [v] without throwing: an object converts
    through the [toString] it inherits unless it has an entry of that
    name of its own (which, in a document, is not a function); an array
    converts its elements. *)
Fixpoint stringable (v : JSValue) : bool :=
  match v with
  | JArr items => forallb stringable items
  | JObj fields =>
      match JS.assoc "toString" fields with
      | Some _ => false
      | None => true
      end
  | _ => true
  end.

(** A list field of a document that [normalizeArray] converts without
    throwing: every element of an array is [stringable]; a string is
    taken as it is and anything else is dropped. *)
Definition converts (v : JSValue) : bool :=
  match v with
  | JArr items => forallb stringable items
  | _ => true
  end.

(** The ticket [parseTicketFile] builds from the document [data]. *)
Definition ticket_of (data : JSValue) (p : string) (h : JSValue) : Ticket :=
  {| id := extractTicketId p;
     path := p;
     sha := h;
     title := JS.or (field_of data "title") (JStr ("Ticket " ++ extractTicketId p));
     type := JS.or (field_of data "type") (JStr "task");
     status := JS.or (field_of data "status") (JStr "backlog");
     priority := validatePriority (field_of data "priority");
     assignees := normalizeArray (field_of data "assignees");
     labels := normalizeArray (field_of data "labels");
     parent := field_of data "parent";
     version := field_of data "version";
     estimate := match field_of data "estimate" with JNum n => Some n | _ => None end;
     dueDate := field_of data "dueDate";
     description := field_of data "description";
     images := normalizeArray (field_of data "images");
     createdAt := field_of data "createdAt";
     updatedAt := field_of data "updatedAt" |}.

(** A list field as it comes back: unset when it was empty. *)
Definition unset_if_empty (xs : option (list string)) : option (list string) :=
  if nonempty xs then xs else None.

(** A field as it comes back: unset when it was falsy. *)
Definition unset_if_falsy (v : JSValue) : JSValue :=
  if JS.truthy v then v else JUndefined.

(** What one encoding and decoding makes of a ticket. *)
Definition normalise `{Platform} (time : Z) (p : string) (h : JSValue) (t : Ticket) : Ticket :=
  {| id := extractTicketId p;
     path := p;
     sha := h;
     title := JS.or (title t) (JStr ("Ticket " ++ extractTicketId p));
     type := JS.or (type t) (JStr "task");
     status := JS.or (status t) (JStr "backlog");
     priority := priority t;
     assignees := unset_if_empty (assignees t);
     labels := unset_if_empty (labels t);
     parent := unset_if_falsy (parent t);
     version := unset_if_falsy (version t);
     estimate := estimate t;
     dueDate := unset_if_falsy (dueDate t);
     description := unset_if_falsy (description t);
     images := unset_if_empty (images t);
     createdAt := unset_if_falsy (createdAt t);
     updatedAt := JStr (toISOString time) |}.

(** Neither an array nor an object. *)
Definition scalar (v : JSValue) : bool :=
  match v with JArr _ | JObj _ => false | _ => true end.

Definition plain_version (v : Version) : bool :=
  scalar (v_id v) && scalar (v_name v) && scalar (v_startDate v)
  && scalar (v_targetDate v) && scalar (v_createdAt v).

Definition plain_type (t : TicketType) : bool :=
  scalar (tt_id t) && scalar (tt_name t) && scalar (tt_icon t) && scalar (tt_color t).

Definition plain_column (c : KanbanColumn) : bool :=
  scalar (col_id c) && scalar (col_name c) && scalar (col_color c)
  && forallb (fun s => scalar s && defined s) (col_statuses c).

(** The fields [JSON.stringify] keeps of one property. *)
Definition json_field (k : string) (x : JSValue) : list (string * JSValue) :=
  match x with
  | JUndefined => []
  | _ => [(k, JS.json x)]
  end.

(** The column [parseColumnsFile] builds from one item. *)
Definition column_from (item : JSValue) : KanbanColumn :=
  mkColumn (field_of item "id") (field_of item "name")
    (match field_of item "statuses" with
     | JArr l => l
     | _ => [field_of item "id"]
     end)
    (field_of item "color").

(** The outcome of fetching the file at [p] in state [r]. *)
Definition read_file `{Platform} `{Provider} (owner repo token : string)
           (branch : option string) (r : Remote) (p : string) : Result (string * JSValue) :=
  let? v := interpret (fst (serve (file_request owner repo token branch p) r)) in
  file_of v.

(** What [loadKabaneConfig] takes for one file: what [parse] makes of the
    content read, or [default] when reading or decoding throws. *)
Definition loaded_or {A} (read : Result (string * JSValue)) (parse : string -> Result A)
           (default : A) : A :=
  match (let? cs := read in parse (fst cs)) with
  | Ok a => a
  | Throw _ => default
  end.

(** The [console.warn] lines of a console. The [console.error] line of
    [parseYaml] is not kept, so the statements about what an operation
    writes are statements about its warnings. *)
Definition warnings (c : list (Level * string)) : list (Level * string) :=
  filter (fun l => match fst l with LogWarn => true | LogError => false end) c.

(** The warning [loadKabaneConfig] writes for one file. *)
Definition warning_of {A} (label : string) (read : Result (string * JSValue))
           (parse : string -> Result A) : list (Level * string) :=
  match (let? cs := read in parse (fst cs)) with
  | Ok _ => []
  | Throw e => if isNotFound e then [] else [(LogWarn, "Failed to load " ++ label ++ ":")]
  end.

(** The request [checkKabaneFolderExists] probes the folder with. *)
Definition folder_request `{Platform} (owner repo token : string) (branch : option string)
  : Request :=
  file_request owner repo token branch KABANE_FOLDER.

(** The request [fetchRepository] issues. *)
Definition repository_request (owner repo token : string) : Request :=
  request_of ("/repos/" ++ owner ++ "/" ++ repo) token GET JUndefined.

(** The write [saveVersions] issues for [versions] with the hash [h]. *)
Definition versions_write `{Platform} (owner repo token : string) (branch : option string)
           (versions : list Version) (h : JSValue) : Request :=
  request_of (contents_endpoint owner repo VERSIONS_FILE) token PUT
    (put_body {| p_owner := owner; p_repo := repo; p_path := VERSIONS_FILE;
                 p_content := serializeVersionsFile versions;
                 p_message := "📦 Update versions";
                 p_sha := h; p_branch := branch |}).

(** [{ ...version, createdAt }] *)
Definition stamped `{Platform} (time : Z) (version : Version) : Version :=
  mkVersion (v_id version) (v_name version) (v_startDate version)
    (v_targetDate version) (JStr (toISOString time)).
(** The four writes of [initializeKabaneFolder], in order. *)
Definition init_params `{Platform} (owner repo : string) (branch : option string) (time : Z)
  : list CreateOrUpdateFileParams :=
  [ {| p_owner := owner; p_repo := repo; p_path := COLUMNS_FILE;
       p_content := serializeColumnsFile DEFAULT_COLUMNS;
       p_message := "🎯 Initialize Kabane: Add columns.yml";
       p_sha := JUndefined; p_branch := branch |};
    {| p_owner := owner; p_repo := repo; p_path := TICKET_TYPES_FILE;
       p_content := serializeTicketTypesFile DEFAULT_TICKET_TYPES;
       p_message := "🎯 Initialize Kabane: Add ticketTypes.yml";
       p_sha := JUndefined; p_branch := branch |};
    {| p_owner := owner; p_repo := repo; p_path := VERSIONS_FILE;
       p_content := serializeVersionsFile DEFAULT_VERSIONS;
       p_message := "🎯 Initialize Kabane: Add versions.yml";
       p_sha := JUndefined; p_branch := branch |};
    {| p_owner := owner; p_repo := repo; p_path := path (sampleTicket time time);
       p_content := serializeTicket time (sampleTicket time time);
       p_message := "🎯 Initialize Kabane: Add sample ticket";
       p_sha := JUndefined; p_branch := branch |} ].

(** The hash [saveVersions] takes from its read: the one of the file,
    none when the file is not found; any other error is thrown on. *)
Definition hash_read (read : Result (string * JSValue)) : Result JSValue :=
  match read with
  | Ok cs => Ok (snd cs)
  | Throw e => if isNotFound e then Ok JUndefined else Throw e
  end.

(** The read [deleteImage] and [getImageAsDataUrl] issue for an image on
    the branch [ref]; the branch goes into the query as it is. *)
Definition image_read (owner repo ticketId imageName token ref : string) : Request :=
  request_of (contents_endpoint owner repo (getImagePath ticketId imageName) ++ "?ref=" ++ ref)
    token GET JUndefined.

(** The read [listTicketImages] issues for the images of a ticket. *)
Definition images_read (owner repo ticketId token ref : string) : Request :=
  request_of (contents_endpoint owner repo (".kabane/images/" ++ ticketId) ++ "?ref=" ++ ref)
    token GET JUndefined.

(** The read of the blob [h] that [getImageAsDataUrl] falls back to. *)
Definition blob_read (owner repo token : string) (h : JSValue) : Request :=
  request_of ("/repos/" ++ owner ++ "/" ++ repo ++ "/git/blobs/" ++ JS.toString h)
    token GET JUndefined.

(** A string with an allowed image extension. *)
Definition is_image_name (v : JSValue) : bool :=
  match v with
  | JStr s => isValidImageExtension s
  | _ => false
  end.

(** The media types of the allowed image extensions. *)
Definition IMAGE_TYPES : list string :=
  ["image/jpeg"; "image/png"; "image/gif"; "image/webp"; "image/svg+xml"].

(** The warning [loadTickets] writes for a file it skips. *)
Definition ticket_warning (p : string) : Level * string :=
  (LogWarn, "Failed to load ticket " ++ p ++ ":").

(** The files at [ps] that fail to fetch or decode, in order. *)
Definition failing `{Platform} `{Provider} (owner repo token : string)
           (branch : option string) (r : Remote) (ps : list string) : list string :=
  filter (fun p => match decode owner repo token branch r p with
                   | Ok _ => false
                   | Throw _ => true
                   end) ps.

(** The write [createOrUpdateFile] issues for [params]. *)
Definition write_request `{Platform} (token : string) (params : CreateOrUpdateFileParams)
  : Request :=
  request_of (contents_endpoint (p_owner params) (p_repo params) (p_path params))
    token PUT (put_body params).

(** The provider after it has served [reqs], one after the other. *)
Definition remote_after `{Provider} (reqs : list Request) (r : Remote) : Remote :=
  fold_left (fun state req => snd (serve req state)) reqs r.

(** What [githubFetch] makes of the [n]th request of [reqs] when the
    provider, started in [r], has served the ones before it. *)
Definition outcome_at `{Provider} (reqs : list Request) (r : Remote) (n : nat)
  : option (Result JSValue) :=
  match nth_error reqs n with
  | Some req => Some (interpret (fst (serve req (remote_after (firstn n reqs) r))))
  | None => None
  end.

(** The requests [reqs] issued one after the other, up to and including
    the first that fails. *)
Fixpoint issue_each `{Provider} (reqs : list Request) (w : World) : Result unit * World :=
  match reqs with
  | [] => (Ok tt, w)
  | req :: rest =>
      match interpret (fst (serve req (remote w))) with
      | Ok _ => issue_each rest (sent req w (snd (serve req (remote w))))
      | Throw e => (Throw e, sent req w (snd (serve req (remote w))))
      end
  end.

(** A request whose body has no [sha]. *)
Definition creates_only (req : Request) : bool :=
  match body req with
  | Some b => negb (JS.has "sha" b)
  | None => false
  end.

(** The two reads of [loadContributors]. *)
Definition collaborators_request (owner repo token : string) : Request :=
  request_of ("/repos/" ++ owner ++ "/" ++ repo ++ "/collaborators?permission=push")
    token GET JUndefined.

Definition forks_request (owner repo token : string) : Request :=
  request_of ("/repos/" ++ owner ++ "/" ++ repo ++ "/forks") token GET JUndefined.

(* ===================================================================== *)
(** * A scripted provider and further sample data *)
(* ===================================================================== *)

(** A provider that answers from a script: the answers it has left, in
    order, whatever the request; a transport failure once the script has
    run out. *)
Module Scripted.

Definition provider : Provider :=
  {| Remote := list (option Response);
     serve := fun _ script =>
                match script with
                | [] => (None, [])
                | a :: rest => (a, rest)
                end |}.

Definition world (script : list (option Response)) (time : Z) : @World provider :=
  @mkWorld provider script [] [] time.

Definition answer (v : JSValue) : option Response :=
  Some (mkResponse 200 "OK" (Some v)).

Definition refusal (code : Z) (reason : string) : option Response :=
  Some (mkResponse code reason (Some (JObj [("message", JStr reason)]))).

End Scripted.

Module Fixture.

Definition sprint1 : Version :=
  mkVersion (JStr "v-1") (JStr "Sprint 1") (JStr "2024-01-01") JUndefined
    (JStr "2024-01-01T00:00:00.000Z").

Definition sprint2 : Version :=
  mkVersion (JStr "v-2") (JStr "Sprint 2") JUndefined (JStr "2024-03-01")
    (JStr "2024-02-01T00:00:00.000Z").

(** [sprint1] under another name. *)
Definition renamed : Version :=
  mkVersion (JStr "v-1") (JStr "First sprint") (JStr "2024-01-01") JUndefined
    (JStr "2024-01-01T00:00:00.000Z").

(** A version yet to be created. *)
Definition sprint3 : Version :=
  mkVersion (JStr "v-3") (JStr "Sprint 3") JUndefined JUndefined JUndefined.

Definition versions : list Version := [sprint1; sprint2].

(** A repository with a versions file. *)
Definition with_versions : RefProvider.Repo :=
  Sample.repository
    [(".kabane/versions.yml", @serializeVersionsFile Sample.P versions)] 100.

(** A repository with one image of ticket [t1]. *)
Definition with_image : RefProvider.Repo :=
  Sample.repository [(".kabane/images/t1/1700000000123-shot.png", "PNG")] 100.

(** The listing of an image folder: two images, a text file and a folder
    named like an image. *)
Definition image_folder : JSValue :=
  JArr [JObj [("name", JStr "1-a.png"); ("type", JStr "file")];
        JObj [("name", JStr "notes.txt"); ("type", JStr "file")];
        JObj [("name", JStr "old.png"); ("type", JStr "dir")];
        JObj [("name", JStr "2-b.JPG"); ("type", JStr "file")]].

(** A repository that grants push access, and one that refuses the read. *)
Definition writable : list (option Response) :=
  [Scripted.answer (JObj [("full_name", JStr "o/r");
                          ("permissions", JObj [("pull", JBool true); ("push", JBool true)])])].

Definition forbidden : list (option Response) := [Scripted.refusal 403 "Forbidden"].

(** A repository whose [permissions] is an empty array. *)
Definition listed_permissions : list (option Response) :=
  [Scripted.answer (JObj [("full_name", JStr "o/r"); ("permissions", JArr [])])].

(** A ticket document with a list of labels, one of them a number. *)
Definition labelled : JSValue :=
  JObj [("title", JStr "Fix login"); ("labels", JArr [JStr "ui"; JNum 3])].

(** An image too large for its content to come with the first answer,
    and its blob. *)
Definition large_image : list (option Response) :=
  [Scripted.answer (JObj [("name", JStr "big.png"); ("sha", JStr "abc");
                          ("content", JStr "")]);
   Scripted.answer (JObj [("sha", JStr "abc"); ("content", JStr ("UE5H" ++ LF));
                          ("encoding", JStr "base64")])].

(** A provider that accepts one write and refuses the next. *)
Definition second_refused : list (option Response) :=
  [Scripted.answer (JObj []); Scripted.refusal 409 "Conflict"].

(** A user, and a fork of the repository that the user owns. *)
Definition ann : JSValue := JObj [("login", JStr "ann"); ("id", JNum 7)].

Definition fork_of_ann : JSValue :=
  JObj [("full_name", JStr "ann/r"); ("owner", ann)].

Definition world (script : list (option Response)) : @World Scripted.provider :=
  Scripted.world script Sample.clock.

End Fixture.

(* ===================================================================== *)
(** * The primitives on examples *)
(* ===================================================================== *)

Example startsWith_ex : Str.startsWith ".kabane/tickets/a.yml" ".kabane/tickets" = true.
Proof. reflexivity. Qed.
Example endsWith_ex : Str.endsWith "a/b.yml" ".yml" = true /\ Str.endsWith "yml" ".yml" = false.
Proof. split; reflexivity. Qed.
Example split_ex : Str.split "a//b/" "/" = ["a"; ""; "b"; ""] /\ Str.split "" "/" = [""].
Proof. split; reflexivity. Qed.
Example pop_ex : Str.pop (Str.split "photo.final.PNG" ".") = Some "PNG".
Proof. reflexivity. Qed.
Example trim_ex : Str.trim_slashes "//.kabane/tickets/" = ".kabane/tickets"
                  /\ Str.trim_slashes "///" = "".
Proof. split; reflexivity. Qed.
Example strip_ex : Str.strip_yaml_extension "t1.yml" = "t1"
                   /\ Str.strip_yaml_extension "t1.yaml" = "t1"
                   /\ Str.strip_yaml_extension "t1.yml.txt" = "t1.yml.txt".
Proof. repeat split; reflexivity. Qed.
Example sanitize_ex : Str.sanitize "my photo (1).png" = "my_photo__1_.png".
Proof. reflexivity. Qed.
Example of_Z_ex : Str.of_Z 1700000000123 = "1700000000123".
Proof. reflexivity. Qed.
Example ref_iso_ex : RefPlatform.iso 1700000000123 = "2023-11-14T22:13:20.123Z".
Proof. vm_compute. reflexivity. Qed.
Example ref_b64_ex : RefPlatform.base64 "hello" = "aGVsbG8="
                     /\ RefPlatform.unbase64 "aGVsbG8=" = Some "hello"
                     /\ RefPlatform.unbase64 "a" = None.
Proof. vm_compute. repeat split; reflexivity. Qed.
Example ref_doc_ex :
  RefPlatform.parse (RefPlatform.print (JObj [("a", JArr [JNum (-3); JStr "x y"; JNull]); ("b", JObj [])]))
  = Some (JObj [("a", JArr [JNum (-3); JStr "x y"; JNull]); ("b", JObj [])]).
Proof. vm_compute. reflexivity. Qed.

(* ===================================================================== *)
(** * Properties of the string primitives *)
(* ===================================================================== *)

Lemma of_chars_chars (s : string) : Str.of_chars (Str.chars s) = s.
Proof. apply string_of_list_ascii_of_string. Qed.

Lemma chars_of_chars (l : list ascii) : Str.chars (Str.of_chars l) = l.
Proof. apply list_ascii_of_string_of_list_ascii. Qed.

Lemma chars_append (s t : string) : Str.chars (s ++ t) = (Str.chars s ++ Str.chars t)%list.
Proof.
  induction s as [|a s IH]; simpl; [reflexivity|].
  unfold Str.chars in *. simpl. now rewrite IH.
Qed.

Lemma of_chars_app (l m : list ascii) :
  Str.of_chars (l ++ m) = Str.of_chars l ++ Str.of_chars m.
Proof.
  induction l as [|a l IH]; simpl; [reflexivity|].
  unfold Str.of_chars in *. simpl. now rewrite IH.
Qed.

Lemma append_cancel_r (s1 s2 t : string) : s1 ++ t = s2 ++ t -> s1 = s2.
Proof.
  intros E. apply (f_equal Str.chars) in E. rewrite !chars_append in E.
  apply app_inv_tail in E.
  now rewrite <- (of_chars_chars s1), <- (of_chars_chars s2), E.
Qed.

Lemma prefix_append (s t : string) : String.prefix s (s ++ t) = true.
Proof.
  induction s as [|a s IH]; simpl; [now destruct t|].
  destruct (ascii_dec a a); [exact IH | congruence].
Qed.

Lemma endsWith_app (l m : list ascii) :
  Str.endsWith (Str.of_chars (l ++ m)) (Str.of_chars m) = true.
Proof.
  unfold Str.endsWith. rewrite !chars_of_chars, rev_app_distr, of_chars_app.
  apply prefix_append.
Qed.

Lemma split_chars_nonempty (c : ascii) (l : list ascii) : Str.split_chars c l <> [].
Proof.
  destruct l as [|a l]; simpl; [congruence|].
  destruct (Str.split_chars c l); [congruence|].
  destruct (Ascii.eqb a c); congruence.
Qed.

(** The last piece of a split is what follows the last separator. *)
Lemma split_chars_last (c : ascii) (l : list ascii) :
  exists pre, l = (pre ++ last (Str.split_chars c l) [])%list
              /\ (forall p, Str.split_chars c l = [p] -> pre = []).
Proof.
  induction l as [|a l IH]; simpl.
  - exists []. split; [reflexivity | intros; reflexivity].
  - destruct IH as (pre & E & One).
    destruct (Str.split_chars c l) as [|p ps] eqn:S.
    + exfalso. exact (split_chars_nonempty c l S).
    + destruct (Ascii.eqb a c).
      * exists (a :: pre). split.
        -- simpl. f_equal. exact E.
        -- intros q Q. discriminate Q.
      * destruct ps as [|p' ps'].
        -- exists []. split.
           ++ simpl. simpl in E. rewrite (One p eq_refl) in E. simpl in E. now subst.
           ++ reflexivity.
        -- exists (a :: pre). split.
           ++ simpl. f_equal. exact E.
           ++ intros q Q. discriminate Q.
Qed.

Lemma pop_map_last {A B} (f : A -> B) (xs : list A) (d : A) :
  xs <> [] -> Str.pop (map f xs) = Some (f (last xs d)).
Proof.
  unfold Str.pop. induction xs as [|x xs IH]; [congruence|]. intros _.
  destruct xs as [|y ys]; [reflexivity|].
  change (last (map Some (map f (x :: y :: ys))) None)
    with (last (map Some (map f (y :: ys))) None).
  rewrite IH by congruence. reflexivity.
Qed.

(** [s.split(c).pop()] is a suffix of [s]. *)
Lemma pop_split_suffix (s : string) (c : ascii) :
  exists pre seg, Str.pop (Str.split s c) = Some (Str.of_chars seg)
                  /\ Str.chars s = (pre ++ seg)%list.
Proof.
  destruct (split_chars_last c (Str.chars s)) as (pre & E & _).
  exists pre, (last (Str.split_chars c (Str.chars s)) []). split; [|exact E].
  unfold Str.split. apply pop_map_last, split_chars_nonempty.
Qed.

Lemma toLowerCase_suffix (pre seg : list ascii) (s : string) :
  Str.chars s = (pre ++ seg)%list ->
  Str.endsWith (Str.toLowerCase s) (Str.toLowerCase (Str.of_chars seg)) = true.
Proof.
  intros E. unfold Str.toLowerCase. rewrite E, chars_of_chars, map_app.
  apply endsWith_app.
Qed.

Lemma includes_In (xs : list string) (x : string) : Str.includes xs x = true -> In x xs.
Proof.
  unfold Str.includes. rewrite existsb_exists. intros (y & I & E).
  apply String.eqb_eq in E. now subst.
Qed.

Lemma of_Z_inj (a b : Z) : Str.of_Z a = Str.of_Z b -> a = b.
Proof.
  unfold Str.of_Z. intros E.
  assert (N : forall z, Z.to_int z <> Pos Nil /\ Z.to_int z <> Neg Nil).
  { intros [|p|p]; simpl; split; try discriminate;
      intros Q; injection Q; apply DecimalPos.Unsigned.to_uint_nonnil. }
  apply (f_equal NilZero.int_of_string) in E.
  rewrite !NilZero.isi in E by apply N.
  injection E. apply DecimalZ.to_int_inj.
Qed.

(* ===================================================================== *)
(** * Asset store: extension check and stored names *)
(* ===================================================================== *)

Lemma isValidImageExtension_suffix (name : string) :
  isValidImageExtension name = true ->
  exists e, In e ALLOWED_IMAGE_EXTENSIONS
            /\ Str.endsWith (Str.toLowerCase name) e = true.
Proof.
  unfold isValidImageExtension.
  destruct (pop_split_suffix name ".") as (pre & seg & P & E).
  rewrite P.
  destruct (String.eqb (Str.toLowerCase (Str.of_chars seg)) ""); [discriminate|].
  intros I. exists (Str.toLowerCase (Str.of_chars seg)). split.
  - now apply includes_In.
  - now apply toLowerCase_suffix with (pre := pre).
Qed.

Lemma no_allowed_suffix_invalid (name : string) :
  no_allowed_suffix name -> isValidImageExtension name = false.
Proof.
  intros N. destruct (isValidImageExtension name) eqn:V; [|reflexivity].
  destruct (isValidImageExtension_suffix name V) as (e & I & S).
  rewrite (N e I) in S. discriminate.
Qed.

Lemma imageName_of_inj (t1 t2 : Z) (name : string) :
  imageName_of t1 name = imageName_of t2 name -> t1 = t2.
Proof.
  unfold imageName_of. intros E.
  apply of_Z_inj. eapply append_cancel_r. exact E.
Qed.

Section Assets.
Context `{Platform} `{Provider}.

Lemma uploadImage_name owner repo ticketId file token branch w n w' :
  uploadImage owner repo ticketId file token branch w = (Ok n, w') ->
  n = imageName_of (now w) (file_name file).
Proof.
  unfold uploadImage.
  destruct (isValidImageExtension (file_name file)); simpl; [|discriminate].
  unfold bind, fileToBase64, Date_now, throw, ret.
  destruct (readAsDataURL file); [|discriminate].
  match goal with
  | |- context [match ?m w with _ => _ end] => destruct (m w) as [[tb|e] w1] eqn:B
  end; [|discriminate].
  assert (T : now w1 = now w).
  { revert B. destruct (given branch).
    - intros B. now inversion B.
    - unfold getDefaultBranch, fetchRepository, githubFetch, bind, fetch, lift, throw, ret.
      destruct (serve _ (remote w)) as [[resp|] r1]; [|discriminate].
      simpl. destruct (negb (ok resp)).
      + destruct (JS.get _ "message"); discriminate.
      + destruct (resp_status resp =? 204).
        * simpl. intros B. now inversion B.
        * destruct (resp_json resp); [|discriminate].
          simpl. intros B. destruct (JS.get j "default_branch"); now inversion B. }
  match goal with
  | |- context [match ?m w1 with _ => _ end] => destruct (m w1) as [[v|e] w2]
  end; [|discriminate].
  intros Q. now inversion Q.
Qed.

(** C9. A file whose name ends in none of the allowed image extensions
    (jpg, jpeg, png, gif, webp, svg) is refused by [uploadImage] with the
    invalid-extension error, and the world is left as it was: no request
    has been issued. *)
Theorem uploadImage_invalid_extension_before_any_request
        owner repo ticketId file token branch (w : World) :
  no_allowed_suffix (file_name file) ->
  uploadImage owner repo ticketId file token branch w
  = (Throw (JSError "Error"
              "Invalid image extension. Allowed: jpg, jpeg, png, gif, webp, svg"), w)
  /\ requests (snd (uploadImage owner repo ticketId file token branch w)) = requests w.
Proof.
  intros N. unfold uploadImage.
  rewrite (no_allowed_suffix_invalid _ N). simpl. split; reflexivity.
Qed.

(** The stored names of two successful uploads of files with the same
    original name: nothing but the clock tells them apart. *)
Lemma uploadImage_names_differ_by_clock
        owner repo ticketId f1 f2 token branch (w1 w2 w1' w2' : World) n1 n2 :
  file_name f1 = file_name f2 ->
  uploadImage owner repo ticketId f1 token branch w1 = (Ok n1, w1') ->
  uploadImage owner repo ticketId f2 token branch w2 = (Ok n2, w2') ->
  (n1 <> n2 <-> now w1 <> now w2).
Proof.
  intros E U1 U2.
  apply uploadImage_name in U1. apply uploadImage_name in U2. subst n1 n2.
  rewrite E. split.
  - intros D Q. apply D. now rewrite Q.
  - intros D Q. apply D. eapply imageName_of_inj. exact Q.
Qed.

End Assets.

(* ===================================================================== *)
(** * Hash-gated writes *)
(* ===================================================================== *)

Lemma assoc_app k (l1 l2 : list (string * JSValue)) :
  JS.assoc k (l1 ++ l2) = match JS.assoc k l1 with
                          | Some v => Some v
                          | None => JS.assoc k l2
                          end.
Proof.
  induction l1 as [|[k' v] l1 IH]; simpl; [reflexivity|].
  destruct (String.eqb k k'); [reflexivity | exact IH].
Qed.

Lemma assoc_field_if k c k' v :
  JS.assoc k (field_if c k' v) = if c && String.eqb k k' then Some v else None.
Proof. destruct c; simpl; [|reflexivity]. now destruct (String.eqb k k'). Qed.

Section Writes.
Context `{Platform} `{Provider}.

Lemma githubFetch_requests endpoint token m b (w : World) :
  requests (snd (githubFetch endpoint token m b w))
  = (requests w ++ [request_of endpoint token m b])%list.
Proof.
  unfold githubFetch, bind, fetch.
  destruct (serve _ (remote w)) as [[resp|] r]; [|reflexivity].
  destruct (negb (ok resp)).
  - unfold lift, throw. now destruct (JS.get _ "message").
  - destruct (resp_status resp =? 204); [reflexivity|].
    now destruct (resp_json resp).
Qed.

(** The wire body of a gated write carries the hash. *)
Lemma put_body_sha params h :
  p_sha params = JStr h -> h <> "" ->
  exists fields, JS.json (put_body params) = JObj fields
                 /\ JS.assoc "sha" fields = Some (JStr h).
Proof.
  intros S N. unfold put_body. rewrite S.
  assert (T : JS.truthy (JStr h) = true).
  { simpl. destruct (String.eqb_spec h ""); [contradiction | reflexivity]. }
  rewrite T. simpl. eexists. split; [reflexivity|]. reflexivity.
Qed.

Lemma createOrUpdateFile_conflict params token (w : World) h current :
  hash_gated (remote w)
    (GITHUB_API_BASE ++ contents_endpoint (p_owner params) (p_repo params) (p_path params))
    current ->
  p_sha params = JStr h ->
  h <> "" ->
  current <> Some h ->
  exists e w', createOrUpdateFile params token w = (Throw e, w')
               /\ isConflict e = true
               /\ remote w' = remote w.
Proof.
  intros G S N D.
  destruct (put_body_sha params h S N) as (fields & J & A).
  unfold createOrUpdateFile, githubFetch, bind, fetch.
  set (req := request_of _ token PUT (put_body params)).
  assert (B : body req = Some (JObj fields)).
  { change (body req)
      with (if JS.truthy (put_body params) then Some (JS.json (put_body params)) else None).
    replace (JS.truthy (put_body params)) with true by reflexivity.
    now rewrite J. }
  destruct (G req fields h eq_refl eq_refl B A D) as (resp & R & C & Rd).
  rewrite R. unfold ok. rewrite C. simpl negb. cbv iota.
  unfold lift, throw, readable in *.
  destruct (resp_json resp) as [[]|]; try discriminate; simpl;
    try (destruct (JS.assoc "message" _));
    eexists; eexists; (split; [reflexivity|]); rewrite ?C; split; reflexivity.
Qed.

(** C1 (amended). A write through [createOrUpdateFile] or [updateTicket]
    that carries a non-empty expected hash other than the hash the
    provider holds fails with an error classified as Conflict, and the
    remote state is what it was. *)
Theorem stale_hash_write_is_a_conflict owner repo token branch (w : World) h current :
  h <> "" ->
  current <> Some h ->
  (forall params,
      p_sha params = JStr h ->
      hash_gated (remote w)
        (GITHUB_API_BASE
         ++ contents_endpoint (p_owner params) (p_repo params) (p_path params)) current ->
      exists e w', createOrUpdateFile params token w = (Throw e, w')
                   /\ isConflict e = true /\ remote w' = remote w)
  /\ (forall t,
         sha t = JStr h ->
         hash_gated (remote w)
           (GITHUB_API_BASE ++ contents_endpoint owner repo (path t)) current ->
         exists e w', updateTicket owner repo t token branch w = (Throw e, w')
                      /\ isConflict e = true /\ remote w' = remote w).
Proof.
  intros N D. split.
  - intros params S G. now apply createOrUpdateFile_conflict with (h := h) (current := current).
  - intros t S G.
    destruct (createOrUpdateFile_conflict (update_params owner repo t branch (now w))
                token w h current G S N D) as (e & w' & R & C & U).
    exists e, w'. unfold updateTicket, bind, Date_now. rewrite R. auto.
Qed.

(** C2. A ticket whose [sha] is the empty string is written by
    [updateTicket] with a request body that has no [sha] field: the very
    body [createOrUpdateFile] builds when no hash is given. *)
Theorem updateTicket_empty_sha_sends_no_sha owner repo t token branch (w : World) :
  sha t = JStr "" ->
  exists req b,
    requests (snd (updateTicket owner repo t token branch w)) = (requests w ++ [req])%list
    /\ method req = PUT
    /\ url req = GITHUB_API_BASE ++ contents_endpoint owner repo (path t)
    /\ body req = Some b
    /\ JS.has "sha" b = false
    /\ req = request_of (contents_endpoint owner repo (path t)) token PUT
               (put_body {| p_owner := owner; p_repo := repo; p_path := path t;
                            p_content := serializeTicket (now w) t;
                            p_message := "📝 Update ticket: " ++ JS.toString (title t);
                            p_sha := JUndefined; p_branch := branch |}).
Proof.
  intros S.
  set (params := update_params owner repo t branch (now w)).
  exists (request_of (contents_endpoint owner repo (path t)) token PUT (put_body params)).
  exists (JS.json (put_body params)).
  assert (L : requests (snd (updateTicket owner repo t token branch w))
              = (requests w ++ [request_of (contents_endpoint owner repo (path t)) token PUT
                                  (put_body params)])%list).
  { unfold updateTicket, bind, Date_now.
    pose proof (githubFetch_requests (contents_endpoint owner repo (path t)) token PUT
                  (put_body params) w) as Q.
    unfold createOrUpdateFile. fold params. simpl p_owner. simpl p_repo. simpl p_path.
    destruct (githubFetch _ token PUT (put_body params) w) as [[v|e] w1]; simpl in Q |- *;
      [|exact Q].
    unfold lift, ret.
    destruct (JS.get v "content") as [c|]; [|exact Q].
    destruct (JS.get c "sha"); exact Q. }
  split; [exact L|]. split; [reflexivity|]. split; [reflexivity|].
  assert (PB : put_body params
               = JObj ([("message", JStr ("📝 Update ticket: " ++ JS.toString (title t)));
                        ("content", JStr (btoa_utf8 (serializeTicket (now w) t)))]
                       ++ field_if (given branch) "branch" (JStr (text branch)))).
  { unfold put_body, params, update_params. simpl. rewrite S. reflexivity. }
  split; [reflexivity|]. split.
  - rewrite PB. destruct (given branch); reflexivity.
  - f_equal. rewrite PB. reflexivity.
Qed.

End Writes.

(* ===================================================================== *)
(** * Record codec: list files and the ticket round trip *)
(* ===================================================================== *)

Lemma get_object k fields :
  JS.get (JObj fields) k
  = Ok (match JS.assoc k fields with Some x => x | None => JUndefined end).
Proof. simpl. now destruct (JS.assoc k fields). Qed.

Lemma ticket_fields_eq i i' p p' h h' ti ti' ty ty' st st' pr pr' a a' l l'
      pa pa' v v' e e' du du' de de' im im' c c' u u' :
  i = i' -> p = p' -> h = h' -> ti = ti' -> ty = ty' -> st = st' -> pr = pr' ->
  a = a' -> l = l' -> pa = pa' -> v = v' -> e = e' -> du = du' -> de = de' ->
  im = im' -> c = c' -> u = u' ->
  mkTicket i p h ti ty st pr a l pa v e du de im c u
  = mkTicket i' p' h' ti' ty' st' pr' a' l' pa' v' e' du' de' im' c' u'.
Proof. intros; subst; reflexivity. Qed.

Lemma map_toString_JStr (l : list string) : map JS.toString (map JStr l) = l.
Proof. induction l as [|x l IH]; simpl; [reflexivity | now rewrite IH]. Qed.

Section CodecProperties.
Context `{Platform}.

(** C7. For each of the three list files, a document that is the bare
    sequence and a document that is an object holding the same sequence
    under the file's key are both accepted, and decode to the same
    collection. *)
Theorem list_files_decode_both_shapes_alike bare keyed items fields :
  YAML_parse bare = Some (JArr items) ->
  YAML_parse keyed = Some (JObj fields) ->
  (JS.assoc "columns" fields = Some (JArr items) ->
   parseColumnsFile bare = map_result column_of items
   /\ parseColumnsFile keyed = parseColumnsFile bare)
  /\ (JS.assoc "ticketTypes" fields = Some (JArr items) ->
      parseTicketTypesFile bare = map_result ticket_type_of items
      /\ parseTicketTypesFile keyed = parseTicketTypesFile bare)
  /\ (JS.assoc "versions" fields = Some (JArr items) ->
      parseVersionsFile bare = map_result version_of items
      /\ parseVersionsFile keyed = parseVersionsFile bare).
Proof.
  intros B K.
  unfold parseColumnsFile, parseTicketTypesFile, parseVersionsFile, parseYaml.
  rewrite B, K. simpl.
  repeat split; try reflexivity; now rewrite H0.
Qed.

(** C3 (amended). Decoding what [serializeTicket] wrote, with the
    ticket's own path and hash, gives the ticket back with its
    updated-timestamp replaced by the clock reading of the encoding,
    provided the document survives the YAML library, the ticket's id is
    the one its path names, title, type and status are non-empty, and
    every optional field is either unset or non-empty. *)
Theorem parse_serialize_ticket time t :
  YAML_parse (YAML_stringify (ticketYaml time t)) = Some (ticketYaml time t) ->
  id t = extractTicketId (path t) ->
  JS.truthy (title t) = true ->
  JS.truthy (type t) = true ->
  JS.truthy (status t) = true ->
  listed (assignees t) -> listed (labels t) -> listed (images t) ->
  kept (parent t) -> kept (version t) -> kept (dueDate t) ->
  kept (description t) -> kept (createdAt t) ->
  parseTicketFile (serializeTicket time t) (path t) (sha t)
  = Ok (with_updatedAt (JStr (toISOString time)) t).
Proof.
  intros Y I Tt Ty Ts La Ll Li Kp Kv Kd Ks Kc.
  unfold parseTicketFile, serializeTicket, serializeYaml, parseYaml.
  rewrite Y. unfold ticketYaml.
  cbv beta iota delta [rbind].
  rewrite !get_object, !assoc_app, !assoc_field_if.
  cbn [JS.assoc String.eqb Ascii.eqb Bool.eqb andb].
  rewrite ?andb_true_r, ?andb_false_r. cbv beta iota.
  unfold JS.or. rewrite Tt, Ty, Ts.
  unfold with_updatedAt. apply f_equal.
  apply ticket_fields_eq;
    first
      [ reflexivity
      | symmetry; exact I
      | destruct (priority t) as [[]|]; reflexivity
      | destruct (estimate t); reflexivity
      | destruct (assignees t) as [[|x l]|];
        [now elim La | simpl; now rewrite map_toString_JStr | reflexivity]
      | destruct (labels t) as [[|x l]|];
        [now elim Ll | simpl; now rewrite map_toString_JStr | reflexivity]
      | destruct (images t) as [[|x l]|];
        [now elim Li | simpl; now rewrite map_toString_JStr | reflexivity]
      | destruct Kp as [K | K]; rewrite K; reflexivity
      | destruct Kv as [K | K]; rewrite K; reflexivity
      | destruct Kd as [K | K]; rewrite K; reflexivity
      | destruct Ks as [K | K]; rewrite K; reflexivity
      | destruct Kc as [K | K]; rewrite K; reflexivity ].
Qed.

End CodecProperties.

(* ===================================================================== *)
(** * Listing and loading tickets *)
(* ===================================================================== *)

Lemma filter_result_In {A} (p : A -> Result bool) (xs ys : list A) (x : A) :
  filter_result p xs = Ok ys -> In x xs -> p x = Ok true -> In x ys.
Proof.
  revert ys. induction xs as [|a xs IH]; simpl; intros ys F I P; [contradiction|].
  destruct (p a) as [b|] eqn:Pa; simpl in F; [|discriminate].
  destruct (filter_result p xs) as [zs|]; simpl in F; [|discriminate].
  inversion F; subst; clear F.
  destruct I as [<- | I].
  - rewrite P in Pa. inversion Pa. now left.
  - specialize (IH zs eq_refl I P). destruct b; [now right | assumption].
Qed.

Lemma filter_result_sound {A} (p : A -> Result bool) (xs ys : list A) (x : A) :
  filter_result p xs = Ok ys -> In x ys -> In x xs /\ p x = Ok true.
Proof.
  revert ys. induction xs as [|a xs IH]; simpl; intros ys F I.
  - inversion F; subst. contradiction.
  - destruct (p a) as [b|] eqn:Pa; simpl in F; [|discriminate].
    destruct (filter_result p xs) as [zs|]; simpl in F; [|discriminate].
    inversion F; subst; clear F.
    destruct b.
    + destruct I as [<- | I]; [now split; [left|] |].
      destruct (IH zs eq_refl I). split; [now right | assumption].
    + destruct (IH zs eq_refl I). split; [now right | assumption].
Qed.

(** The filter of [listFilesRecursively] is the plain prefix test. *)
Lemma in_path_selected n item :
  testable item = true -> in_path n item = Ok (selected n item).
Proof.
  unfold testable, in_path, selected.
  destruct (JS.get item "type") as [ty|]; simpl; [|discriminate].
  destruct ty; simpl; try (intros _; now destruct (JS.get item "path") as [[]|]).
  destruct (String.eqb s "blob"); simpl.
  - destruct (JS.get item "path") as [[]|]; simpl; try discriminate. reflexivity.
  - intros _. now destruct (JS.get item "path") as [[]|].
Qed.

Lemma filter_result_selected n items :
  forallb testable items = true ->
  filter_result (in_path n) items = Ok (filter (selected n) items).
Proof.
  induction items as [|item items IH]; simpl; [reflexivity|].
  intros T. apply andb_prop in T. destruct T as [T Ts].
  rewrite (in_path_selected n item T), (IH Ts). simpl.
  now destruct (selected n item).
Qed.

(** What [trim_slashes] removes: the slashes before and after, however
    many, and nothing else. *)
Lemma drop_while_slashes n l :
  Str.drop_while Str.is_slash (repeat "/"%char n ++ l) = Str.drop_while Str.is_slash l.
Proof. induction n as [|n IH]; [reflexivity | exact IH]. Qed.

Lemma drop_while_no_slash l m :
  l <> [] -> String.prefix "/" (Str.of_chars l) = false ->
  Str.drop_while Str.is_slash (l ++ m) = (l ++ m)%list.
Proof.
  destruct l as [|a l]; [congruence|]. intros _. simpl. unfold Str.is_slash.
  destruct (Ascii.eqb_spec a "/") as [->|N]; [|reflexivity].
  destruct (Str.of_chars l); discriminate.
Qed.

Lemma rev_slashes n : List.rev (repeat "/"%char n) = repeat "/"%char n.
Proof.
  induction n as [|n IH]; [reflexivity|]. simpl. rewrite IH.
  symmetry. apply repeat_cons.
Qed.

Lemma trim_slashes_core a b core :
  Str.startsWith core "/" = false ->
  Str.endsWith core "/" = false ->
  Str.trim_slashes (slashes a ++ core ++ slashes b) = core.
Proof.
  unfold Str.startsWith, Str.endsWith, Str.trim_slashes, slashes. intros S E.
  rewrite !chars_append, !chars_of_chars, drop_while_slashes.
  destruct (Str.chars core) as [|c cs] eqn:C.
  - rewrite <- (of_chars_chars core), C. cbn [List.app].
    rewrite <- (app_nil_r (repeat "/"%char b)), drop_while_slashes. reflexivity.
  - rewrite <- C in *.
    rewrite drop_while_no_slash;
      [| rewrite C; discriminate | now rewrite of_chars_chars].
    rewrite rev_app_distr, rev_slashes, drop_while_slashes.
    assert (R : List.rev (Str.chars core) <> []).
    { rewrite C. simpl. intros Q. apply app_eq_nil in Q. destruct Q. discriminate. }
    rewrite <- (app_nil_r (List.rev (Str.chars core))).
    rewrite (drop_while_no_slash _ [] R E).
    rewrite app_nil_r, rev_involutive. apply of_chars_chars.
Qed.

Section Listing.
Context `{Platform} `{Provider}.

Lemma githubFetch_run endpoint token m b (w : World) :
  githubFetch endpoint token m b w
  = (interpret (fst (serve (request_of endpoint token m b) (remote w))),
     sent (request_of endpoint token m b) w
          (snd (serve (request_of endpoint token m b) (remote w)))).
Proof.
  unfold githubFetch, bind, fetch, sent, interpret.
  destruct (serve _ (remote w)) as [[resp|] r]; [|reflexivity]. simpl fst. simpl snd.
  destruct (negb (ok resp)) eqn:K; rewrite ?K.
  - unfold lift, throw. now destruct (JS.get _ "message").
  - destruct (resp_status resp =? 204) eqn:S; rewrite ?S; [reflexivity|].
    now destruct (resp_json resp).
Qed.

Lemma githubFetch_answers endpoint token m b (w : World) v r' :
  answers (request_of endpoint token m b) (remote w) v r' ->
  githubFetch endpoint token m b w = (Ok v, sent (request_of endpoint token m b) w r').
Proof.
  intros (resp & S & O & N & J). rewrite githubFetch_run, S. simpl.
  now rewrite O, N, J.
Qed.

Lemma in_path_true n item p :
  JS.get item "type" = Ok (JStr "blob") ->
  JS.get item "path" = Ok (JStr p) ->
  Str.startsWith p n = true ->
  in_path n item = Ok true.
Proof. intros T P S. unfold in_path. rewrite T. simpl. rewrite P. simpl. now rewrite S. Qed.

Lemma in_path_has_path n item : in_path n item = Ok true -> has_path item.
Proof.
  unfold in_path, has_path.
  destruct (JS.get item "type") as [ty|]; simpl; [|discriminate].
  destruct (negb (JS.eq_string ty "blob")); [discriminate|].
  destruct (JS.get item "path") as [[]|]; simpl; try discriminate. eauto.
Qed.

Lemma listFilesRecursively_run owner repo path token branch (w : World)
      refv obj commit r1 fields items r2 :
  answers (ref_request owner repo token branch) (remote w) refv r1 ->
  JS.get refv "object" = Ok obj ->
  JS.get obj "sha" = Ok commit ->
  answers (tree_request owner repo token commit) r1 (JObj fields) r2 ->
  JS.assoc "tree" fields = Some (JArr items) ->
  listFilesRecursively owner repo path token branch w
  = (filter_result (in_path (Str.trim_slashes path)) items,
     sent (tree_request owner repo token commit)
          (sent (ref_request owner repo token branch) w r1) r2).
Proof.
  intros A1 O C A2 T.
  unfold ref_request, tree_request in *.
  unfold listFilesRecursively, bind.
  rewrite (githubFetch_answers _ _ _ _ w refv r1 A1).
  unfold lift at 1. rewrite O. unfold lift at 1. rewrite C.
  rewrite (githubFetch_answers _ _ _ _ (sent _ w r1) (JObj fields) r2 A2).
  unfold lift at 1. rewrite get_object, T. reflexivity.
Qed.

(** The truncation flag is not read: whatever [truncated] holds, the
    result is made of the tree received and nothing is written to the
    console. *)
Lemma listFilesRecursively_whatever_truncated owner repo path token branch (w : World)
        refv obj commit r1 fields items r2 flag :
  answers (ref_request owner repo token branch) (remote w) refv r1 ->
  JS.get refv "object" = Ok obj ->
  JS.get obj "sha" = Ok commit ->
  answers (tree_request owner repo token commit) r1 (JObj fields) r2 ->
  JS.assoc "tree" fields = Some (JArr items) ->
  JS.assoc "truncated" fields = Some flag ->
  fst (listFilesRecursively owner repo path token branch w)
  = filter_result (in_path (Str.trim_slashes path)) items
  /\ console (snd (listFilesRecursively owner repo path token branch w)) = console w.
Proof.
  intros A1 O C A2 T _.
  rewrite (listFilesRecursively_run owner repo path token branch w
             refv obj commit r1 fields items r2 A1 O C A2 T).
  split; reflexivity.
Qed.

End Listing.

Section Loading.
Context `{Platform} `{Provider}.
Variables (owner repo token : string) (branch : option string).

Lemma fetchFileContent_run p (w : World) :
  fetchFileContent owner repo p token branch w
  = ((let? v := interpret (fst (serve (file_request owner repo token branch p) (remote w))) in
      file_of v),
     sent (file_request owner repo token branch p) w
          (snd (serve (file_request owner repo token branch p) (remote w)))).
Proof.
  unfold fetchFileContent, fetchContents, bind, file_request.
  rewrite githubFetch_run.
  destruct (interpret _) as [v|e]; [|reflexivity].
  unfold file_of, lift, throw, ret. simpl rbind.
  destruct (JS.get v "type") as [ty|]; [|reflexivity]. simpl rbind.
  destruct (negb (JS.eq_string ty "file")); [reflexivity|].
  destruct (JS.get v "content") as [c|]; [|reflexivity]. simpl rbind.
  destruct (negb (JS.truthy c)); [reflexivity|].
  destruct (as_string _ c) as [b64|]; [|reflexivity]. simpl rbind.
  destruct (atob _); [|reflexivity].
  now destruct (JS.get v "sha").
Qed.

Lemma load_one_run p tickets (w : World) :
  load_one owner repo token branch p tickets w
  = match decode owner repo token branch (remote w) p with
    | Ok t =>
        (Ok (tickets ++ [t])%list,
         sent (file_request owner repo token branch p) w
              (snd (serve (file_request owner repo token branch p) (remote w))))
    | Throw _ =>
        (Ok tickets,
         logged LogWarn ("Failed to load ticket " ++ p ++ ":")
           (sent (file_request owner repo token branch p) w
                 (snd (serve (file_request owner repo token branch p) (remote w)))))
    end.
Proof.
  unfold load_one, try_catch, bind, decode. rewrite fetchFileContent_run.
  destruct (interpret _) as [v|e]; [|reflexivity]. simpl rbind.
  destruct (file_of v) as [cs|e]; [|reflexivity]. simpl rbind.
  unfold lift. now destruct (parseTicketFile _ p _).
Qed.

Lemma yaml_paths_cons f p files :
  JS.get f "path" = Ok (JStr p) ->
  yaml_paths (f :: files) = ((if is_yaml p then [p] else []) ++ yaml_paths files)%list.
Proof. intros E. unfold yaml_paths. simpl. now rewrite E. Qed.

Lemma load_each_run files : forall tickets (w : World),
  reads_only (remote w) ->
  Forall has_path files ->
  exists w',
    load_each owner repo token branch files tickets w
    = (Ok (tickets ++ decoded owner repo token branch (remote w) (yaml_paths files))%list, w')
    /\ remote w' = remote w
    /\ requests w'
       = (requests w ++ map (file_request owner repo token branch) (yaml_paths files))%list.
Proof.
  induction files as [|f files IH]; intros tickets w R F.
  - exists w. simpl. rewrite !app_nil_r. auto.
  - inversion F as [|? ? (p & P) F']; subst.
    rewrite (yaml_paths_cons f p files P).
    simpl load_each. unfold bind at 1. unfold lift at 1. rewrite P.
    unfold bind at 1. unfold lift at 1. simpl as_string.
    unfold is_yaml.
    destruct (negb (Str.endsWith p ".yml") && negb (Str.endsWith p ".yaml")).
    + simpl. apply IH; assumption.
    + simpl negb. cbv iota. unfold bind at 1. rewrite load_one_run.
      assert (Q : snd (serve (file_request owner repo token branch p) (remote w)) = remote w)
        by (apply R; reflexivity).
      rewrite Q. unfold decoded. simpl flat_map. fold (decoded owner repo token branch).
      destruct (decode owner repo token branch (remote w) p) as [t|e].
      * destruct (IH (tickets ++ [t])%list
                     (sent (file_request owner repo token branch p) w (remote w)) R F')
          as (w' & E & Rm & Rq).
        exists w'. rewrite E. simpl in Rm, Rq |- *.
        rewrite <- !app_assoc. simpl. rewrite Rq, <- !app_assoc. auto.
      * destruct (IH tickets
                     (logged LogWarn ("Failed to load ticket " ++ p ++ ":")
                        (sent (file_request owner repo token branch p) w (remote w))) R F')
          as (w' & E & Rm & Rq).
        exists w'. rewrite E. simpl in Rm, Rq |- *.
        rewrite Rq, <- !app_assoc. auto.
Qed.

Lemma listFilesRecursively_paths root (w w1 : World) files :
  listFilesRecursively owner repo root token branch w = (Ok files, w1) ->
  exists items, filter_result (in_path (Str.trim_slashes root)) items = Ok files.
Proof.
  unfold listFilesRecursively, bind. rewrite githubFetch_run.
  destruct (interpret _) as [refv|]; [|discriminate].
  unfold lift at 1. destruct (JS.get refv "object") as [obj|]; [|discriminate].
  unfold lift at 1. destruct (JS.get obj "sha") as [commit|]; [|discriminate].
  rewrite githubFetch_run.
  destruct (interpret _) as [treev|]; [|discriminate].
  unfold lift at 1. destruct (JS.get treev "tree") as [tree|]; [|discriminate].
  destruct tree; try discriminate.
  unfold lift. intros E. inversion E. eauto.
Qed.

Lemma listed_files_have_paths root (w w1 : World) files :
  listFilesRecursively owner repo root token branch w = (Ok files, w1) ->
  Forall has_path files.
Proof.
  intros L. destruct (listFilesRecursively_paths root w w1 files L) as (items & F).
  apply Forall_forall. intros f I.
  destruct (filter_result_sound _ _ _ f F I) as (_ & P).
  eapply in_path_has_path. exact P.
Qed.

Lemma loadTickets_run (w w1 : World) files :
  listFilesRecursively owner repo TICKETS_FOLDER token branch w = (Ok files, w1) ->
  reads_only (remote w1) ->
  exists w2,
    loadTickets owner repo token branch w
    = (Ok (decoded owner repo token branch (remote w1) (yaml_paths files)), w2)
    /\ remote w2 = remote w1
    /\ requests w2
       = (requests w1 ++ map (file_request owner repo token branch) (yaml_paths files))%list.
Proof.
  intros L R.
  destruct (load_each_run files [] w1 R (listed_files_have_paths _ _ _ _ L))
    as (w2 & E & Rm & Rq).
  exists w2. unfold loadTickets, try_catch, bind. rewrite L, E. auto.
Qed.

End Loading.

Section LoadingProperties.
Context `{Platform} `{Provider}.
Variables (owner repo token : string) (branch : option string).

Lemma decoded_app r ps qs :
  decoded owner repo token branch r (ps ++ qs)
  = (decoded owner repo token branch r ps ++ decoded owner repo token branch r qs)%list.
Proof. unfold decoded. apply flat_map_app. Qed.

Lemma decoded_all r ps :
  (forall p, In p ps -> exists t, decode owner repo token branch r p = Ok t) ->
  List.length (decoded owner repo token branch r ps) = List.length ps.
Proof.
  induction ps as [|p ps IH]; intros A; [reflexivity|].
  change (p :: ps) with ([p] ++ ps)%list at 1. rewrite decoded_app, length_app, IH.
  - destruct (A p (or_introl eq_refl)) as (t & E). unfold decoded. simpl. now rewrite E.
  - intros q I. apply A. now right.
Qed.

Lemma decoded_In r ps p t :
  In p ps -> decode owner repo token branch r p = Ok t ->
  In t (decoded owner repo token branch r ps).
Proof.
  intros I E. unfold decoded. apply in_flat_map. exists p. split; [assumption|].
  rewrite E. now left.
Qed.

Lemma yaml_paths_In files f p :
  In f files -> JS.get f "path" = Ok (JStr p) -> is_yaml p = true ->
  In p (yaml_paths files).
Proof.
  intros I P Y. unfold yaml_paths. apply in_flat_map. exists f. split; [assumption|].
  rewrite P, Y. now left.
Qed.

(** C5. Of the N ticket files the listing yields, let exactly one fail
    to fetch or decode: [loadTickets] does not throw and returns the
    N-1 tickets of the others, in order. *)
Theorem loadTickets_skips_the_failing_file (w w1 : World) files pre bad post :
  listFilesRecursively owner repo TICKETS_FOLDER token branch w = (Ok files, w1) ->
  reads_only (remote w1) ->
  yaml_paths files = (pre ++ bad :: post)%list ->
  (forall p, In p (pre ++ post) ->
             exists t, decode owner repo token branch (remote w1) p = Ok t) ->
  (exists e, decode owner repo token branch (remote w1) bad = Throw e) ->
  exists w2,
    loadTickets owner repo token branch w
    = (Ok (decoded owner repo token branch (remote w1) (pre ++ post)), w2)
    /\ List.length (decoded owner repo token branch (remote w1) (pre ++ post))
       = (List.length (yaml_paths files) - 1)%nat
    /\ (forall p t, In p (pre ++ post) ->
                    decode owner repo token branch (remote w1) p = Ok t ->
                    In t (decoded owner repo token branch (remote w1) (pre ++ post))).
Proof.
  intros L R Y Good (e & Bad).
  destruct (loadTickets_run owner repo token branch w w1 files L R) as (w2 & E & _ & _).
  exists w2. split; [|split].
  - rewrite E, Y. f_equal. f_equal.
    rewrite !decoded_app.
    change (bad :: post) with ([bad] ++ post)%list. rewrite decoded_app.
    unfold decoded at 2. simpl. now rewrite Bad.
  - rewrite decoded_all by exact Good.
    rewrite Y, !length_app. simpl. lia.
  - intros p t I D. now apply decoded_In with (p := p).
Qed.

(** C10. [listFilesRecursively] selects by a plain prefix test: for a
    root written with any number of slashes before and after, the result
    is exactly the entries of the received tree that are blobs and whose
    path starts with the root without those slashes, in the order of the
    tree, whatever character follows the prefix. [loadTickets] requests
    and decodes every listed file that has a YAML extension; so a file
    like [.kabane/tickets-archive/a.yml] is listed under the tickets
    folder and loaded as a ticket. *)
Theorem listing_is_by_plain_prefix :
  (forall a b core (w : World) refv obj commit r1 fields items r2,
      Str.startsWith core "/" = false ->
      Str.endsWith core "/" = false ->
      answers (ref_request owner repo token branch) (remote w) refv r1 ->
      JS.get refv "object" = Ok obj ->
      JS.get obj "sha" = Ok commit ->
      answers (tree_request owner repo token commit) r1 (JObj fields) r2 ->
      JS.assoc "tree" fields = Some (JArr items) ->
      forallb testable items = true ->
      fst (listFilesRecursively owner repo (slashes a ++ core ++ slashes b) token branch w)
      = Ok (filter (selected core) items))
  /\ (forall (w w1 : World) files item p,
         listFilesRecursively owner repo TICKETS_FOLDER token branch w = (Ok files, w1) ->
         reads_only (remote w1) ->
         In item files ->
         JS.get item "path" = Ok (JStr p) ->
         is_yaml p = true ->
         exists ts w2,
           loadTickets owner repo token branch w = (Ok ts, w2)
           /\ In (file_request owner repo token branch p) (requests w2)
           /\ (forall t, decode owner repo token branch (remote w1) p = Ok t -> In t ts))
  /\ (forall item,
         JS.get item "type" = Ok (JStr "blob") ->
         JS.get item "path" = Ok (JStr ".kabane/tickets-archive/a.yml") ->
         selected TICKETS_FOLDER item = true)
  /\ is_yaml ".kabane/tickets-archive/a.yml" = true.
Proof.
  split; [|split; [|split; [|reflexivity]]].
  - intros a b core w refv obj commit r1 fields items r2 S E A1 O C A2 T W.
    rewrite (listFilesRecursively_run owner repo _ token branch w
               refv obj commit r1 fields items r2 A1 O C A2 T).
    simpl fst. rewrite (trim_slashes_core a b core S E).
    now apply filter_result_selected.
  - intros w w1 files item p L R I P Y.
    destruct (loadTickets_run owner repo token branch w w1 files L R) as (w2 & E & _ & Rq).
    eexists. exists w2. split; [exact E|]. split.
    + rewrite Rq. apply in_or_app. right. apply in_map.
      now apply yaml_paths_In with (f := item).
    + intros t D. apply decoded_In with (p := p); [|exact D].
      now apply yaml_paths_In with (f := item).
  - intros item T P. unfold selected. rewrite T, P. reflexivity.
Qed.

(** When the branch ref is not found, [loadTickets] returns the empty
    list. *)
Lemma loadTickets_ref_not_found (w : World) resp r1 :
  serve (ref_request owner repo token branch) (remote w) = (Some resp, r1) ->
  resp_status resp = 404 ->
  readable resp = true ->
  loadTickets owner repo token branch w
  = (Ok [], sent (ref_request owner repo token branch) w r1).
Proof.
  intros S N Rd. unfold loadTickets, try_catch, bind, listFilesRecursively, bind.
  rewrite githubFetch_run. fold (ref_request owner repo token branch). rewrite S.
  simpl fst. simpl snd. unfold interpret, ok. rewrite N. simpl negb. cbv iota.
  unfold readable in Rd.
  destruct (resp_json resp) as [[]|]; try discriminate; simpl;
    try (destruct (JS.assoc "message" _)); rewrite ?N; reflexivity.
Qed.

(** When nothing is listed, [loadTickets] returns the empty list. *)
Lemma loadTickets_nothing_listed (w w1 : World) :
  listFilesRecursively owner repo TICKETS_FOLDER token branch w = (Ok [], w1) ->
  loadTickets owner repo token branch w = (Ok [], w1).
Proof. intros L. unfold loadTickets, try_catch, bind. now rewrite L. Qed.

End LoadingProperties.

(* ===================================================================== *)
(** * The operations on the sample data *)
(* ===================================================================== *)

Lemma ref_reads_only (repo : RefProvider.Repo) : @reads_only Sample.V repo.
Proof.
  intros req G. simpl. destruct (RefProvider.r_online repo); [|reflexivity].
  unfold RefProvider.route.
  destruct (RefProvider.strip_prefix _ (url req)) as [rest|]; [|reflexivity].
  destruct (String.eqb rest ""); [reflexivity|].
  destruct (RefProvider.strip_prefix "/git/ref/heads/" rest) as [b|].
  { now destruct (String.eqb b (RefProvider.r_branch repo)). }
  destruct (RefProvider.strip_prefix "/git/trees/" rest); [reflexivity|].
  destruct (RefProvider.strip_prefix "/contents/" rest) as [target|]; [|reflexivity].
  unfold RefProvider.contents. rewrite G.
  now destruct (RefProvider.lookup _ (RefProvider.r_files repo)).
Qed.

(** The reference provider gates writes to the stored sample ticket. *)
Lemma ref_gates_sample_ticket :
  @hash_gated Sample.V Sample.one_ticket Sample.ticket_url
    (RefProvider.current_sha Sample.one_ticket ".kabane/tickets/t1.yml").
Proof.
  intros [u m hd b] fields h U M B A D. simpl in U, M, B. subst u m b.
  assert (C : RefProvider.current_sha Sample.one_ticket ".kabane/tickets/t1.yml"
              = Some "blob-e30=") by (vm_compute; reflexivity).
  rewrite C in D.
  assert (Q : RefProvider.put Sample.one_ticket ".kabane/tickets/t1.yml" (Some (JObj fields))
              = (RefProvider.failure 409 "Conflict"
                   (".kabane/tickets/t1.yml" ++ " does not match " ++ h), Sample.one_ticket)).
  { unfold RefProvider.put. simpl RefProvider.lookup. unfold RefProvider.field. rewrite A.
    change (RefProvider.blob_sha "{}") with "blob-e30=".
    destruct (String.eqb_spec h "blob-e30="); [subst; now elim D | reflexivity]. }
  eexists. split; [|split].
  - change (@serve Sample.V _ Sample.one_ticket)
      with (let '(resp, repo') :=
              RefProvider.put Sample.one_ticket ".kabane/tickets/t1.yml" (Some (JObj fields))
            in (Some resp, repo')).
    rewrite Q. reflexivity.
  - reflexivity.
  - reflexivity.
Qed.

(** ** Hash-gated writes *)

(** A stale hash on the stored sample ticket. *)
Lemma stale_hash_write_witness :
  exists e w',
    @updateTicket Sample.P Sample.V "o" "r" (Sample.ticket (JStr "stale")) "tok" (Some "main")
      (Sample.world Sample.one_ticket) = (Throw e, w')
    /\ isConflict e = true
    /\ remote w' = Sample.one_ticket.
Proof.
  assert (N : "stale" <> "") by discriminate.
  assert (D : RefProvider.current_sha Sample.one_ticket ".kabane/tickets/t1.yml"
              <> Some "stale") by (vm_compute; discriminate).
  destruct (@stale_hash_write_is_a_conflict Sample.P Sample.V "o" "r" "tok" (Some "main")
              (Sample.world Sample.one_ticket) "stale" _ N D) as [_ U].
  exact (U (Sample.ticket (JStr "stale")) eq_refl ref_gates_sample_ticket).
Defined.

(** C1 as stated fails for the empty hash. The provider gates the stored
    sample ticket and the supplied hash, the empty string, is not the
    stored one; yet the write is answered 422, which is not classified as
    Conflict. Against a repository without the file the same write
    succeeds and stores the file. *)
Lemma empty_hash_write_is_not_a_conflict :
  @hash_gated Sample.V Sample.one_ticket Sample.ticket_url
    (RefProvider.current_sha Sample.one_ticket ".kabane/tickets/t1.yml")
  /\ RefProvider.current_sha Sample.one_ticket ".kabane/tickets/t1.yml" <> Some ""
  /\ fst (@updateTicket Sample.P Sample.V "o" "r" (Sample.ticket (JStr "")) "tok" (Some "main")
            (Sample.world Sample.one_ticket))
     = Throw (GitHubAPIError 422 "Invalid request: sha wasn't supplied."
                (JObj [("message", JStr "Invalid request: sha wasn't supplied.")]))
  /\ isConflict (GitHubAPIError 422 "Invalid request: sha wasn't supplied."
                   (JObj [("message", JStr "Invalid request: sha wasn't supplied.")])) = false
  /\ RefProvider.current_sha Sample.no_ticket ".kabane/tickets/t1.yml" = None
  /\ (exists t, fst (@updateTicket Sample.P Sample.V "o" "r" (Sample.ticket (JStr "")) "tok"
                       (Some "main") (Sample.world Sample.no_ticket)) = Ok t)
  /\ RefProvider.current_sha
       (remote (snd (@updateTicket Sample.P Sample.V "o" "r" (Sample.ticket (JStr "")) "tok"
                       (Some "main") (Sample.world Sample.no_ticket))))
       ".kabane/tickets/t1.yml" <> None.
Proof.
  split; [exact ref_gates_sample_ticket|].
  split; [vm_compute; discriminate|].
  split; [vm_compute; reflexivity|].
  split; [reflexivity|].
  split; [vm_compute; reflexivity|].
  split; [eexists; vm_compute; reflexivity|].
  vm_compute; discriminate.
Qed.

(** The empty hash on the stored sample ticket. *)
Lemma updateTicket_empty_sha_witness :
  sha (Sample.ticket (JStr "")) = JStr ""
  /\ exists req b,
      requests (snd (@updateTicket Sample.P Sample.V "o" "r" (Sample.ticket (JStr "")) "tok"
                       (Some "main") (Sample.world Sample.one_ticket))) = ([] ++ [req])%list
      /\ method req = PUT
      /\ url req = Sample.ticket_url
      /\ body req = Some b
      /\ JS.has "sha" b = false.
Proof.
  split; [reflexivity|].
  destruct (@updateTicket_empty_sha_sends_no_sha Sample.P Sample.V "o" "r"
              (Sample.ticket (JStr "")) "tok" (Some "main") (Sample.world Sample.one_ticket)
              eq_refl) as (req & b & L & M & U & B & S & _).
  exists req, b. repeat split; assumption.
Defined.

(** ** Record codec *)

(** The sample ticket through the reference codec. *)
Lemma parse_serialize_ticket_witness :
  @parseTicketFile Sample.P (@serializeTicket Sample.P Sample.clock (Sample.ticket (JStr "abc")))
    ".kabane/tickets/t1.yml" (JStr "abc")
  = Ok (with_updatedAt (JStr "2023-11-14T22:13:20.123Z") (Sample.ticket (JStr "abc"))).
Proof.
  apply (@parse_serialize_ticket Sample.P Sample.clock (Sample.ticket (JStr "abc"))).
  - vm_compute; reflexivity.
  - vm_compute; reflexivity.
  - reflexivity.
  - reflexivity.
  - reflexivity.
  - discriminate.
  - discriminate.
  - discriminate.
  - right; reflexivity.
  - left; reflexivity.
  - right; reflexivity.
  - left; reflexivity.
  - left; reflexivity.
Defined.

(** C3 as stated fails: an empty list of assignees is not written and
    comes back unset; an empty title comes back as a default title. *)
Lemma parse_serialize_loses_empty_fields :
  (exists t',
      @parseTicketFile Sample.P (@serializeTicket Sample.P Sample.clock Sample.unassigned)
        (path Sample.unassigned) (sha Sample.unassigned) = Ok t'
      /\ assignees Sample.unassigned = Some []
      /\ assignees t' = None)
  /\ (exists t',
         @parseTicketFile Sample.P (@serializeTicket Sample.P Sample.clock Sample.untitled)
           (path Sample.untitled) (sha Sample.untitled) = Ok t'
         /\ title Sample.untitled = JStr ""
         /\ title t' = JStr "Ticket t1").
Proof.
  split; eexists; (split; [vm_compute; reflexivity|]); split; reflexivity.
Qed.

(** Two columns, as a bare sequence and under the keys. *)
Lemma list_files_decode_witness :
  @parseColumnsFile Sample.P (RefPlatform.print (JArr Sample.columns_items))
  = @parseColumnsFile Sample.P
      (RefPlatform.print (JObj [("columns", JArr Sample.columns_items);
                                ("ticketTypes", JArr Sample.columns_items);
                                ("versions", JArr Sample.columns_items)]))
  /\ (exists cs, @parseColumnsFile Sample.P (RefPlatform.print (JArr Sample.columns_items))
                 = Ok cs /\ List.length cs = 2%nat).
Proof.
  destruct (@list_files_decode_both_shapes_alike Sample.P
              (RefPlatform.print (JArr Sample.columns_items))
              (RefPlatform.print (JObj [("columns", JArr Sample.columns_items);
                                        ("ticketTypes", JArr Sample.columns_items);
                                        ("versions", JArr Sample.columns_items)]))
              Sample.columns_items
              [("columns", JArr Sample.columns_items);
               ("ticketTypes", JArr Sample.columns_items);
               ("versions", JArr Sample.columns_items)])
    as (C & _ & _).
  - vm_compute; reflexivity.
  - vm_compute; reflexivity.
  - destruct (C eq_refl) as (B & K). split.
    + symmetry. exact K.
    + rewrite B. eexists. split; [vm_compute; reflexivity | reflexivity].
Defined.

(** ** Listing and loading *)

Lemma ref_answers_ref (repo : RefProvider.Repo) :
  RefProvider.r_online repo = true ->
  RefProvider.r_owner repo = "o" ->
  RefProvider.r_name repo = "r" ->
  RefProvider.r_branch repo = "main" ->
  @answers Sample.V (ref_request "o" "r" "tok" (Some "main")) repo
    (JObj [("ref", JStr "refs/heads/main");
           ("object", JObj [("sha", JStr RefProvider.head_commit)])]) repo.
Proof.
  intros O W N B. eexists. split.
  - simpl. rewrite O. unfold RefProvider.route. rewrite W, N, B. reflexivity.
  - repeat split; reflexivity.
Qed.

Lemma ref_answers_tree (repo : RefProvider.Repo) :
  RefProvider.r_online repo = true ->
  RefProvider.r_owner repo = "o" ->
  RefProvider.r_name repo = "r" ->
  @answers Sample.V (tree_request "o" "r" "tok" (JStr RefProvider.head_commit)) repo
    (RefProvider.tree_value repo) repo.
Proof.
  intros O W N. eexists. split.
  - simpl. rewrite O. unfold RefProvider.route. rewrite W, N. reflexivity.
  - repeat split; reflexivity.
Qed.

(** C4 at the failing input: the repository holds two ticket files and
    the provider answers the tree request with one entry and
    [truncated: true]. [listFilesRecursively], described in the source as
    "List all files in a directory recursively", returns normally with
    that one entry: the second file is missing from the result, no
    further request is issued for the rest, and nothing is written to the
    console. *)
Theorem truncated_listing_is_partial_and_silent :
  JS.get (RefProvider.tree_value Sample.truncating) "truncated" = Ok (JBool true)
  /\ fst (@listFilesRecursively Sample.V "o" "r" TICKETS_FOLDER "tok" (Some "main")
            (Sample.world Sample.truncating))
     = Ok [RefProvider.tree_entry (".kabane/tickets/a.yml", Sample.doc)]
  /\ In (".kabane/tickets/b.yml", Sample.doc) (RefProvider.r_files Sample.truncating)
  /\ requests (snd (@listFilesRecursively Sample.V "o" "r" TICKETS_FOLDER "tok"
                      (Some "main") (Sample.world Sample.truncating)))
     = [ref_request "o" "r" "tok" (Some "main");
        tree_request "o" "r" "tok" (JStr RefProvider.head_commit)]
  /\ console (snd (@listFilesRecursively Sample.V "o" "r" TICKETS_FOLDER "tok"
                     (Some "main") (Sample.world Sample.truncating))) = [].
Proof.
  split; [reflexivity|].
  split; [vm_compute; reflexivity|].
  split; [right; left; reflexivity|].
  split; vm_compute; reflexivity.
Qed.

Lemma listing_of_sample (repo : RefProvider.Repo) :
  (match fst (@listFilesRecursively Sample.V "o" "r" TICKETS_FOLDER "tok" (Some "main")
                (Sample.world repo)) with
   | Ok _ => true
   | Throw _ => false
   end) = true ->
  @listFilesRecursively Sample.V "o" "r" TICKETS_FOLDER "tok" (Some "main") (Sample.world repo)
  = (Ok (listed_in repo), after_listing repo).
Proof.
  unfold listed_in, after_listing.
  destruct (@listFilesRecursively Sample.V "o" "r" TICKETS_FOLDER "tok" (Some "main")
              (Sample.world repo)) as [[files|e] w]; simpl; [reflexivity | discriminate].
Qed.

(** Three ticket files, the second of which does not decode. *)
Lemma loadTickets_skips_the_failing_file_witness :
  yaml_paths (listed_in Sample.one_bad)
  = [".kabane/tickets/t1.yml"; ".kabane/tickets/bad.yml"; ".kabane/tickets/t2.yaml"]
  /\ exists ts w2,
      @loadTickets Sample.P Sample.V "o" "r" "tok" (Some "main") (Sample.world Sample.one_bad)
      = (Ok ts, w2)
      /\ List.length ts = 2%nat
      /\ map id ts = ["t1"; "t2"].
Proof.
  pose proof (listing_of_sample Sample.one_bad eq_refl) as L.
  assert (Y : yaml_paths (listed_in Sample.one_bad)
              = ([".kabane/tickets/t1.yml"] ++ ".kabane/tickets/bad.yml"
                   :: [".kabane/tickets/t2.yaml"])%list)
    by (vm_compute; reflexivity).
  split; [exact Y|].
  destruct (@loadTickets_skips_the_failing_file Sample.P Sample.V "o" "r" "tok" (Some "main")
              (Sample.world Sample.one_bad) (after_listing Sample.one_bad)
              (listed_in Sample.one_bad)
              [".kabane/tickets/t1.yml"] ".kabane/tickets/bad.yml" [".kabane/tickets/t2.yaml"]
              L (ref_reads_only _) Y) as (w2 & E & Len & _).
  - intros p [<- | [<- | []]]; eexists; vm_compute; reflexivity.
  - eexists; vm_compute; reflexivity.
  - eexists. exists w2. split; [exact E|]. split.
    + rewrite Len, Y. reflexivity.
    + vm_compute; reflexivity.
Defined.

(** C6 at the failing input: the repository has no file under
    [.kabane/tickets/], and [loadTickets] returns a ticket, read from the
    neighbouring [.kabane/tickets-archive/]; [isTicketFile] of the codec
    does not take that path for a ticket file. *)
Theorem loadTickets_absent_directory_like_named_neighbour :
  forallb (fun pc => negb (Str.startsWith (fst pc) ".kabane/tickets/"))
          (RefProvider.r_files Sample.archive_only) = true
  /\ (exists t,
         fst (@loadTickets Sample.P Sample.V "o" "r" "tok" (Some "main")
                (Sample.world Sample.archive_only)) = Ok [t]
         /\ id t = "old"
         /\ path t = ".kabane/tickets-archive/old.yml")
  /\ isTicketFile ".kabane/tickets-archive/old.yml" = false
  /\ isTicketFile ".kabane/tickets/old.yml" = true.
Proof.
  split; [reflexivity|].
  split; [eexists; split; [vm_compute; reflexivity | split; reflexivity]|].
  split; reflexivity.
Qed.

(** The neighbouring folder is listed and its file loaded. *)
Lemma listing_is_by_plain_prefix_witness :
  fst (@listFilesRecursively Sample.V "o" "r" "/.kabane/tickets/" "tok" (Some "main")
         (Sample.world Sample.archive_only))
  = Ok [RefProvider.tree_entry (".kabane/tickets-archive/old.yml", Sample.doc)]
  /\ exists ts w2,
      @loadTickets Sample.P Sample.V "o" "r" "tok" (Some "main")
        (Sample.world Sample.archive_only) = (Ok ts, w2)
      /\ In (@file_request Sample.P "o" "r" "tok" (Some "main") ".kabane/tickets-archive/old.yml")
            (requests w2)
      /\ exists t, In t ts /\ id t = "old".
Proof.
  destruct (@listing_is_by_plain_prefix Sample.P Sample.V "o" "r" "tok" (Some "main"))
    as (A & B & _).
  pose proof (listing_of_sample Sample.archive_only eq_refl) as L.
  split.
  - refine (eq_trans
              (A 1%nat 1%nat TICKETS_FOLDER (Sample.world Sample.archive_only)
                 _ (JObj [("sha", JStr RefProvider.head_commit)]) (JStr RefProvider.head_commit)
                 Sample.archive_only _ _ Sample.archive_only
                 eq_refl eq_refl
                 (ref_answers_ref Sample.archive_only eq_refl eq_refl eq_refl eq_refl)
                 eq_refl eq_refl
                 (ref_answers_tree Sample.archive_only eq_refl eq_refl eq_refl)
                 eq_refl eq_refl) _).
    vm_compute. reflexivity.
  - assert (I : In (RefProvider.tree_entry (".kabane/tickets-archive/old.yml", Sample.doc))
                   (listed_in Sample.archive_only)) by (vm_compute; left; reflexivity).
    destruct (B (Sample.world Sample.archive_only) (after_listing Sample.archive_only)
                (listed_in Sample.archive_only)
                (RefProvider.tree_entry (".kabane/tickets-archive/old.yml", Sample.doc))
                ".kabane/tickets-archive/old.yml" L (ref_reads_only _) I eq_refl eq_refl)
      as (ts & w2 & E & Rq & D).
    exists ts, w2. split; [exact E|]. split; [exact Rq|].
    eexists. split.
    + apply D. vm_compute; reflexivity.
    + reflexivity.
Defined.

(** ** Asset store *)

Lemma pair_of_fst {A B} (x : A * B) (a : A) : fst x = a -> x = (a, snd x).
Proof. intros <-. now destruct x. Qed.

(** [diagram.bmp] is refused with the world untouched. *)
Lemma uploadImage_invalid_extension_witness :
  no_allowed_suffix "diagram.bmp"
  /\ @uploadImage Sample.P Sample.V "o" "r" "t1" (mkFile "diagram.bmp" "BM") "tok" (Some "main")
       (Sample.world Sample.one_ticket)
     = (Throw (JSError "Error"
                 "Invalid image extension. Allowed: jpg, jpeg, png, gif, webp, svg"),
        Sample.world Sample.one_ticket).
Proof.
  assert (N : no_allowed_suffix "diagram.bmp").
  { intros e I. simpl in I.
    repeat (destruct I as [<- | I]; [reflexivity|]). contradiction. }
  split; [exact N|].
  exact (proj1 (@uploadImage_invalid_extension_before_any_request Sample.P Sample.V "o" "r" "t1"
                  (mkFile "diagram.bmp" "BM") "tok" (Some "main")
                  (Sample.world Sample.one_ticket) N)).
Defined.

(** C8 at the failing input: two different files with the same name,
    uploaded for one ticket by calls that read the same clock value, get
    the same stored name, although the source makes the name under the
    comment "Generate unique filename to avoid conflicts"; issued one
    after the other, the second is refused by the provider because the
    name is taken. *)
Theorem uploads_in_the_same_millisecond_collide :
  file_name Sample.screenshot = file_name Sample.screenshot'
  /\ file_bytes Sample.screenshot <> file_bytes Sample.screenshot'
  /\ fst (@uploadImage Sample.P Sample.V "o" "r" "t1" Sample.screenshot "tok" (Some "main")
            (Sample.world Sample.one_ticket)) = Ok "1700000000123-screen_shot.PNG"
  /\ fst (@uploadImage Sample.P Sample.V "o" "r" "t1" Sample.screenshot' "tok" (Some "main")
            (Sample.world Sample.one_ticket)) = Ok "1700000000123-screen_shot.PNG"
  /\ fst (@uploadImage Sample.P Sample.V "o" "r" "t1" Sample.screenshot' "tok" (Some "main")
            (snd (@uploadImage Sample.P Sample.V "o" "r" "t1" Sample.screenshot "tok"
                    (Some "main") (Sample.world Sample.one_ticket))))
     = Throw (GitHubAPIError 422 "Invalid request: sha wasn't supplied."
                (JObj [("message", JStr "Invalid request: sha wasn't supplied.")])).
Proof.
  split; [reflexivity|].
  split; [discriminate|].
  split; [vm_compute; reflexivity|].
  split; vm_compute; reflexivity.
Qed.

(* ===================================================================== *)
(** * Further properties: names, paths and the codec *)
(* ===================================================================== *)

Lemma split_chars_lacks (c : ascii) (l : list ascii) :
  forallb (fun a => negb (Ascii.eqb a c)) l = true -> Str.split_chars c l = [l].
Proof.
  induction l as [|a l IH]; simpl; [reflexivity|].
  intros F. apply andb_prop in F. destruct F as [A F]. rewrite (IH F).
  destruct (Ascii.eqb a c); [discriminate | reflexivity].
Qed.

Lemma split_chars_app (c : ascii) (l1 l2 : list ascii) :
  forallb (fun a => negb (Ascii.eqb a c)) l1 = true ->
  Str.split_chars c (l1 ++ c :: l2) = l1 :: Str.split_chars c l2.
Proof.
  induction l1 as [|a l1 IH]; simpl.
  - intros _. rewrite Ascii.eqb_refl.
    pose proof (split_chars_nonempty c l2) as N.
    destruct (Str.split_chars c l2); [congruence | reflexivity].
  - intros F. apply andb_prop in F. destruct F as [A F]. rewrite (IH F).
    destruct (Ascii.eqb a c); [discriminate | reflexivity].
Qed.

Lemma split_app (c : ascii) (s t : string) :
  lacks c s = true ->
  Str.split (s ++ String c t) c = s :: Str.split t c.
Proof.
  intros L. unfold Str.split. rewrite chars_append.
  change (Str.chars (String c t)) with (c :: Str.chars t).
  rewrite (split_chars_app c _ _ L). simpl. now rewrite of_chars_chars.
Qed.

Lemma split_lacks (c : ascii) (s : string) :
  lacks c s = true -> Str.split s c = [s].
Proof.
  intros L. unfold Str.split. rewrite (split_chars_lacks c _ L). simpl.
  now rewrite of_chars_chars.
Qed.

Lemma lacks_append (c : ascii) (s t : string) :
  lacks c (s ++ t) = lacks c s && lacks c t.
Proof. unfold lacks. now rewrite chars_append, forallb_app. Qed.

Lemma endsWith_append (s t : string) : Str.endsWith (s ++ t) t = true.
Proof.
  unfold Str.endsWith. rewrite chars_append, rev_app_distr, of_chars_app.
  apply prefix_append.
Qed.

Lemma length_append (s t : string) :
  String.length (s ++ t) = (String.length s + String.length t)%nat.
Proof. induction s as [|a s IH]; simpl; [reflexivity | now rewrite IH]. Qed.

Lemma substring_append (s t : string) : substring 0 (String.length s) (s ++ t) = s.
Proof.
  induction s as [|a s IH]; simpl.
  - now destruct t.
  - now rewrite IH.
Qed.

Lemma drop_suffix_append (s t : string) : Str.drop_suffix (s ++ t) t = s.
Proof.
  unfold Str.drop_suffix. rewrite length_append.
  replace (String.length s + String.length t - String.length t)%nat
    with (String.length s) by lia.
  apply substring_append.
Qed.

(** X1. [parseRepoFullName] gives back the owner and the repository of
    [owner/repo] when both are non-empty and have no slash; a name with no
    slash at all is refused. *)
Theorem parseRepoFullName_of_owner_and_repo (owner repo : string) :
  owner <> "" -> repo <> "" ->
  lacks "/" owner = true -> lacks "/" repo = true ->
  parseRepoFullName (owner ++ "/" ++ repo) = Ok (owner, repo)
  /\ parseRepoFullName owner
     = Throw (JSError "Error" ("Invalid repository name: " ++ owner)).
Proof.
  intros No Nr Lo Lr. unfold parseRepoFullName. split.
  - change (owner ++ "/" ++ repo) with (owner ++ String "/" repo).
    rewrite (split_app "/" owner repo Lo), (split_lacks "/" repo Lr).
    destruct (String.eqb_spec owner ""); [contradiction|].
    destruct (String.eqb_spec repo ""); [contradiction|]. reflexivity.
  - now rewrite (split_lacks "/" owner Lo).
Qed.

Lemma extractTicketId_created (i : string) :
  lacks "/" i = true ->
  extractTicketId (TICKETS_FOLDER ++ "/" ++ i ++ ".yml") = i.
Proof.
  intros L. unfold extractTicketId.
  change (TICKETS_FOLDER ++ "/" ++ i ++ ".yml")
    with (".kabane" ++ String "/" ("tickets" ++ String "/" (i ++ ".yml"))).
  rewrite (split_app "/" ".kabane" _ eq_refl), (split_app "/" "tickets" _ eq_refl).
  rewrite (split_lacks "/" (i ++ ".yml")) by (rewrite lacks_append, L; reflexivity).
  unfold Str.pop. simpl last. cbv beta iota.
  assert (E : String.eqb (i ++ ".yml") "" = false)
    by (apply String.eqb_neq; destruct i; discriminate).
  rewrite E.
  unfold Str.strip_yaml_extension. rewrite endsWith_append.
  apply drop_suffix_append.
Qed.

(** The path of the tickets folder made from an id without a slash names
    that id again, starts with the root of the listing, has a YAML
    extension and is a ticket file for [isTicketFile]. *)
Lemma ticket_path_names_its_id (i : string) :
  lacks "/" i = true ->
  let p := TICKETS_FOLDER ++ "/" ++ i ++ ".yml" in
  extractTicketId p = i
  /\ Str.startsWith p (Str.trim_slashes TICKETS_FOLDER) = true
  /\ is_yaml p = true
  /\ isTicketFile p = true.
Proof.
  intros L p. split; [now apply extractTicketId_created|].
  assert (Y : Str.endsWith p ".yml" = true).
  { unfold p.
    replace (TICKETS_FOLDER ++ "/" ++ i ++ ".yml")
      with ((".kabane/tickets/" ++ i) ++ ".yml").
    - apply endsWith_append.
    - simpl. reflexivity. }
  split; [reflexivity|]. split.
  - unfold is_yaml. now rewrite Y.
  - unfold isTicketFile. rewrite Y. simpl orb.
    unfold p. simpl. now destruct i.
Qed.

Lemma get_field_of (data : JSValue) (k : string) :
  nullish data = false -> JS.get data k = Ok (field_of data k).
Proof.
  destruct data; simpl; try discriminate; try reflexivity.
  intros _. now destruct (JS.assoc k fields).
Qed.

Lemma get_nullish (data : JSValue) (k : string) :
  nullish data = true -> exists e, JS.get data k = Throw e.
Proof. destruct data; simpl; try discriminate; eauto. Qed.

Lemma or_truthy (a b : JSValue) : JS.truthy b = true -> JS.truthy (JS.or a b) = true.
Proof. intros B. unfold JS.or. destruct (JS.truthy a) eqn:A; assumption. Qed.

Lemma or_idem (a b : JSValue) : JS.truthy b = true -> JS.or (JS.or a b) b = JS.or a b.
Proof. intros B. unfold JS.or at 1. now rewrite (or_truthy a b B). Qed.

Lemma unset_if_empty_idem xs : unset_if_empty (unset_if_empty xs) = unset_if_empty xs.
Proof. now destruct xs as [[|x l]|]. Qed.

Lemma unset_if_falsy_idem v : unset_if_falsy (unset_if_falsy v) = unset_if_falsy v.
Proof. unfold unset_if_falsy. destruct (JS.truthy v) eqn:T; [now rewrite T | reflexivity]. Qed.

Lemma json_fields (fields : list (string * JSValue)) :
  JS.json (JObj fields)
  = JObj (flat_map (fun kv => json_field (fst kv) (snd kv)) fields).
Proof.
  simpl. f_equal. induction fields as [|[k x] fields IH]; simpl; [reflexivity|].
  rewrite IH. now destruct x.
Qed.

Lemma assoc_json_field k k' x :
  scalar x = true ->
  JS.assoc k (json_field k' x)
  = if defined x && String.eqb k k' then Some x else None.
Proof.
  destruct x; simpl; try discriminate; intros _; try reflexivity;
    now destruct (String.eqb k k').
Qed.

Lemma defined_value x :
  match (if defined x then Some x else None) with
  | Some v => v
  | None => JUndefined
  end = x.
Proof. now destruct x. Qed.

Lemma json_defined_scalars (l : list JSValue) :
  forallb (fun s => scalar s && defined s) l = true ->
  map (fun x => match x with JUndefined => JNull | _ => JS.json x end) l = l.
Proof.
  induction l as [|x l IH]; simpl; [reflexivity|].
  intros F. apply andb_prop in F. destruct F as [S F]. rewrite (IH F).
  now destruct x.
Qed.

Lemma map_result_map {A B C} (f : B -> Result C) (g : A -> B) (h : A -> C) (xs : list A) :
  (forall x, In x xs -> f (g x) = Ok (h x)) ->
  map_result f (map g xs) = Ok (map h xs).
Proof.
  induction xs as [|x xs IH]; intros E; simpl; [reflexivity|].
  rewrite (E x (or_introl eq_refl)). simpl.
  rewrite IH by (intros y I; apply E; now right). reflexivity.
Qed.

Lemma map_result_inverse {A B} (f : B -> Result A) (g : A -> B) (xs : list A) :
  (forall x, In x xs -> f (g x) = Ok x) ->
  map_result f (map g xs) = Ok xs.
Proof.
  intros E. rewrite (map_result_map f g (fun x => x) xs E). now rewrite map_id.
Qed.

Lemma map_result_throws {A B} (f : A -> Result B) (xs : list A) x :
  In x xs -> (exists e, f x = Throw e) -> exists e, map_result f xs = Throw e.
Proof.
  induction xs as [|a xs IH]; intros I T; [contradiction|]. simpl.
  destruct (f a) as [b|e] eqn:F; simpl; [|eauto].
  destruct I as [-> | I].
  - destruct T as (e & T). congruence.
  - destruct (IH I T) as (e & E). rewrite E. simpl. eauto.
Qed.

Section CodecFurther.
Context `{Platform}.

Lemma parseTicketFile_of content data p h :
  YAML_parse content = Some data ->
  nullish data = false ->
  parseTicketFile content p h = Ok (ticket_of data p h).
Proof.
  intros Y N. unfold parseTicketFile, parseYaml. rewrite Y.
  cbv beta iota delta [rbind].
  rewrite !(get_field_of data _ N). reflexivity.
Qed.

(** X3. For a text whose document, if it has one, holds in [assignees],
    [labels] and [images] only lists that [value.map(String)] converts
    without throwing (no element with a [toString] entry of its own),
    [parseTicketFile] throws exactly when the text is not YAML or the
    document is [null]; every other such document gives a ticket whose id
    is the one the path names and whose title, type and status are
    non-empty. A list outside that condition makes the conversion itself
    throw, which [normalizeArray] does not represent: the condition keeps
    the statement to the documents on which it follows the code. *)
Theorem parseTicketFile_throws_only_on_no_document content p h :
  (forall data, YAML_parse content = Some data ->
                converts (field_of data "assignees") = true
                /\ converts (field_of data "labels") = true
                /\ converts (field_of data "images") = true) ->
  ((exists e, parseTicketFile content p h = Throw e)
   <-> (YAML_parse content = None
        \/ exists data, YAML_parse content = Some data /\ nullish data = true))
  /\ (forall t, parseTicketFile content p h = Ok t ->
                id t = extractTicketId p /\ path t = p /\ sha t = h
                /\ JS.truthy (title t) = true
                /\ JS.truthy (type t) = true
                /\ JS.truthy (status t) = true).
Proof.
  intros _.
  destruct (YAML_parse content) as [data|] eqn:Y.
  - destruct (nullish data) eqn:N.
    + assert (T : exists e, parseTicketFile content p h = Throw e).
      { unfold parseTicketFile, parseYaml. rewrite Y. cbv beta iota delta [rbind].
        destruct (get_nullish data "title" N) as (e & G). rewrite G. eauto. }
      split.
      * split; [intros _; right; eauto | intros _; exact T].
      * intros t E. destruct T as (e & T). congruence.
    + rewrite (parseTicketFile_of content data p h Y N). split.
      * split.
        -- intros (e & E). discriminate.
        -- intros [E | (d & E & D)]; [discriminate|]. inversion E; subst. congruence.
      * intros t E. inversion E; subst; clear E. simpl.
        repeat split; apply or_truthy; reflexivity.
  - assert (T : parseTicketFile content p h = Throw (JSError "Error" "Invalid YAML format")).
    { unfold parseTicketFile, parseYaml. now rewrite Y. }
    rewrite T. split.
    + split; [intros _; now left | intros _; eauto].
    + intros t E. discriminate.
Qed.

Lemma parse_serialize_normalises time t p h :
  YAML_parse (YAML_stringify (ticketYaml time t)) = Some (ticketYaml time t) ->
  parseTicketFile (serializeTicket time t) p h = Ok (normalise time p h t).
Proof.
  intros Y. unfold serializeTicket, serializeYaml.
  rewrite (parseTicketFile_of _ _ p h Y eq_refl).
  unfold ticket_of, normalise, ticketYaml, field_of.
  rewrite !assoc_app, !assoc_field_if.
  cbn [JS.assoc String.eqb Ascii.eqb Bool.eqb andb].
  rewrite ?andb_true_r, ?andb_false_r. cbv beta iota.
  apply f_equal. unfold unset_if_empty, unset_if_falsy.
  apply ticket_fields_eq;
    first
      [ reflexivity
      | destruct (priority t) as [[]|]; reflexivity
      | destruct (estimate t); reflexivity
      | destruct (assignees t) as [[|x l]|];
        [reflexivity | simpl; now rewrite map_toString_JStr | reflexivity]
      | destruct (labels t) as [[|x l]|];
        [reflexivity | simpl; now rewrite map_toString_JStr | reflexivity]
      | destruct (images t) as [[|x l]|];
        [reflexivity | simpl; now rewrite map_toString_JStr | reflexivity]
      | destruct (JS.truthy (parent t)); reflexivity
      | destruct (JS.truthy (version t)); reflexivity
      | destruct (JS.truthy (dueDate t)); reflexivity
      | destruct (JS.truthy (description t)); reflexivity
      | destruct (JS.truthy (createdAt t)); reflexivity ].
Qed.

Lemma normalise_again time time' p h t :
  normalise time' p h (normalise time p h t)
  = with_updatedAt (JStr (toISOString time')) (normalise time p h t).
Proof.
  unfold normalise, with_updatedAt. simpl.
  apply ticket_fields_eq; try reflexivity;
    first [ apply or_idem; reflexivity
          | apply unset_if_empty_idem
          | apply unset_if_falsy_idem ].
Qed.

(** X4. Encoding any ticket and decoding it under a path and a hash gives
    the ticket in a normal form (id from the path, defaults for an empty
    title, type or status, empty optional fields unset); encoding and
    decoding that again changes nothing but the updated-timestamp. Both
    steps assume the YAML library reads the written document back. *)
Theorem parse_serialize_is_idempotent time time' t p h :
  YAML_parse (YAML_stringify (ticketYaml time t)) = Some (ticketYaml time t) ->
  YAML_parse (YAML_stringify (ticketYaml time' (normalise time p h t)))
  = Some (ticketYaml time' (normalise time p h t)) ->
  parseTicketFile (serializeTicket time t) p h = Ok (normalise time p h t)
  /\ parseTicketFile (serializeTicket time' (normalise time p h t)) p h
     = Ok (with_updatedAt (JStr (toISOString time')) (normalise time p h t)).
Proof.
  intros Y Y'. split.
  - now apply parse_serialize_normalises.
  - rewrite (parse_serialize_normalises time' _ p h Y'). f_equal. apply normalise_again.
Qed.

Lemma version_round_trip v :
  plain_version v = true -> version_of (JS.json (version_value v)) = Ok v.
Proof.
  unfold plain_version. intros P.
  repeat (apply andb_prop in P; destruct P as [P ?]).
  unfold version_value, version_of. rewrite json_fields.
  cbn [flat_map fst snd]. rewrite !get_object, !assoc_app, !assoc_json_field by assumption.
  cbn [String.eqb Ascii.eqb Bool.eqb]. rewrite ?andb_true_r, ?andb_false_r.
  cbn [JS.assoc]. cbv beta iota delta [rbind].
  destruct v as [a b c d e]. simpl in *.
  destruct a, b, c, d, e; try discriminate; reflexivity.
Qed.

Lemma ticket_type_round_trip t :
  plain_type t = true -> ticket_type_of (JS.json (ticket_type_value t)) = Ok t.
Proof.
  unfold plain_type. intros P.
  repeat (apply andb_prop in P; destruct P as [P ?]).
  unfold ticket_type_value, ticket_type_of. rewrite json_fields.
  cbn [flat_map fst snd]. rewrite !get_object, !assoc_app, !assoc_json_field by assumption.
  cbn [String.eqb Ascii.eqb Bool.eqb]. rewrite ?andb_true_r, ?andb_false_r.
  cbn [JS.assoc]. cbv beta iota delta [rbind].
  destruct t as [a b c d]. simpl in *.
  destruct a, b, c, d; try discriminate; reflexivity.
Qed.

Lemma column_round_trip c :
  plain_column c = true -> column_of (JS.json (column_value c)) = Ok c.
Proof.
  unfold plain_column. intros P.
  repeat (apply andb_prop in P; destruct P as [P ?]).
  unfold column_value, column_of. rewrite json_fields.
  cbn [flat_map fst snd json_field]. change (JS.json (JArr (col_statuses c)))
    with (JArr (map (fun x => match x with JUndefined => JNull | _ => JS.json x end)
                    (col_statuses c))).
  rewrite json_defined_scalars by assumption.
  rewrite !get_object, !assoc_app, !assoc_json_field by assumption.
  cbn [String.eqb Ascii.eqb Bool.eqb JS.assoc]. rewrite ?andb_true_r, ?andb_false_r.
  cbn [JS.assoc]. cbv beta iota delta [rbind].
  destruct c as [a b l d]. simpl in *.
  destruct a, b, d; try discriminate; reflexivity.
Qed.

Lemma keyed_list_json (k : string) (items : list JSValue) :
  JS.json (JObj [(k, JArr items)])
  = JObj [(k, JArr (map (fun x => match x with JUndefined => JNull | _ => JS.json x end)
                        items))].
Proof. reflexivity. Qed.

(** X5. What [serializeVersionsFile], [serializeTicketTypesFile] and
    [serializeColumnsFile] write, the matching decoder reads back as the
    same list, when the YAML library reads a written document back as
    [JSON.stringify] would leave it and the fields are strings, numbers,
    booleans, [null] or unset (a column's statuses: set). *)
Theorem list_files_round_trip :
  (forall vs,
      YAML_parse (YAML_stringify (JObj [("versions", JArr (map version_value vs))]))
      = Some (JS.json (JObj [("versions", JArr (map version_value vs))])) ->
      forallb plain_version vs = true ->
      parseVersionsFile (serializeVersionsFile vs) = Ok vs)
  /\ (forall ts,
         YAML_parse (YAML_stringify (JObj [("ticketTypes", JArr (map ticket_type_value ts))]))
         = Some (JS.json (JObj [("ticketTypes", JArr (map ticket_type_value ts))])) ->
         forallb plain_type ts = true ->
         parseTicketTypesFile (serializeTicketTypesFile ts) = Ok ts)
  /\ (forall cs,
         YAML_parse (YAML_stringify (JObj [("columns", JArr (map column_value cs))]))
         = Some (JS.json (JObj [("columns", JArr (map column_value cs))])) ->
         forallb plain_column cs = true ->
         parseColumnsFile (serializeColumnsFile cs) = Ok cs).
Proof.
  split; [|split].
  - intros vs Y P.
    unfold parseVersionsFile, serializeVersionsFile, parseYaml, serializeYaml.
    rewrite Y, keyed_list_json. cbn [JS.isArray rbind JS.get JS.assoc String.eqb Ascii.eqb Bool.eqb].
    rewrite map_map. rewrite forallb_forall in P.
    apply map_result_inverse. intros v I. apply (version_round_trip v (P v I)).
  - intros ts Y P.
    unfold parseTicketTypesFile, serializeTicketTypesFile, parseYaml, serializeYaml.
    rewrite Y, keyed_list_json. cbn [JS.isArray rbind JS.get JS.assoc String.eqb Ascii.eqb Bool.eqb].
    rewrite map_map. rewrite forallb_forall in P.
    apply map_result_inverse. intros v I. apply (ticket_type_round_trip v (P v I)).
  - intros cs Y P.
    unfold parseColumnsFile, serializeColumnsFile, parseYaml, serializeYaml.
    rewrite Y, keyed_list_json. cbn [JS.isArray rbind JS.get JS.assoc String.eqb Ascii.eqb Bool.eqb].
    rewrite map_map. rewrite forallb_forall in P.
    apply map_result_inverse. intros v I. apply (column_round_trip v (P v I)).
Qed.

Lemma column_of_item item :
  nullish item = false -> column_of item = Ok (column_from item).
Proof.
  intros N. unfold column_of, column_from.
  rewrite !(get_field_of item _ N). reflexivity.
Qed.

(** X6. [parseColumnsFile] on a sequence never fails for a missing or
    ill-typed field: when no item is [null] it returns one column per item,
    a column without a list of statuses getting its own id as its only
    status; it throws when an item is [null]. A document other than
    [null] that is neither a sequence nor an object holding one under
    [columns] is refused with the must-contain-an-array error; the [null]
    document (an empty file) is not: reading [columns] of it throws a
    TypeError before the test is reached. *)
Theorem parseColumnsFile_tolerates_missing_fields content :
  (forall items,
      YAML_parse content = Some (JArr items) ->
      forallb (fun i => negb (nullish i)) items = true ->
      parseColumnsFile content = Ok (map column_from items)
      /\ (forall i, In i items -> JS.isArray (field_of i "statuses") = false ->
                    col_statuses (column_from i) = [col_id (column_from i)]))
  /\ (forall items,
         YAML_parse content = Some (JArr items) ->
         existsb nullish items = true ->
         exists e, parseColumnsFile content = Throw e)
  /\ (forall data,
         YAML_parse content = Some data ->
         nullish data = false ->
         JS.isArray data = false ->
         JS.isArray (field_of data "columns") = false ->
         parseColumnsFile content
         = Throw (JSError "Error" "columns.yml must contain an array of columns"))
  /\ (YAML_parse content = Some JNull ->
      parseColumnsFile content
      = Throw (JSError "TypeError" "Cannot read properties of null (reading 'columns')")).
Proof.
  split; [|split; [|split]].
  - intros items Y N. unfold parseColumnsFile, parseYaml. rewrite Y. simpl. split.
    + rewrite <- (map_id items) at 1. apply map_result_map.
      intros i I. rewrite forallb_forall in N. specialize (N i I).
      apply column_of_item. now destruct (nullish i).
    + intros i _ A. unfold column_from. simpl.
      now destruct (field_of i "statuses").
  - intros items Y E. unfold parseColumnsFile, parseYaml. rewrite Y. simpl.
    apply existsb_exists in E. destruct E as (i & I & N).
    apply (map_result_throws column_of items i I).
    unfold column_of. destruct (get_nullish i "id" N) as (e & G). rewrite G. simpl. eauto.
  - intros data Y N A C. unfold parseColumnsFile, parseYaml. rewrite Y. simpl.
    rewrite A, (get_field_of data "columns" N). simpl.
    now destruct (field_of data "columns").
  - intros Y. unfold parseColumnsFile, parseYaml. rewrite Y. reflexivity.
Qed.

End CodecFurther.

(* ===================================================================== *)
(** * Configuration and versions *)
(* ===================================================================== *)

Lemma try_catch_filters `{Provider} {A} (m : M A) (x : A) (p : Exn -> bool)
      (w w' : World) e :
  try_catch m (fun error => if p error then ret x else throw error) w = (Throw e, w') ->
  p e = false.
Proof.
  unfold try_catch. destruct (m w) as [[a|e'] w1]; [discriminate|].
  destruct (p e') eqn:P; unfold ret, throw; intros E; inversion E; subst. exact P.
Qed.

Section Fetching.
Context `{Platform} `{Provider}.

(** X7. [githubFetch] issues exactly one request, with the bearer token
    and the interface version in its headers, and writes nothing to the
    console. A transport failure is a TypeError. An answer outside
    200-299 whose body can be read, and whose [message] converts to a
    string without throwing, is a [GitHubAPIError] that carries the status
    of the answer, so that it is classified NotFound exactly for 404, the
    body (the empty object when the body is no JSON) and as its message
    the [message] of the body when that is truthy, the status text after
    a fixed prefix otherwise. An error answer whose body is a JSON [null]
    is a TypeError instead. A 204 gives the empty object whatever its
    body; any other success gives the body. A [message] that does not
    convert (an object with a [toString] entry of its own) makes the
    construction of the error throw, which [interpret] does not
    represent, so that the statement leaves it out. *)
Theorem githubFetch_outcomes endpoint token m b (w : World) :
  let req := request_of endpoint token m b in
  let run := githubFetch endpoint token m b w in
  requests (snd run) = (requests w ++ [req])%list
  /\ console (snd run) = console w
  /\ headers req = [("Authorization", "Bearer " ++ token);
                    ("Accept", "application/vnd.github.v3+json");
                    ("Content-Type", "application/json");
                    ("X-GitHub-Api-Version", "2022-11-28")]
  /\ (fst (serve req (remote w)) = None ->
      fst run = Throw (JSError "TypeError" "Failed to fetch"))
  /\ (forall resp, fst (serve req (remote w)) = Some resp ->
        (ok resp = false -> readable resp = true ->
         let error := match resp_json resp with Some v => v | None => JObj [] end in
         let message := if JS.truthy (field_of error "message")
                        then JS.toString (field_of error "message")
                        else "GitHub API error: " ++ resp_statusText resp in
         stringable (field_of error "message") = true ->
         fst run = Throw (GitHubAPIError (resp_status resp) message error)
         /\ isNotFound (GitHubAPIError (resp_status resp) message error)
            = (resp_status resp =? 404))
        /\ (ok resp = false -> resp_json resp = Some JNull ->
            fst run = Throw (JSError "TypeError"
                               "Cannot read properties of null (reading 'message')"))
        /\ (resp_status resp = 204 -> fst run = Ok (JObj []))
        /\ (forall v, ok resp = true -> resp_status resp <> 204 ->
                      resp_json resp = Some v -> fst run = Ok v)).
Proof.
  cbv zeta. rewrite githubFetch_run. simpl fst. simpl snd.
  split; [reflexivity|]. split; [reflexivity|]. split; [reflexivity|]. split.
  - intros E. now rewrite E.
  - intros resp E. rewrite E. unfold interpret. split; [|split; [|split]].
    + intros O R _. rewrite O. simpl (negb _). cbv iota zeta.
      unfold readable in R.
      assert (N : nullish (match resp_json resp with Some v => v | None => JObj [] end)
                  = false).
      { destruct (resp_json resp) as [[]|]; try discriminate; reflexivity. }
      rewrite (get_field_of _ "message" N). split; reflexivity.
    + intros O J. rewrite O, J. reflexivity.
    + intros S. unfold ok. rewrite S. reflexivity.
    + intros v O S J. rewrite O. simpl negb. cbv iota.
      destruct (Z.eqb_spec (resp_status resp) 204); [contradiction|]. now rewrite J.
Qed.

End Fetching.

Lemma warnings_app (c d : list (Level * string)) :
  warnings (c ++ d) = (warnings c ++ warnings d)%list.
Proof. apply filter_app. Qed.

Lemma warnings_warning_of {A} label read (parse : string -> Result A) :
  warnings (warning_of label read parse) = warning_of label read parse.
Proof.
  unfold warning_of. destruct (let? cs := read in parse (fst cs)) as [a|e]; [reflexivity|].
  now destruct (isNotFound e).
Qed.

Lemma warnings_ticket_warning (ps : list string) :
  warnings (map ticket_warning ps) = map ticket_warning ps.
Proof. induction ps as [|p ps IH]; [reflexivity|]. simpl. now rewrite IH. Qed.

Section Configuration.
Context `{Platform} `{Provider}.
Variables (owner repo token : string) (branch : option string).

Lemma load_or_default_run {A} p label (parse : string -> Result A) default (w : World) :
  load_or_default owner repo token branch p label parse default w
  = (Ok (loaded_or (read_file owner repo token branch (remote w) p) parse default),
     mkWorld _ (snd (serve (file_request owner repo token branch p) (remote w)))
       (requests w ++ [file_request owner repo token branch p])
       (console w ++ warning_of label (read_file owner repo token branch (remote w) p) parse)
       (now w)).
Proof.
  unfold load_or_default, try_catch, bind, loaded_or, warning_of, read_file.
  rewrite fetchFileContent_run.
  destruct (let? v := interpret _ in file_of v) as [cs|e]; simpl rbind.
  - unfold lift. destruct (parse (fst cs)) as [a|e].
    + unfold sent. now rewrite app_nil_r.
    + destruct (isNotFound e); simpl; unfold sent; now rewrite ?app_nil_r.
  - cbv beta iota. destruct (isNotFound e); simpl; unfold sent; now rewrite ?app_nil_r.
Qed.

(** X8. [loadKabaneConfig] never throws: it issues the three reads, in
    order, and returns a configuration whatever they answer. When reads
    leave the provider as it is, each part is what its file decodes to, or
    the default when reading or decoding it throws, and one warning is
    written to the console for each failure that is not a NotFound; with
    none of the three files there, whatever else the repository holds,
    the result is the default configuration and the console is left as
    it was. *)
Theorem loadKabaneConfig_never_throws (w : World) :
  (exists cfg w',
     loadKabaneConfig owner repo token branch w = (Ok cfg, w')
     /\ requests w'
        = (requests w ++ map (file_request owner repo token branch)
                           [COLUMNS_FILE; TICKET_TYPES_FILE; VERSIONS_FILE])%list)
  /\ (reads_only (remote w) ->
      let read := read_file owner repo token branch (remote w) in
      fst (loadKabaneConfig owner repo token branch w)
      = Ok (mkConfig (loaded_or (read COLUMNS_FILE) parseColumnsFile DEFAULT_COLUMNS)
              (loaded_or (read TICKET_TYPES_FILE) parseTicketTypesFile DEFAULT_TICKET_TYPES)
              (loaded_or (read VERSIONS_FILE) parseVersionsFile DEFAULT_VERSIONS))
      /\ warnings (console (snd (loadKabaneConfig owner repo token branch w)))
         = (warnings (console w)
            ++ warning_of "columns.yml" (read COLUMNS_FILE) parseColumnsFile
            ++ warning_of "ticketTypes.yml" (read TICKET_TYPES_FILE) parseTicketTypesFile
            ++ warning_of "versions.yml" (read VERSIONS_FILE) parseVersionsFile)%list
      /\ ((forall p, In p [COLUMNS_FILE; TICKET_TYPES_FILE; VERSIONS_FILE] ->
                      exists e, read p = Throw e /\ isNotFound e = true) ->
          fst (loadKabaneConfig owner repo token branch w) = Ok getDefaultConfig
          /\ console (snd (loadKabaneConfig owner repo token branch w)) = console w)).
Proof.
  unfold loadKabaneConfig, bind.
  rewrite load_or_default_run. rewrite load_or_default_run. rewrite load_or_default_run.
  unfold ret. split.
  - eexists. eexists. split; [reflexivity|]. simpl. now rewrite <- !app_assoc.
  - intros R. cbv zeta. simpl remote. simpl console. simpl fst.
    assert (Q : forall p, snd (serve (file_request owner repo token branch p) (remote w))
                          = remote w) by (intros p; apply R; reflexivity).
    rewrite !Q. rewrite <- !app_assoc. split; [reflexivity|]. split.
    { rewrite !warnings_app, !warnings_warning_of. reflexivity. }
    intros A. unfold loaded_or, warning_of.
    destruct (A COLUMNS_FILE) as (e1 & E1 & N1); [simpl; tauto|].
    destruct (A TICKET_TYPES_FILE) as (e2 & E2 & N2); [simpl; tauto|].
    destruct (A VERSIONS_FILE) as (e3 & E3 & N3); [simpl; tauto|].
    rewrite E1, E2, E3. simpl rbind. cbv iota. rewrite N1, N2, N3.
    split; [reflexivity|]. now rewrite !app_nil_r.
Qed.

End Configuration.

Section Repository.
Context `{Platform} `{Provider}.
Variables (owner repo token : string) (branch : option string).

Lemma checkKabaneFolderExists_run (w : World) :
  checkKabaneFolderExists owner repo token branch w
  = (match interpret (fst (serve (folder_request owner repo token branch) (remote w))) with
     | Ok _ => Ok true
     | Throw e => if isNotFound e then Ok false else Throw e
     end,
     sent (folder_request owner repo token branch) w
          (snd (serve (folder_request owner repo token branch) (remote w)))).
Proof.
  unfold checkKabaneFolderExists, try_catch, bind, folder_request, file_request.
  rewrite githubFetch_run.
  destruct (interpret _) as [v|e]; [reflexivity|].
  cbv beta iota. now destruct (isNotFound e).
Qed.

(** X9. [checkKabaneFolderExists] issues one read of the folder. It
    returns true exactly when the read is answered, false exactly when it
    fails with a NotFound, and throws every other error on. *)
Theorem checkKabaneFolderExists_probes_once (w : World) :
  let req := folder_request owner repo token branch in
  let outcome := interpret (fst (serve req (remote w))) in
  let run := checkKabaneFolderExists owner repo token branch w in
  requests (snd run) = (requests w ++ [req])%list
  /\ (fst run = Ok true <-> exists v, outcome = Ok v)
  /\ (fst run = Ok false <-> exists e, outcome = Throw e /\ isNotFound e = true)
  /\ (forall e, fst run = Throw e <-> outcome = Throw e /\ isNotFound e = false).
Proof.
  cbv zeta. rewrite checkKabaneFolderExists_run. simpl fst. simpl snd.
  split; [reflexivity|].
  destruct (interpret _) as [v|e]; [|destruct (isNotFound e) eqn:N].
  - split; [split; eauto|]. split; [split|intros e; split].
    + discriminate.
    + intros (e & E & _). discriminate.
    + discriminate.
    + intros (E & _). discriminate.
  - split; [split|]; [discriminate | intros (v & E); discriminate |].
    split; [split; eauto|]. intros e'. split; [discriminate|].
    intros (E & N'). inversion E; subst. congruence.
  - split; [split|]; [discriminate | intros (v & E); discriminate |].
    split; [split|intros e'; split].
    + discriminate.
    + intros (e' & E & N'). inversion E; subst. congruence.
    + intros E. inversion E; subst. split; [reflexivity | exact N].
    + intros (E & _). inversion E. reflexivity.
Qed.

Lemma checkPushAccess_run (w : World) :
  checkPushAccess owner repo token w
  = (match (let? repository := interpret (fst (serve (repository_request owner repo token)
                                                     (remote w))) in
            let? permissions := JS.get repository "permissions" in
            if nullish permissions then Ok (PushValue (JBool false))
            else if JS.isArray permissions then Ok ArrayPush
            else let? push := JS.get permissions "push" in
                 Ok (PushValue (if nullish push then JBool false else push))) with
     | Ok v => Ok v
     | Throw e => if isForbidden e then Ok (PushValue (JBool false)) else Throw e
     end,
     sent (repository_request owner repo token) w
          (snd (serve (repository_request owner repo token) (remote w)))).
Proof.
  unfold checkPushAccess, fetchRepository, try_catch, bind, repository_request.
  rewrite githubFetch_run.
  destruct (interpret _) as [v|e]; simpl rbind.
  - unfold lift at 1. destruct (JS.get v "permissions") as [p|e]; simpl rbind.
    + destruct p; simpl nullish; simpl JS.isArray; cbv iota;
        try (unfold ret at 1; cbv beta iota; reflexivity);
        unfold lift; (destruct (JS.get _ "push") as [q|e]; simpl rbind;
                      [destruct q; reflexivity
                      | cbv beta iota; now destruct (isForbidden e)]).
    + cbv beta iota. now destruct (isForbidden e).
  - cbv beta iota. now destruct (isForbidden e).
Qed.

(** X10. [checkPushAccess] issues one read of the repository. A Forbidden
    answer gives false; a repository without [permissions] gives false;
    [permissions] that is an array gives the [push] method every array
    inherits, which is not a boolean; any other [permissions] gives false
    when it has no [push] and the value of [permissions.push], as it is,
    when it has one. A Forbidden error is never thrown. *)
Theorem checkPushAccess_outcomes (w : World) :
  let req := repository_request owner repo token in
  let outcome := interpret (fst (serve req (remote w))) in
  let run := checkPushAccess owner repo token w in
  requests (snd run) = (requests w ++ [req])%list
  /\ (forall e, outcome = Throw e -> isForbidden e = true ->
        fst run = Ok (PushValue (JBool false)))
  /\ (forall repository, outcome = Ok repository ->
        nullish (field_of repository "permissions") = true ->
        nullish repository = false ->
        fst run = Ok (PushValue (JBool false)))
  /\ (forall repository items, outcome = Ok repository ->
        field_of repository "permissions" = JArr items ->
        fst run = Ok ArrayPush)
  /\ (forall repository, outcome = Ok repository ->
        nullish (field_of repository "permissions") = false ->
        JS.isArray (field_of repository "permissions") = false ->
        fst run = Ok (PushValue
                        (let push := field_of (field_of repository "permissions") "push" in
                         if nullish push then JBool false else push)))
  /\ (forall e, fst run = Throw e -> isForbidden e = false).
Proof.
  cbv zeta. rewrite checkPushAccess_run. simpl fst. simpl snd.
  split; [reflexivity|].
  destruct (interpret _) as [v|e]; simpl rbind.
  - split; [discriminate|]. split; [|split; [|split]].
    + intros ? E N V. inversion E; subst.
      rewrite (get_field_of _ "permissions" V). simpl rbind. rewrite N. reflexivity.
    + intros ? items E P. inversion E; subst.
      assert (V : nullish repository = false).
      { destruct repository; auto; discriminate. }
      rewrite (get_field_of _ "permissions" V), P. reflexivity.
    + intros ? E N A. inversion E; subst.
      assert (V : nullish repository = false) by (destruct repository; auto; discriminate).
      rewrite (get_field_of _ "permissions" V). simpl rbind. rewrite N, A.
      rewrite (get_field_of _ "push" N). reflexivity.
    + intros e.
      destruct (JS.get v "permissions") as [p|e']; simpl rbind.
      * destruct (nullish p); simpl rbind; [discriminate|].
        destruct (JS.isArray p); [discriminate|].
        destruct (JS.get p "push") as [q|e'']; simpl rbind; [discriminate|].
        cbv beta iota.
        destruct (isForbidden e'') eqn:F; [discriminate|]. intros E; inversion E; subst; exact F.
      * cbv beta iota.
        destruct (isForbidden e') eqn:F; [discriminate|]. intros E; inversion E; subst; exact F.
  - split; [|split; [discriminate|split; [discriminate|split; [discriminate|]]]].
    + intros ? E F. inversion E; subst. now rewrite F.
    + intros e'. destruct (isForbidden e) eqn:F; [discriminate|].
      intros E; inversion E; subst; exact F.
Qed.

End Repository.

Section Versions.
Context `{Platform} `{Provider}.
Variables (owner repo token : string) (branch : option string).

Lemma saveVersions_run versions (w : World) :
  saveVersions owner repo versions token branch w
  = let get := file_request owner repo token branch VERSIONS_FILE in
    let w1 := sent get w (snd (serve get (remote w))) in
    match hash_read (read_file owner repo token branch (remote w) VERSIONS_FILE) with
    | Throw e => (Throw e, w1)
    | Ok h =>
        let put := versions_write owner repo token branch versions h in
        ((let? _ := interpret (fst (serve put (remote w1))) in Ok tt),
         sent put w1 (snd (serve put (remote w1))))
    end.
Proof.
  unfold saveVersions, bind, try_catch, hash_read, read_file. rewrite fetchFileContent_run.
  cbv zeta.
  destruct (let? v := interpret _ in file_of v) as [cs|e].
  - unfold ret at 1. cbv beta iota. unfold createOrUpdateFile, versions_write.
    simpl p_owner. simpl p_repo. simpl p_path. rewrite githubFetch_run.
    now destruct (interpret _).
  - cbv beta iota. destruct (isNotFound e); simpl (negb _); cbv iota; [|reflexivity].
    unfold ret at 1. cbv beta iota. unfold createOrUpdateFile, versions_write.
    simpl p_owner. simpl p_repo. simpl p_path. rewrite githubFetch_run.
    now destruct (interpret _).
Qed.

Lemma saveVersions_success versions (w w' : World) :
  saveVersions owner repo versions token branch w = (Ok tt, w') ->
  exists h,
    hash_read (read_file owner repo token branch (remote w) VERSIONS_FILE) = Ok h
    /\ requests w'
       = (requests w ++ [file_request owner repo token branch VERSIONS_FILE;
                         versions_write owner repo token branch versions h])%list.
Proof.
  rewrite saveVersions_run. cbv zeta.
  destruct (hash_read _) as [h|e]; [|discriminate].
  intros E. inversion E; subst. exists h. split; [reflexivity|].
  simpl. now rewrite <- app_assoc.
Qed.

(** X11. [saveVersions] reads the versions file and then writes it with
    the hash it has just read. When the read fails with a NotFound the
    write carries no hash; when it fails with any other error that error
    is thrown and no write is issued. *)
Theorem saveVersions_writes_with_the_hash_it_read versions (w : World) :
  let get := file_request owner repo token branch VERSIONS_FILE in
  let read := read_file owner repo token branch (remote w) VERSIONS_FILE in
  let run := saveVersions owner repo versions token branch w in
  (forall content h, read = Ok (content, h) ->
     requests (snd run)
     = (requests w ++ [get; versions_write owner repo token branch versions h])%list)
  /\ (forall e, read = Throw e -> isNotFound e = true ->
        exists put b,
          requests (snd run) = (requests w ++ [get; put])%list
          /\ put = versions_write owner repo token branch versions JUndefined
          /\ body put = Some b /\ JS.has "sha" b = false)
  /\ (forall e, read = Throw e -> isNotFound e = false ->
        fst run = Throw e /\ requests (snd run) = (requests w ++ [get])%list).
Proof.
  cbv zeta. rewrite saveVersions_run. cbv zeta. split; [|split].
  - intros content h E. rewrite E. simpl. now rewrite <- app_assoc.
  - intros e E N. rewrite E. unfold hash_read. rewrite N.
    eexists. eexists. split; [simpl; now rewrite <- app_assoc|].
    split; [reflexivity|]. split; [reflexivity|].
    simpl. now destruct (given branch).
  - intros e E N. rewrite E. unfold hash_read. rewrite N. split; reflexivity.
Qed.

Lemma replace_version_ids version current :
  map v_id (replace_version version current) = map v_id current.
Proof.
  unfold replace_version. rewrite map_map. apply map_ext. intros v.
  destruct (strict_eq (v_id v) (v_id version)) eqn:E; [|reflexivity].
  destruct (v_id v), (v_id version); simpl in E; try discriminate; try reflexivity.
  - apply Bool.eqb_prop in E. now subst.
  - apply Z.eqb_eq in E. now subst.
  - apply String.eqb_eq in E. now subst.
Qed.

Lemma replace_version_absent version current :
  (forall v, In v current -> strict_eq (v_id v) (v_id version) = false) ->
  replace_version version current = current.
Proof.
  intros A. unfold replace_version. rewrite <- (map_id current) at 2.
  apply map_ext_in. intros v I. now rewrite (A v I).
Qed.

(** X12. A successful [updateVersion] returns the list it was given with
    every entry that has the identifier of [version] replaced by
    [version]: the identifiers, their order and the length are what they
    were; when no entry has that identifier the list is unchanged, and it
    is written all the same. The list written is the list returned. *)
Theorem updateVersion_replaces_in_place version current (w w' : World) updated :
  updateVersion owner repo version current token branch w = (Ok updated, w') ->
  updated = replace_version version current
  /\ map v_id updated = map v_id current
  /\ (forall v, In v updated -> v = version \/ In v current)
  /\ ((forall v, In v current -> strict_eq (v_id v) (v_id version) = false) ->
      updated = current)
  /\ exists h,
       requests w'
       = (requests w ++ [file_request owner repo token branch VERSIONS_FILE;
                         versions_write owner repo token branch updated h])%list.
Proof.
  unfold updateVersion, bind.
  destruct (saveVersions _ _ _ _ _ w) as [[[]|e] w1] eqn:S; [|discriminate].
  unfold ret. intros E. inversion E; subst. clear E.
  split; [reflexivity|]. split; [apply replace_version_ids|]. split; [|split].
  - intros v I. unfold replace_version in I. apply in_map_iff in I.
    destruct I as (u & E & I). destruct (strict_eq _ _); subst; auto.
  - apply replace_version_absent.
  - destruct (saveVersions_success _ _ _ S) as (h & _ & R). eauto.
Qed.

(** X13. A successful [deleteVersion] returns the entries whose
    identifier is not [versionId], in their order: none of the returned
    entries has that identifier, and every other entry is kept. The list
    written is the list returned. *)
Theorem deleteVersion_removes_every_match versionId current (w w' : World) updated :
  deleteVersion owner repo versionId current token branch w = (Ok updated, w') ->
  updated = remove_version versionId current
  /\ (forall v, In v updated -> In v current /\ v_id v <> JStr versionId)
  /\ (forall v, In v current -> v_id v <> JStr versionId -> In v updated)
  /\ exists h,
       requests w'
       = (requests w ++ [file_request owner repo token branch VERSIONS_FILE;
                         versions_write owner repo token branch updated h])%list.
Proof.
  unfold deleteVersion, bind.
  destruct (saveVersions _ _ _ _ _ w) as [[[]|e] w1] eqn:S; [|discriminate].
  unfold ret. intros E. inversion E; subst. clear E.
  split; [reflexivity|]. split; [|split].
  - intros v I. unfold remove_version in I. apply filter_In in I.
    destruct I as (I & N). split; [exact I|].
    intros Q. rewrite Q in N. simpl in N. now rewrite String.eqb_refl in N.
  - intros v I N. unfold remove_version. apply filter_In. split; [exact I|].
    destruct (v_id v) as [| | | |s| |]; try reflexivity. simpl.
    destruct (String.eqb_spec s versionId); [subst; contradiction | reflexivity].
  - destruct (saveVersions_success _ _ _ S) as (h & _ & R). eauto.
Qed.

(** X14. A successful [createVersion] returns the list it was given with
    one entry appended: the new version with its creation time set to the
    clock. The entries before it are untouched, and the list written is
    the list returned. *)
Theorem createVersion_appends_stamped version current (w w' : World) updated :
  createVersion owner repo version current token branch w = (Ok updated, w') ->
  updated = (current ++ [stamped (now w) version])%list
  /\ firstn (length current) updated = current
  /\ exists h,
       requests w'
       = (requests w ++ [file_request owner repo token branch VERSIONS_FILE;
                         versions_write owner repo token branch updated h])%list.
Proof.
  unfold createVersion, bind, Date_now.
  destruct (saveVersions _ _ _ _ _ w) as [[[]|e] w1] eqn:S; [|discriminate].
  unfold ret. intros E. inversion E; subst. clear E.
  split; [reflexivity|]. split.
  - rewrite firstn_app, Nat.sub_diag, firstn_all. simpl. apply app_nil_r.
  - destruct (saveVersions_success _ _ _ S) as (h & _ & R). eauto.
Qed.

End Versions.

(* ===================================================================== *)
(** * Images *)
(* ===================================================================== *)

Lemma split_chars_map (c : ascii) (f : ascii -> ascii) (l : list ascii) :
  (forall a, Ascii.eqb (f a) c = Ascii.eqb a c) ->
  Str.split_chars c (map f l) = map (map f) (Str.split_chars c l).
Proof.
  intros F. induction l as [|a l IH]; simpl; [reflexivity|].
  rewrite IH, F. destruct (Str.split_chars c l); simpl; [reflexivity|].
  now destruct (Ascii.eqb a c).
Qed.

Lemma split_chars_prefix_tail (c : ascii) (xs l : list ascii) :
  forallb (fun a => negb (Ascii.eqb a c)) xs = true ->
  tl (Str.split_chars c (xs ++ l)) = tl (Str.split_chars c l).
Proof.
  induction xs as [|a xs IH]; simpl; [reflexivity|].
  intros F. apply andb_prop in F. destruct F as [A F]. rewrite <- (IH F).
  pose proof (split_chars_nonempty c (xs ++ l)) as N.
  destruct (Str.split_chars c (xs ++ l)); [congruence|].
  destruct (Ascii.eqb a c); [discriminate | reflexivity].
Qed.

Lemma split_chars_tail (c : ascii) (l : list ascii) :
  forallb (fun a => negb (Ascii.eqb a c)) l = false -> tl (Str.split_chars c l) <> [].
Proof.
  induction l as [|a l IH]; simpl; [discriminate|].
  pose proof (split_chars_nonempty c l) as N.
  destruct (Str.split_chars c l) as [|p ps]; [congruence|].
  destruct (Ascii.eqb a c); simpl; [discriminate|]. exact IH.
Qed.

Lemma last_tail {A} (xs : list A) (d : A) : tl xs <> [] -> last xs d = last (tl xs) d.
Proof. destruct xs as [|x [|y ys]]; simpl; congruence. Qed.

Lemma tl_map {A B} (f : A -> B) (xs : list A) : tl (map f xs) = map f (tl xs).
Proof. now destruct xs. Qed.

Lemma last_map {A B} (f : A -> B) (xs : list A) (d : A) :
  last (map f xs) (f d) = f (last xs d).
Proof.
  induction xs as [|x xs IH]; [reflexivity|].
  destruct xs; [reflexivity|]. exact IH.
Qed.

(** The extension the two checks look at. *)
Lemma pop_split_last (s : string) (c : ascii) :
  Str.pop (Str.split s c) = Some (Str.of_chars (last (Str.split_chars c (Str.chars s)) [])).
Proof. unfold Str.split. apply pop_map_last, split_chars_nonempty. Qed.

Lemma digits_lack_dot (d : Decimal.uint) : lacks "." (NilEmpty.string_of_uint d) = true.
Proof. induction d; [reflexivity | (unfold lacks in *; simpl; exact IHd) ..]. Qed.

Lemma uint_lacks_dot (d : Decimal.uint) : lacks "." (NilZero.string_of_uint d) = true.
Proof. destruct d; [reflexivity | apply (digits_lack_dot (_ d)) ..]. Qed.

Lemma of_Z_lacks_dot (z : Z) : lacks "." (Str.of_Z z) = true.
Proof.
  unfold Str.of_Z. destruct (Z.to_int z); simpl; apply uint_lacks_dot.
Qed.

Lemma sanitize_keeps_dots (a : ascii) :
  Ascii.eqb (if Str.is_name_char a then a else "_"%char) "." = Ascii.eqb a ".".
Proof.
  destruct (Ascii.eqb_spec a ".") as [->|N]; [reflexivity|].
  destruct (Str.is_name_char a); [|reflexivity].
  now apply Ascii.eqb_neq.
Qed.

Lemma lower_letter_is_name_char (a : ascii) :
  Str.between 97 122 (Str.lower_char a) = true -> Str.is_name_char a = true.
Proof.
  destruct a as [[] [] [] [] [] [] [] []]; vm_compute; intros E;
    first [reflexivity | discriminate E].
Qed.

Lemma allowed_extension_letters (e : string) :
  In e ALLOWED_IMAGE_EXTENSIONS -> forallb (Str.between 97 122) (Str.chars e) = true.
Proof.
  intros I. repeat (destruct I as [<- | I]; [reflexivity|]). destruct I.
Qed.

Lemma sanitize_extension (seg : list ascii) :
  forallb (Str.between 97 122) (map Str.lower_char seg) = true ->
  map (fun a => if Str.is_name_char a then a else "_"%char) seg = seg.
Proof.
  induction seg as [|a seg IH]; simpl; [reflexivity|].
  intros F. apply andb_prop in F. destruct F as [A F].
  rewrite (lower_letter_is_name_char a A), (IH F). reflexivity.
Qed.

Lemma allowed_extension_lacks_dash (e : string) :
  In e ALLOWED_IMAGE_EXTENSIONS -> lacks "-" e = true.
Proof.
  intros I. repeat (destruct I as [<- | I]; [reflexivity|]). destruct I.
Qed.

Lemma lacks_toLowerCase (c : ascii) (s : string) :
  Str.lower_char c = c ->
  lacks c (Str.toLowerCase s) = true -> lacks c s = true.
Proof.
  intros L. unfold lacks, Str.toLowerCase. rewrite chars_of_chars.
  induction (Str.chars s) as [|a l IH]; simpl; [reflexivity|].
  intros F. apply andb_prop in F. destruct F as [A F]. rewrite (IH F), andb_true_r.
  destruct (Ascii.eqb_spec a c) as [->|N]; [|reflexivity].
  rewrite L, Ascii.eqb_refl in A. discriminate.
Qed.

(** The stored name of an upload passes the extension check exactly when
    the file's own name has a dot. *)
Lemma imageName_of_valid (t : Z) (name : string) :
  isValidImageExtension name = true ->
  isValidImageExtension (imageName_of t name) = negb (lacks "." name).
Proof.
  intros V. unfold isValidImageExtension in *. rewrite pop_split_last in *.
  cbv zeta in *.
  destruct (String.eqb (Str.toLowerCase (Str.of_chars (last (Str.split_chars "." (Str.chars name)) [])))
              "") eqn:Z; [discriminate|].
  assert (C : Str.chars (imageName_of t name)
              = ((Str.chars (Str.of_Z t) ++ ["-"%char])
                 ++ map (fun a => if Str.is_name_char a then a else "_"%char)
                        (Str.chars name))%list).
  { unfold imageName_of, Str.sanitize. rewrite !chars_append, chars_of_chars.
    now rewrite <- app_assoc. }
  assert (X : forallb (fun a => negb (Ascii.eqb a "."))
                (Str.chars (Str.of_Z t) ++ ["-"%char]) = true).
  { rewrite forallb_app. fold (lacks "." (Str.of_Z t)). now rewrite of_Z_lacks_dot. }
  destruct (lacks "." name) eqn:L; simpl negb.
  - (* no dot: the whole stored name is the extension, and it has a dash *)
    assert (W : Str.split_chars "." (Str.chars (imageName_of t name))
                = [Str.chars (imageName_of t name)]).
    { apply split_chars_lacks. rewrite C, forallb_app, X. simpl.
      unfold lacks in L. rewrite forallb_forall in *. intros a I.
      apply in_map_iff in I. destruct I as (b & <- & I).
      rewrite sanitize_keeps_dots. now apply L. }
    rewrite W. simpl last. rewrite of_chars_chars.
    destruct (String.eqb (Str.toLowerCase (imageName_of t name)) ""); [reflexivity|].
    destruct (Str.includes ALLOWED_IMAGE_EXTENSIONS (Str.toLowerCase (imageName_of t name)))
      eqn:I; [|reflexivity].
    apply includes_In, allowed_extension_lacks_dash in I.
    apply lacks_toLowerCase in I; [|reflexivity].
    unfold imageName_of in I. rewrite !lacks_append in I.
    apply andb_prop in I. destruct I as [_ I]. discriminate.
  - (* a dot: the extension is the one of the file's own name *)
    assert (T : tl (Str.split_chars "." (Str.chars name)) <> [])
      by (apply split_chars_tail; exact L).
    assert (E : last (Str.split_chars "." (Str.chars (imageName_of t name))) []
                = last (Str.split_chars "." (Str.chars name)) []).
    { rewrite C. rewrite last_tail.
      2:{ rewrite (split_chars_prefix_tail _ _ _ X).
          rewrite (split_chars_map _ _ _ sanitize_keeps_dots).
          rewrite tl_map. intros Q. apply map_eq_nil in Q. contradiction. }
      rewrite (split_chars_prefix_tail _ _ _ X).
      rewrite (split_chars_map _ _ _ sanitize_keeps_dots).
      rewrite tl_map.
      change (@nil ascii)
        with (map (fun a => if Str.is_name_char a then a else "_"%char) []) at 1.
      rewrite last_map. rewrite <- (last_tail _ _ T).
      apply sanitize_extension.
      apply includes_In, allowed_extension_letters in V.
      unfold Str.toLowerCase in V. now rewrite !chars_of_chars in V. }
    rewrite E, Z. exact V.
Qed.

Lemma valid_extension_is_allowed (name : string) :
  isValidImageExtension name = true -> In (extension_of name) ALLOWED_IMAGE_EXTENSIONS.
Proof.
  unfold isValidImageExtension, extension_of.
  destruct (Str.pop (Str.split name ".")) as [e|]; [|discriminate]. cbv zeta.
  destruct (String.eqb (Str.toLowerCase e) ""); [discriminate|]. apply includes_In.
Qed.

Lemma allowed_extension_has_image_type (e : string) :
  In e ALLOWED_IMAGE_EXTENSIONS -> In (mime_of e) IMAGE_TYPES.
Proof.
  intros I. repeat (destruct I as [<- | I]; [vm_compute; tauto|]). destruct I.
Qed.

Lemma remove_newlines_lacks (s : string) : lacks "010" (Str.remove_newlines s) = true.
Proof.
  unfold lacks, Str.remove_newlines. rewrite chars_of_chars.
  apply forallb_forall. intros a I. apply filter_In in I. tauto.
Qed.

Lemma map_result_Forall2 {A B} (f : A -> Result B) (xs : list A) (ys : list B) :
  map_result f xs = Ok ys -> Forall2 (fun x y => f x = Ok y) xs ys.
Proof.
  revert ys. induction xs as [|x xs IH]; simpl; intros ys E.
  - inversion E. constructor.
  - destruct (f x) as [y|] eqn:F; simpl in E; [|discriminate].
    destruct (map_result f xs) as [zs|]; simpl in E; [|discriminate].
    inversion E; subst. constructor; [exact F | now apply IH].
Qed.

Lemma is_image_file_name (item : JSValue) :
  is_image_file item = Ok true ->
  exists s, name_of item = Ok (JStr s) /\ isValidImageExtension s = true.
Proof.
  unfold is_image_file, name_of.
  destruct (JS.get item "type") as [ty|]; simpl; [|discriminate].
  destruct (JS.eq_string ty "file"); [|discriminate].
  destruct (JS.get item "name") as [[]|]; simpl; try discriminate.
  intros E. inversion E. eauto.
Qed.

Lemma get_ok_field (v : JSValue) (k : string) (x : JSValue) :
  JS.get v k = Ok x -> x = field_of v k.
Proof.
  destruct v; simpl; try discriminate; try (intros E; inversion E; reflexivity).
  destruct (JS.assoc k fields); intros E; inversion E; reflexivity.
Qed.

Lemma as_string_ok (what : string) (v : JSValue) (s : string) :
  as_string what v = Ok s -> v = JStr s.
Proof. destruct v; simpl; intros E; inversion E; reflexivity. Qed.

Lemma eq_string_true (v : JSValue) (s : string) : JS.eq_string v s = true -> v = JStr s.
Proof.
  destruct v; simpl; try discriminate. intros E. apply String.eqb_eq in E. now subst.
Qed.

Lemma image_names_of_kept (items kept names : list JSValue) :
  filter_result is_image_file items = Ok kept ->
  map_result name_of kept = Ok names ->
  Forall (fun n => is_image_name n = true) names.
Proof.
  intros F M.
  assert (K : Forall (fun item => is_image_file item = Ok true) kept).
  { apply Forall_forall. intros item I. exact (proj2 (filter_result_sound _ _ _ item F I)). }
  clear F. apply map_result_Forall2 in M.
  induction M as [|item n kept' ns Q M IH]; [constructor|].
  inversion K as [|? ? K1 K2]; subst. constructor; [|exact (IH K2)].
  destruct (is_image_file_name item K1) as (s & S & V).
  rewrite S in Q. inversion Q. exact V.
Qed.

Section ImageProperties.
Context `{Platform} `{Provider}.
Variables (owner repo token : string) (branch : option string).

(** X15. The name a successful [uploadImage] stores the file under has
    an allowed image extension, so that [listTicketImages] lists it,
    exactly when the file's own name has a dot: a file named after a bare
    extension is accepted and stored under a name that is not. *)
Theorem uploaded_name_keeps_the_extension ticketId file (w w' : World) n :
  uploadImage owner repo ticketId file token branch w = (Ok n, w') ->
  n = imageName_of (now w) (file_name file)
  /\ isValidImageExtension n = negb (lacks "." (file_name file)).
Proof.
  intros U. pose proof (uploadImage_name _ _ _ _ _ _ _ _ _ U) as N. subst n.
  split; [reflexivity|]. apply imageName_of_valid.
  unfold uploadImage in U.
  destruct (isValidImageExtension (file_name file)); [reflexivity|]. discriminate U.
Qed.

Lemma target_branch_given (w : World) :
  given branch = true ->
  target_branch owner repo token branch w = (Ok (JStr (text branch)), w).
Proof. intros G. unfold target_branch. now rewrite G. Qed.

Lemma deleteImage_run ticketId imageName (w : World) :
  given branch = true ->
  deleteImage owner repo ticketId imageName token branch w
  = let get := image_read owner repo ticketId imageName token (text branch) in
    let w1 := sent get w (snd (serve get (remote w))) in
    match (let? file := interpret (fst (serve get (remote w))) in JS.get file "sha") with
    | Throw e => (Throw e, w1)
    | Ok s =>
        let del := request_of (contents_endpoint owner repo (getImagePath ticketId imageName))
                     token DELETE
                     (JObj [("message", JStr ("Delete image " ++ imageName
                                              ++ " from ticket " ++ ticketId));
                            ("sha", s); ("branch", JStr (text branch))]) in
        ((let? _ := interpret (fst (serve del (remote w1))) in Ok tt),
         sent del w1 (snd (serve del (remote w1))))
    end.
Proof.
  intros G. unfold deleteImage. unfold bind at 1. rewrite (target_branch_given w G).
  unfold bind at 1. unfold image_read. simpl JS.toString. rewrite githubFetch_run. cbv zeta.
  destruct (interpret _) as [file|e]; [|reflexivity]. simpl rbind.
  unfold bind at 1. unfold lift at 1.
  destruct (JS.get file "sha") as [s|e]; [|reflexivity].
  unfold bind. rewrite githubFetch_run. now destruct (interpret _).
Qed.

(** X16. With a branch given, [deleteImage] reads the image and then
    deletes it with the hash the read has returned, on that branch. When
    the read fails its error is thrown and no delete is issued. *)
Theorem deleteImage_deletes_what_it_read ticketId imageName (w : World) :
  given branch = true ->
  let get := image_read owner repo ticketId imageName token (text branch) in
  let outcome := interpret (fst (serve get (remote w))) in
  let run := deleteImage owner repo ticketId imageName token branch w in
  (forall e, outcome = Throw e ->
     fst run = Throw e /\ requests (snd run) = (requests w ++ [get])%list)
  /\ (forall file, outcome = Ok file -> nullish file = false ->
        exists del,
          requests (snd run) = (requests w ++ [get; del])%list
          /\ method del = DELETE
          /\ url del = GITHUB_API_BASE
                       ++ contents_endpoint owner repo (getImagePath ticketId imageName)
          /\ body del
             = Some (JObj ([("message", JStr ("Delete image " ++ imageName
                                              ++ " from ticket " ++ ticketId))]
                           ++ json_field "sha" (field_of file "sha")
                           ++ [("branch", JStr (text branch))]))).
Proof.
  intros G. cbv zeta. rewrite (deleteImage_run _ _ _ G). cbv zeta. split.
  - intros e E. rewrite E. split; reflexivity.
  - intros file E N. rewrite E. simpl rbind. rewrite (get_field_of _ "sha" N).
    eexists. split; [simpl; now rewrite <- app_assoc|].
    split; [reflexivity|]. split; [reflexivity|].
    simpl. now destruct (field_of file "sha").
Qed.

Lemma listTicketImages_run ticketId (w : World) :
  given branch = true ->
  listTicketImages owner repo ticketId token branch w
  = (match (let? contents := interpret (fst (serve (images_read owner repo ticketId token
                                                      (text branch)) (remote w))) in
            match contents with
            | JArr items =>
                let? kept := filter_result is_image_file items in
                map_result name_of kept
            | JUndefined | JNull =>
                Throw (JSError "TypeError"
                         "Cannot read properties of undefined (reading 'filter')")
            | _ => Throw (JSError "TypeError" "contents.filter is not a function")
            end) with
     | Ok names => Ok names
     | Throw e => if isNotFound e then Ok [] else Throw e
     end,
     sent (images_read owner repo ticketId token (text branch)) w
          (snd (serve (images_read owner repo ticketId token (text branch)) (remote w)))).
Proof.
  intros G. unfold listTicketImages. unfold bind at 1. rewrite (target_branch_given w G).
  unfold try_catch, bind, images_read. simpl JS.toString. rewrite githubFetch_run.
  destruct (interpret _) as [contents|e]; simpl rbind.
  - destruct contents; try reflexivity.
    unfold lift. destruct (filter_result is_image_file items) as [kept|e]; simpl rbind.
    + destruct (map_result name_of kept) as [names|e]; [reflexivity|].
      now destruct (isNotFound e).
    + cbv beta iota. now destruct (isNotFound e).
  - cbv beta iota. now destruct (isNotFound e).
Qed.

(** X17. With a branch given, [listTicketImages] issues one read of the
    ticket's image folder. A NotFound answer gives the empty list and is
    never thrown; every name it returns is a string with an allowed image
    extension. *)
Theorem listTicketImages_lists_image_names ticketId (w : World) :
  given branch = true ->
  let get := images_read owner repo ticketId token (text branch) in
  let outcome := interpret (fst (serve get (remote w))) in
  let run := listTicketImages owner repo ticketId token branch w in
  requests (snd run) = (requests w ++ [get])%list
  /\ (forall e, outcome = Throw e -> isNotFound e = true -> fst run = Ok [])
  /\ (forall e, fst run = Throw e -> isNotFound e = false)
  /\ (forall names, fst run = Ok names -> Forall (fun n => is_image_name n = true) names).
Proof.
  intros G. cbv zeta. rewrite (listTicketImages_run _ _ G). simpl fst. simpl snd.
  split; [reflexivity|]. split; [|split].
  - intros e E N. rewrite E. simpl rbind. cbv beta iota. now rewrite N.
  - intros e. destruct (let? contents := interpret _ in _) as [names|e']; [discriminate|].
    destruct (isNotFound e') eqn:N; [discriminate|]. intros E. inversion E; subst. exact N.
  - intros names.
    destruct (interpret _) as [contents|e]; simpl rbind.
    + destruct contents; try discriminate.
      destruct (filter_result is_image_file items) as [kept|e] eqn:F; simpl rbind.
      * destruct (map_result name_of kept) as [ns|e] eqn:M.
        -- intros E. inversion E; subst. exact (image_names_of_kept _ _ _ F M).
        -- destruct (isNotFound e); [|discriminate].
           intros E. inversion E. constructor.
      * cbv beta iota. destruct (isNotFound e); [|discriminate].
        intros E. inversion E. constructor.
    + cbv beta iota. destruct (isNotFound e); [|discriminate].
      intros E. inversion E. constructor.
Qed.

(** X18. A data URL returned by [getImageAsDataUrl] is made of the media
    type of the image's extension and of Base64 text without line feeds:
    the content of the first answer when it has one, and otherwise the
    content of what the provider, in the state the first request left it
    in, answers to a second request, for the blob named by the hash of
    the first answer; that answer is Base64 by its [encoding]. For a name
    with an allowed extension the media type is one of the image types.
    The hash of a first answer without content is taken to convert to a
    string without throwing: the conversion of any other hash throws
    while the address of the blob is built, which [blob_read] does not
    represent. *)
Theorem getImageAsDataUrl_gives_a_data_url ticketId imageName (w w' : World) u :
  let get := image_read owner repo ticketId imageName token (or_main branch) in
  let mime := mime_of (extension_of imageName) in
  (forall response,
      interpret (fst (serve get (remote w))) = Ok response ->
      JS.truthy (field_of response "content") = false ->
      stringable (field_of response "sha") = true) ->
  getImageAsDataUrl owner repo ticketId imageName token branch w = (Ok u, w') ->
  (exists response c,
     interpret (fst (serve get (remote w))) = Ok response
     /\ u = "data:" ++ mime ++ ";base64," ++ Str.remove_newlines c
     /\ lacks "010" (Str.remove_newlines c) = true
     /\ ((field_of response "content" = JStr c /\ c <> ""
          /\ requests w' = (requests w ++ [get])%list)
         \/ (JS.truthy (field_of response "content") = false
             /\ JS.truthy (field_of response "sha") = true
             /\ let second := blob_read owner repo token (field_of response "sha") in
                exists blob,
                  interpret (fst (serve second (snd (serve get (remote w))))) = Ok blob
                  /\ requests w' = (requests w ++ [get; second])%list
                  /\ field_of blob "content" = JStr c /\ c <> ""
                  /\ field_of blob "encoding" = JStr "base64")))
  /\ (isValidImageExtension imageName = true -> In mime IMAGE_TYPES).
Proof.
  cbv zeta. intros _ U. split.
  2:{ intros V. apply allowed_extension_has_image_type, valid_extension_is_allowed, V. }
  revert U. unfold getImageAsDataUrl. cbv zeta. unfold bind at 1.
  fold (getImagePath ticketId imageName).
  fold (image_read owner repo ticketId imageName token (or_main branch)).
  unfold image_read at 1 2. rewrite githubFetch_run.
  fold (image_read owner repo ticketId imageName token (or_main branch)).
  destruct (interpret _) as [response|e] eqn:O; [|discriminate].
  unfold bind at 1. unfold lift at 1.
  destruct (JS.get response "content") as [content|] eqn:C; [|discriminate].
  apply get_ok_field in C. subst content.
  destruct (JS.truthy (field_of response "content")) eqn:T.
  - unfold bind, lift, ret.
    destruct (as_string _ (field_of response "content")) as [c|] eqn:A; [|discriminate].
    apply as_string_ok in A. intros E. inversion E; subst. clear E.
    exists response, c. split; [reflexivity|]. split; [reflexivity|].
    split; [apply remove_newlines_lacks|]. left. split; [exact A|]. split; [|reflexivity].
    intros Q. rewrite A, Q in T. discriminate.
  - unfold bind at 1. unfold lift at 1.
    destruct (JS.get response "sha") as [s|] eqn:S; [|discriminate].
    apply get_ok_field in S. subst s.
    destruct (JS.truthy (field_of response "sha")) eqn:TS; [|discriminate].
    unfold bind at 1. rewrite githubFetch_run.
    fold (blob_read owner repo token (field_of response "sha")).
    simpl remote.
    destruct (interpret (fst (serve (blob_read _ _ _ _) _))) as [blob|e] eqn:OB;
      [|discriminate].
    unfold bind at 1. unfold lift at 1.
    destruct (JS.get blob "content") as [bc|] eqn:B; [|discriminate].
    apply get_ok_field in B. subst bc.
    destruct (JS.truthy (field_of blob "content")) eqn:TB; [|discriminate].
    unfold bind at 1. unfold lift at 1.
    destruct (JS.get blob "encoding") as [enc|] eqn:N; [|discriminate].
    apply get_ok_field in N. subst enc.
    destruct (JS.eq_string (field_of blob "encoding") "base64") eqn:Q; [|discriminate].
    apply eq_string_true in Q.
    unfold bind, lift, ret.
    destruct (as_string _ (field_of blob "content")) as [c|] eqn:A; [|discriminate].
    apply as_string_ok in A. intros E. inversion E; subst. clear E.
    exists response, c. split; [reflexivity|]. split; [reflexivity|].
    split; [apply remove_newlines_lacks|]. right. split; [exact T|].
    split; [exact TS|].
    exists blob. split; [exact OB|]. split; [simpl; now rewrite <- app_assoc|].
    split; [exact A|]. split; [|exact Q].
    intros Z. rewrite A, Z in TB. discriminate.
Qed.

End ImageProperties.

(* ===================================================================== *)
(** * Listing, loading and writing tickets *)
(* ===================================================================== *)

Lemma in_path_inv n item :
  in_path n item = Ok true ->
  exists p, JS.get item "path" = Ok (JStr p)
            /\ Str.startsWith p n = true
            /\ JS.get item "type" = Ok (JStr "blob").
Proof.
  unfold in_path.
  destruct (JS.get item "type") as [ty|]; simpl; [|discriminate].
  destruct (JS.eq_string ty "blob") eqn:B; simpl; [|discriminate].
  apply eq_string_true in B. subst ty.
  destruct (JS.get item "path") as [[]|]; simpl; try discriminate.
  intros E. inversion E. eauto.
Qed.

Section Tickets.
Context `{Platform} `{Provider}.
Variables (owner repo token : string) (branch : option string).

Lemma listFilesRecursively_inv root (w w1 : World) files :
  listFilesRecursively owner repo root token branch w = (Ok files, w1) ->
  exists commit items r1 r2,
    filter_result (in_path (Str.trim_slashes root)) items = Ok files
    /\ w1 = sent (tree_request owner repo token commit)
              (sent (ref_request owner repo token branch) w r1) r2.
Proof.
  unfold listFilesRecursively, bind. rewrite githubFetch_run.
  fold (ref_request owner repo token branch).
  destruct (interpret _) as [refv|]; [|discriminate].
  unfold lift at 1. destruct (JS.get refv "object") as [obj|]; [|discriminate].
  unfold lift at 1. destruct (JS.get obj "sha") as [commit|]; [|discriminate].
  rewrite githubFetch_run. fold (tree_request owner repo token commit).
  destruct (interpret _) as [treev|]; [|discriminate].
  unfold lift at 1. destruct (JS.get treev "tree") as [tree|]; [|discriminate].
  destruct tree; try discriminate.
  unfold lift. intros E. inversion E. eauto 8.
Qed.

(** X19. Every file a successful [listFilesRecursively] returns is a
    blob whose [path] is a string that starts with the root without its
    leading and trailing slashes. The listing issues two requests, for
    the branch and for the tree, and writes nothing to the console. *)
Theorem listFilesRecursively_returns_blobs_under_the_root root (w w1 : World) files :
  listFilesRecursively owner repo root token branch w = (Ok files, w1) ->
  (forall f, In f files ->
     exists p, JS.get f "path" = Ok (JStr p)
               /\ Str.startsWith p (Str.trim_slashes root) = true
               /\ JS.get f "type" = Ok (JStr "blob"))
  /\ console w1 = console w
  /\ exists commit,
       requests w1 = (requests w ++ [ref_request owner repo token branch;
                                     tree_request owner repo token commit])%list.
Proof.
  intros L. destruct (listFilesRecursively_inv _ _ _ _ L) as (commit & items & r1 & r2 & F & W).
  subst w1. split; [|split].
  - intros f I. apply in_path_inv. exact (proj2 (filter_result_sound _ _ _ f F I)).
  - reflexivity.
  - exists commit. simpl. now rewrite <- app_assoc.
Qed.

Lemma load_each_console files : forall tickets (w : World),
  reads_only (remote w) ->
  Forall has_path files ->
  console (snd (load_each owner repo token branch files tickets w))
  = (console w ++ map ticket_warning
                    (failing owner repo token branch (remote w) (yaml_paths files)))%list.
Proof.
  induction files as [|f files IH]; intros tickets w R F.
  - simpl. now rewrite app_nil_r.
  - inversion F as [|? ? (p & P) F']; subst.
    rewrite (yaml_paths_cons f p files P).
    simpl load_each. unfold bind at 1. unfold lift at 1. rewrite P.
    unfold bind at 1. unfold lift at 1. simpl as_string.
    unfold is_yaml.
    destruct (negb (Str.endsWith p ".yml") && negb (Str.endsWith p ".yaml")).
    + simpl. apply IH; assumption.
    + simpl (negb _). cbv iota. unfold bind at 1. rewrite load_one_run.
      assert (Q : snd (serve (file_request owner repo token branch p) (remote w)) = remote w)
        by (apply R; reflexivity).
      rewrite Q. unfold failing. simpl filter. fold (failing owner repo token branch).
      destruct (decode owner repo token branch (remote w) p) as [t|e].
      * rewrite (IH (tickets ++ [t])%list
                    (sent (file_request owner repo token branch p) w (remote w)) R F').
        reflexivity.
      * rewrite (IH tickets
                    (logged LogWarn ("Failed to load ticket " ++ p ++ ":")
                       (sent (file_request owner repo token branch p) w (remote w))) R F').
        simpl. now rewrite <- app_assoc.
Qed.

Lemma decoded_or_failing r ps :
  (length (decoded owner repo token branch r ps)
   + length (failing owner repo token branch r ps))%nat = length ps.
Proof.
  induction ps as [|p ps IH]; [reflexivity|].
  unfold decoded, failing in *. simpl.
  destruct (decode owner repo token branch r p); simpl; rewrite ?length_app; simpl; lia.
Qed.

Lemma decode_names r p t :
  decode owner repo token branch r p = Ok t -> path t = p /\ id t = extractTicketId p.
Proof.
  unfold decode.
  destruct (interpret _) as [v|]; simpl; [|discriminate].
  destruct (file_of v) as [cs|]; simpl; [|discriminate].
  unfold parseTicketFile, parseYaml.
  destruct (YAML_parse (fst cs)) as [data|]; simpl; [|discriminate].
  repeat match goal with
         | |- context [JS.get data ?k] =>
             destruct (JS.get data k); simpl; [|discriminate]
         end.
  intros E. inversion E. split; reflexivity.
Qed.

Lemma decoded_paths r ps t :
  In t (decoded owner repo token branch r ps) ->
  In (path t) ps /\ id t = extractTicketId (path t).
Proof.
  unfold decoded. intros I. apply in_flat_map in I. destruct I as (p & I & D).
  destruct (decode owner repo token branch r p) as [t'|] eqn:E; [|contradiction].
  destruct D as [<- | []]. destruct (decode_names r p t' E) as (P & Q).
  rewrite P. split; [exact I | exact Q].
Qed.

(** X20. When the listing succeeds and reads leave the provider as it
    is, [loadTickets] accounts for every listed YAML file: it returns a
    ticket, whose path is that of the file and whose id is the one the
    path names, or writes one warning for it; the tickets and the
    warnings together are as many as the files. *)
Theorem loadTickets_accounts_for_every_file (w w1 : World) files :
  listFilesRecursively owner repo TICKETS_FOLDER token branch w = (Ok files, w1) ->
  reads_only (remote w1) ->
  let run := loadTickets owner repo token branch w in
  let missed := failing owner repo token branch (remote w1) (yaml_paths files) in
  exists tickets,
    fst run = Ok tickets
    /\ (forall t, In t tickets ->
          In (path t) (yaml_paths files) /\ id t = extractTicketId (path t))
    /\ warnings (console (snd run))
       = (warnings (console w) ++ map ticket_warning missed)%list
    /\ (length tickets + length missed)%nat = length (yaml_paths files).
Proof.
  intros L R. cbv zeta.
  assert (F : Forall has_path files) by (eapply listed_files_have_paths; exact L).
  destruct (load_each_run owner repo token branch files [] w1 R F) as (w2 & E & _ & _).
  pose proof (load_each_console files [] w1 R F) as C. rewrite E in C. simpl in C.
  assert (W : console w1 = console w).
  { destruct (listFilesRecursively_inv _ _ _ _ L) as (? & ? & ? & ? & _ & W). now subst w1. }
  exists (decoded owner repo token branch (remote w1) (yaml_paths files)).
  unfold loadTickets, try_catch, bind. rewrite L, E. simpl fst. simpl snd.
  split; [reflexivity|]. split; [apply decoded_paths|]. split.
  - rewrite C, W, warnings_app, warnings_ticket_warning. reflexivity.
  - apply decoded_or_failing.
Qed.

(** X21. [createTicket] issues one write, to the file named after the
    ticket's id in the tickets folder, and the write carries no hash. The
    ticket it returns on success has that path, the hash the provider
    answered with, both timestamps set to the clock, and every other
    field as given. *)
Theorem createTicket_writes_the_file_of_its_id ticket (w : World) :
  let p := TICKETS_FOLDER ++ "/" ++ id ticket ++ ".yml" in
  let run := createTicket owner repo ticket token branch w in
  exists req,
    requests (snd run) = (requests w ++ [req])%list
    /\ method req = PUT
    /\ url req = GITHUB_API_BASE ++ contents_endpoint owner repo p
    /\ creates_only req = true
    /\ (forall t, fst run = Ok t ->
          exists response,
            interpret (fst (serve req (remote w))) = Ok response
            /\ t = {| id := id ticket; path := p;
                      sha := field_of (field_of response "content") "sha";
                      title := title ticket; type := type ticket; status := status ticket;
                      priority := priority ticket; assignees := assignees ticket;
                      labels := labels ticket; parent := parent ticket;
                      version := version ticket; estimate := estimate ticket;
                      dueDate := dueDate ticket; description := description ticket;
                      images := images ticket;
                      createdAt := JStr (toISOString (now w));
                      updatedAt := JStr (toISOString (now w)) |}).
Proof.
  cbv zeta. unfold createTicket. cbv zeta. unfold bind, Date_now, createOrUpdateFile.
  simpl p_owner. simpl p_repo. simpl p_path. rewrite githubFetch_run.
  match goal with
  | |- context [interpret (fst (serve ?r (remote w)))] => set (req := r)
  end.
  exists req.
  assert (C : creates_only req = true)
    by (unfold creates_only; simpl; now destruct (given branch)).
  destruct (interpret (fst (serve req (remote w)))) as [response|e] eqn:O.
  - unfold lift at 1. destruct (JS.get response "content") as [c|e] eqn:G.
    + apply get_ok_field in G. subst c. unfold lift, ret.
      destruct (JS.get (field_of response "content") "sha") as [s|e] eqn:S.
      * apply get_ok_field in S. subst s.
        split; [reflexivity|]. split; [reflexivity|]. split; [reflexivity|].
        split; [exact C|].
        intros t E. inversion E; subst; clear E. exists response. split; reflexivity.
      * repeat (split; [first [reflexivity | exact C]|]). discriminate.
    + repeat (split; [first [reflexivity | exact C]|]). discriminate.
  - repeat (split; [first [reflexivity | exact C]|]). discriminate.
Qed.

(** X22. [deleteTicketFile] issues one delete of the ticket's path, and
    the delete carries the ticket's hash whatever it is: an empty hash,
    which a write leaves out, is sent. *)
Theorem deleteTicketFile_sends_the_hash_as_it_is ticket h (w : World) :
  sha ticket = JStr h ->
  exists req fields,
    requests (snd (deleteTicketFile owner repo ticket token branch w))
    = (requests w ++ [req])%list
    /\ method req = DELETE
    /\ url req = GITHUB_API_BASE ++ contents_endpoint owner repo (path ticket)
    /\ body req = Some (JObj fields)
    /\ JS.assoc "sha" fields = Some (JStr h).
Proof.
  intros S. unfold deleteTicketFile, deleteFile, bind. rewrite githubFetch_run, S.
  eexists. eexists. split.
  - destruct (interpret _); reflexivity.
  - split; [reflexivity|]. split; [reflexivity|]. split; [reflexivity|]. reflexivity.
Qed.

Lemma issue_each_fails (reqs : list Request) :
  forall (w : World) n e,
    (forall k, (k < n)%nat -> exists v, outcome_at reqs (remote w) k = Some (Ok v)) ->
    outcome_at reqs (remote w) n = Some (Throw e) ->
    fst (issue_each reqs w) = Throw e
    /\ requests (snd (issue_each reqs w)) = (requests w ++ firstn (S n) reqs)%list.
Proof.
  induction reqs as [|req rest IH]; intros w n e A O.
  - destruct n; discriminate.
  - destruct n as [|n].
    + unfold outcome_at in O. simpl in O. inversion O as [O']. cbn [issue_each].
      rewrite O'. split; reflexivity.
    + destruct (A 0%nat) as (v & V); [lia|].
      unfold outcome_at in V. simpl in V. inversion V as [V']. cbn [issue_each].
      rewrite V'.
      destruct (IH (sent req w (snd (serve req (remote w)))) n e) as (F & R).
      * intros k L. destruct (A (S k)) as (u & U); [lia|]. exists u. exact U.
      * exact O.
      * split; [exact F|]. rewrite R. simpl. now rewrite <- app_assoc.
Qed.

Lemma issue_each_succeeds (reqs : list Request) :
  forall (w : World),
    (forall k, (k < length reqs)%nat ->
               exists v, outcome_at reqs (remote w) k = Some (Ok v)) ->
    fst (issue_each reqs w) = Ok tt
    /\ requests (snd (issue_each reqs w)) = (requests w ++ reqs)%list.
Proof.
  induction reqs as [|req rest IH]; intros w A.
  - simpl. now rewrite app_nil_r.
  - destruct (A 0%nat) as (v & V); [simpl; lia|].
    unfold outcome_at in V. simpl in V. inversion V as [V']. cbn [issue_each].
    rewrite V'.
    destruct (IH (sent req w (snd (serve req (remote w))))) as (F & R).
    + intros k L. destruct (A (S k)) as (u & U); [simpl; lia|]. exists u. exact U.
    + split; [exact F|]. rewrite R. simpl. now rewrite <- app_assoc.
Qed.

Lemma issue_each_console (reqs : list Request) :
  forall (w : World), console (snd (issue_each reqs w)) = console w.
Proof.
  induction reqs as [|req rest IH]; intros w; [reflexivity|].
  cbn [issue_each]. destruct (interpret _); [|reflexivity].
  now rewrite IH.
Qed.

Lemma initializeKabaneFolder_run (w : World) :
  initializeKabaneFolder owner repo token branch w
  = issue_each (map (write_request token) (init_params owner repo branch (now w))) w.
Proof.
  unfold initializeKabaneFolder, bind, Date_now, createOrUpdateFile, init_params.
  cbn [map]. unfold write_request.
  simpl p_owner. simpl p_repo. simpl p_path.
  cbn [issue_each].
  rewrite githubFetch_run.
  destruct (interpret _) as [v1|e1]; cbv beta iota; [|reflexivity].
  rewrite githubFetch_run.
  destruct (interpret _) as [v2|e2]; cbv beta iota; [|reflexivity].
  rewrite githubFetch_run.
  destruct (interpret _) as [v3|e3]; cbv beta iota; [|reflexivity].
  rewrite githubFetch_run.
  destruct (interpret _) as [v4|e4]; reflexivity.
Qed.

(** X23. [initializeKabaneFolder] writes the three configuration files
    and the sample ticket, in this order and each without a hash, and
    stops at the first write that fails: when the writes before the
    [n]th are answered and the [n]th fails, the error of the [n]th is
    thrown and the requests issued are the first [n] writes and that
    one, no more; when all four are answered it returns, having issued
    the four. The outcome of a write is what the provider answers in the
    state the writes before it left it in. Nothing is written to the
    console. *)
Theorem initializeKabaneFolder_writes_in_order (w : World) :
  let writes := map (write_request token) (init_params owner repo branch (now w)) in
  let run := initializeKabaneFolder owner repo token branch w in
  let outcome := outcome_at writes (remote w) in
  length writes = 4%nat
  /\ forallb creates_only writes = true
  /\ (forall n e,
        (forall k, (k < n)%nat -> exists v, outcome k = Some (Ok v)) ->
        outcome n = Some (Throw e) ->
        fst run = Throw e
        /\ requests (snd run) = (requests w ++ firstn (S n) writes)%list)
  /\ ((forall k, (k < 4)%nat -> exists v, outcome k = Some (Ok v)) ->
      fst run = Ok tt
      /\ requests (snd run) = (requests w ++ writes)%list)
  /\ console (snd run) = console w.
Proof.
  cbv zeta. rewrite initializeKabaneFolder_run.
  split; [reflexivity|]. split.
  { unfold creates_only. simpl. now destruct (given branch). }
  split; [|split].
  - intros n e A O. now apply issue_each_fails.
  - intros A. apply issue_each_succeeds. exact A.
  - apply issue_each_console.
Qed.

(** X2. A ticket that [createTicket] returns, for an id without a slash
    and a title that converts to a string without throwing, carries the
    id it was created with, and its path, made of the tickets folder, the
    id and the extension, names that id again, starts with the root of
    the listing of tickets, has a YAML extension and is a ticket file for
    [isTicketFile]. *)
Theorem created_ticket_path_names_its_id ticket (w : World) t :
  lacks "/" (id ticket) = true ->
  stringable (title ticket) = true ->
  fst (createTicket owner repo ticket token branch w) = Ok t ->
  id t = id ticket
  /\ path t = TICKETS_FOLDER ++ "/" ++ id ticket ++ ".yml"
  /\ extractTicketId (path t) = id t
  /\ Str.startsWith (path t) (Str.trim_slashes TICKETS_FOLDER) = true
  /\ is_yaml (path t) = true
  /\ isTicketFile (path t) = true.
Proof.
  intros L _ E.
  assert (Q : id t = id ticket
              /\ path t = TICKETS_FOLDER ++ "/" ++ id ticket ++ ".yml").
  { revert E. unfold createTicket. cbv zeta. unfold bind, Date_now, createOrUpdateFile.
    rewrite githubFetch_run.
    destruct (interpret _) as [response|e]; [|discriminate].
    unfold lift at 1. destruct (JS.get response "content") as [c|e]; [|discriminate].
    unfold lift, ret. destruct (JS.get c "sha") as [s|e]; [|discriminate].
    intros E. inversion E. split; reflexivity. }
  destruct Q as (I & P). rewrite P, I.
  split; [reflexivity|]. split; [reflexivity|].
  exact (ticket_path_names_its_id (id ticket) L).
Qed.

End Tickets.

(* ===================================================================== *)
(** * What is written and what is read *)
(* ===================================================================== *)

Section Documents.
Context `{Platform}.

(** X24. The document [serializeTicket] writes does not depend on the
    ticket's id, path and hash, nor on its updated-timestamp: it has no
    [id], [path] or [sha] entry, and its [updatedAt] is the clock. *)
Theorem serializeTicket_ignores_identity time t i p h u :
  serializeTicket time
    {| id := i; path := p; sha := h;
       title := title t; type := type t; status := status t;
       priority := priority t; assignees := assignees t; labels := labels t;
       parent := parent t; version := version t; estimate := estimate t;
       dueDate := dueDate t; description := description t; images := images t;
       createdAt := createdAt t; updatedAt := u |}
  = serializeTicket time t
  /\ JS.has "id" (ticketYaml time t) = false
  /\ JS.has "path" (ticketYaml time t) = false
  /\ JS.has "sha" (ticketYaml time t) = false
  /\ JS.get (ticketYaml time t) "updatedAt" = Ok (JStr (toISOString time)).
Proof.
  split; [reflexivity|].
  unfold ticketYaml, JS.has, JS.get.
  rewrite !assoc_app, !assoc_field_if.
  cbn [JS.assoc String.eqb Ascii.eqb Bool.eqb andb].
  rewrite ?andb_true_r, ?andb_false_r. cbv beta iota.
  repeat split; reflexivity.
Qed.

End Documents.

Section Reading.
Context `{Platform} `{Provider}.
Variables (owner repo token : string) (branch : option string).

(** X25. [fetchFileContent] issues one read. A failed read is thrown on;
    a folder, answered as a list, is refused as not a file; a file whose
    content is missing or empty is refused as having no content, so an
    empty file cannot be read; otherwise the result is the decoded
    content, line feeds of the transport removed, with the hash of the
    answer. *)
Theorem fetchFileContent_outcomes p (w : World) :
  let req := file_request owner repo token branch p in
  let outcome := interpret (fst (serve req (remote w))) in
  let run := fetchFileContent owner repo p token branch w in
  requests (snd run) = (requests w ++ [req])%list
  /\ (forall e, outcome = Throw e -> fst run = Throw e)
  /\ (forall items, outcome = Ok (JArr items) ->
        fst run = Throw (JSError "Error" "Expected file but got undefined"))
  /\ (forall v, outcome = Ok v -> field_of v "type" = JStr "file" ->
        JS.truthy (field_of v "content") = false ->
        fst run = Throw (JSError "Error" "File has no content"))
  /\ (forall v c content, outcome = Ok v -> field_of v "type" = JStr "file" ->
        field_of v "content" = JStr c -> c <> "" ->
        atob (Str.remove_newlines c) = Some content ->
        fst run = Ok (content, field_of v "sha")).
Proof.
  cbv zeta. rewrite fetchFileContent_run. simpl fst. simpl snd.
  split; [reflexivity|]. split; [|split; [|split]].
  - intros e E. now rewrite E.
  - intros items E. now rewrite E.
  - intros v E T C. rewrite E. simpl rbind. unfold file_of.
    assert (N : nullish v = false) by (destruct v; try reflexivity; discriminate T).
    rewrite (get_field_of v "type" N), T. simpl rbind.
    rewrite (get_field_of v "content" N). simpl rbind. now rewrite C.
  - intros v c content E T C Ne A. rewrite E. simpl rbind. unfold file_of.
    assert (N : nullish v = false) by (destruct v; try reflexivity; discriminate T).
    rewrite (get_field_of v "type" N), T. simpl rbind.
    rewrite (get_field_of v "content" N), C. simpl rbind.
    destruct (String.eqb_spec c ""); [contradiction|]. simpl negb. cbv iota.
    simpl as_string. simpl rbind. rewrite A.
    now rewrite (get_field_of v "sha" N).
Qed.

(** X26. With a branch given, [uploadImage] of a file with an allowed
    extension issues one write, to the path of the stored name under the
    ticket's image folder, and the write carries no hash: an upload
    creates a file and never replaces one. *)
Theorem uploadImage_creates_only ticketId file data (w : World) :
  given branch = true ->
  isValidImageExtension (file_name file) = true ->
  readAsDataURL file = Some data ->
  exists req,
    requests (snd (uploadImage owner repo ticketId file token branch w))
    = (requests w ++ [req])%list
    /\ method req = PUT
    /\ url req = GITHUB_API_BASE
                 ++ contents_endpoint owner repo
                      (getImagePath ticketId (imageName_of (now w) (file_name file)))
    /\ creates_only req = true.
Proof.
  intros G V R. unfold uploadImage. rewrite V. simpl (negb _). cbv iota.
  unfold bind at 1. unfold fileToBase64. rewrite R. unfold ret at 1.
  unfold bind at 1. unfold Date_now at 1. rewrite G.
  unfold bind at 1. unfold ret at 1. unfold bind. cbv beta iota.
  rewrite githubFetch_run.
  eexists. split.
  - destruct (interpret _); reflexivity.
  - split; [reflexivity|]. split; [reflexivity|].
    unfold creates_only. destruct (nth_error (Str.split data ",") 1); reflexivity.
Qed.

End Reading.

Section Contributors.
Context `{Platform} `{Provider}.
Variables (owner repo token : string).

Lemma map_result_owner_of (forks : list JSValue) :
  forallb (fun f => negb (nullish f)) forks = true ->
  map_result owner_of forks = Ok (map (fun f => field_of f "owner") forks).
Proof.
  intros N. rewrite <- (map_id forks) at 1. apply map_result_map. intros f I.
  rewrite forallb_forall in N. specialize (N f I).
  unfold owner_of. apply get_field_of. now destruct (nullish f).
Qed.

(** X27. [loadContributors] reads the collaborators and then the forks,
    and returns the collaborators followed by the owners of the forks,
    with no entry removed: a collaborator who owns a fork is there twice. A
    NotFound on either read gives the empty list, so that a NotFound on
    the forks discards the collaborators already read; a NotFound is
    never thrown. *)
Theorem loadContributors_outcomes (w : World) :
  let first := collaborators_request owner repo token in
  let second := forks_request owner repo token in
  let r1 := snd (serve first (remote w)) in
  let run := loadContributors owner repo token w in
  (forall e, interpret (fst (serve first (remote w))) = Throw e -> isNotFound e = true ->
     fst run = Ok [] /\ requests (snd run) = (requests w ++ [first])%list)
  /\ (forall cs e, interpret (fst (serve first (remote w))) = Ok (JArr cs) ->
        interpret (fst (serve second r1)) = Throw e -> isNotFound e = true ->
        fst run = Ok [])
  /\ (forall cs fs, interpret (fst (serve first (remote w))) = Ok (JArr cs) ->
        interpret (fst (serve second r1)) = Ok (JArr fs) ->
        forallb (fun f => negb (nullish f)) fs = true ->
        fst run = Ok (cs ++ map (fun f => field_of f "owner") fs)%list
        /\ requests (snd run) = (requests w ++ [first; second])%list)
  /\ (forall e, fst run = Throw e -> isNotFound e = false).
Proof.
  cbv zeta. split; [|split; [|split]].
  - intros e E N. unfold loadContributors, try_catch, bind.
    rewrite githubFetch_run. fold (collaborators_request owner repo token).
    rewrite E. cbv beta iota. rewrite N. split; reflexivity.
  - intros cs e E1 E2 N. unfold loadContributors, try_catch, bind.
    rewrite githubFetch_run. fold (collaborators_request owner repo token).
    rewrite E1. cbv beta iota. unfold lift at 1. simpl spread. cbv beta iota.
    rewrite githubFetch_run. fold (forks_request owner repo token).
    simpl remote. rewrite E2. cbv beta iota. now rewrite N.
  - intros cs fs E1 E2 N.
    assert (R : loadContributors owner repo token w
                = (Ok (cs ++ map (fun f => field_of f "owner") fs)%list,
                   sent (forks_request owner repo token)
                     (sent (collaborators_request owner repo token) w
                        (snd (serve (collaborators_request owner repo token) (remote w))))
                     (snd (serve (forks_request owner repo token)
                             (snd (serve (collaborators_request owner repo token)
                                     (remote w))))))).
    { unfold loadContributors, try_catch, bind.
      rewrite githubFetch_run. fold (collaborators_request owner repo token).
      rewrite E1. cbv beta iota. unfold lift at 1. simpl spread. cbv beta iota.
      rewrite githubFetch_run. fold (forks_request owner repo token).
      simpl remote. rewrite E2. cbv beta iota. unfold lift.
      rewrite (map_result_owner_of fs N). reflexivity. }
    rewrite R. split; [reflexivity|]. simpl. now rewrite <- app_assoc.
  - intros e E. apply pair_of_fst in E. unfold loadContributors in E.
    exact (try_catch_filters _ _ isNotFound _ _ _ E).
Qed.

End Contributors.

(* ===================================================================== *)
(** * Ticket ids *)
(* ===================================================================== *)

Lemma split_chars_sep (c : ascii) (xs l : list ascii) :
  Str.split_chars c (xs ++ c :: l) = (Str.split_chars c xs ++ Str.split_chars c l)%list.
Proof.
  induction xs as [|a xs IH].
  - simpl. rewrite Ascii.eqb_refl.
    pose proof (split_chars_nonempty c l) as N.
    destruct (Str.split_chars c l); [congruence | reflexivity].
  - change ((a :: xs) ++ c :: l)%list with (a :: (xs ++ c :: l))%list.
    simpl. rewrite IH.
    pose proof (split_chars_nonempty c xs) as N.
    destruct (Str.split_chars c xs) as [|p ps]; [congruence|]. simpl.
    now destruct (Ascii.eqb a c).
Qed.

Lemma last_app_nonempty {A} (xs ys : list A) (d : A) :
  ys <> [] -> last (xs ++ ys) d = last ys d.
Proof.
  intros N. induction xs as [|x xs IH]; [reflexivity|].
  simpl. destruct (xs ++ ys)%list eqn:E; [|exact IH].
  apply app_eq_nil in E. destruct E. contradiction.
Qed.

(** The file name [extractTicketId] looks at is what follows the last
    slash. *)
Lemma pop_split_folder (folder name : string) :
  lacks "/" name = true ->
  Str.pop (Str.split (folder ++ "/" ++ name) "/") = Some name.
Proof.
  intros L. rewrite pop_split_last. f_equal.
  change (folder ++ "/" ++ name) with (folder ++ String "/" name).
  rewrite chars_append. change (Str.chars (String "/" name)) with ("/"%char :: Str.chars name).
  rewrite split_chars_sep, last_app_nonempty by apply split_chars_nonempty.
  rewrite (split_chars_lacks "/" _ L). simpl. apply of_chars_chars.
Qed.

Lemma string_append_assoc (a b c : string) : (a ++ b) ++ c = a ++ b ++ c.
Proof. induction a as [|x a IH]; simpl; [reflexivity | now rewrite IH]. Qed.

Lemma yaml_not_yml (i : string) : Str.endsWith (i ++ ".yaml") ".yml" = false.
Proof.
  unfold Str.endsWith. rewrite chars_append, rev_app_distr, of_chars_app. reflexivity.
Qed.

(** X28. [extractTicketId] looks neither at the folder nor at which of the
    two YAML extensions a path has: for an id without a slash, the files
    [<id>.yml] and [<id>.yaml] of any folder all name that id, so that
    distinct listed files can load as tickets with one id. *)
Theorem extractTicketId_ignores_folder_and_extension (folder i : string) :
  lacks "/" i = true ->
  extractTicketId (folder ++ "/" ++ i ++ ".yml") = i
  /\ extractTicketId (folder ++ "/" ++ i ++ ".yaml") = i
  /\ is_yaml (folder ++ "/" ++ i ++ ".yml") = true
  /\ is_yaml (folder ++ "/" ++ i ++ ".yaml") = true.
Proof.
  intros L.
  assert (N : forall e, String.eqb (i ++ String "." e) "" = false)
    by (intros e; apply String.eqb_neq; destruct i; discriminate).
  assert (Y : forall s t, Str.endsWith (folder ++ "/" ++ s ++ t) t = true).
  { intros s t.
    replace (folder ++ "/" ++ s ++ t) with ((folder ++ "/" ++ s) ++ t).
    - apply endsWith_append.
    - now rewrite !string_append_assoc. }
  split; [|split; [|split]].
  - unfold extractTicketId.
    rewrite (pop_split_folder folder (i ++ ".yml"))
      by (rewrite lacks_append, L; reflexivity).
    rewrite (N "yml"). unfold Str.strip_yaml_extension. rewrite endsWith_append.
    apply drop_suffix_append.
  - unfold extractTicketId.
    rewrite (pop_split_folder folder (i ++ ".yaml"))
      by (rewrite lacks_append, L; reflexivity).
    rewrite (N "yaml"). unfold Str.strip_yaml_extension.
    rewrite yaml_not_yml, endsWith_append. apply drop_suffix_append.
  - unfold is_yaml. now rewrite (Y i ".yml").
  - unfold is_yaml. rewrite (Y i ".yaml"). now rewrite andb_false_r.
Qed.

(* ===================================================================== *)
(** * The further properties on the sample data *)
(* ===================================================================== *)

(** ** Names and the codec *)

Lemma parseRepoFullName_witness :
  parseRepoFullName "RoCat/kabane" = Ok ("RoCat", "kabane")
  /\ parseRepoFullName "RoCat" = Throw (JSError "Error" "Invalid repository name: RoCat").
Proof.
  apply (parseRepoFullName_of_owner_and_repo "RoCat" "kabane");
    first [discriminate | reflexivity].
Defined.

Lemma created_ticket_path_witness :
  exists t,
    fst (@createTicket Sample.P Sample.V "o" "r" (Sample.ticket JUndefined) "tok"
           (Some "main") (Sample.world Sample.no_ticket)) = Ok t
    /\ id t = "t1"
    /\ path t = ".kabane/tickets/t1.yml"
    /\ extractTicketId (path t) = id t
    /\ isTicketFile (path t) = true.
Proof.
  assert (E : exists t, fst (@createTicket Sample.P Sample.V "o" "r" (Sample.ticket JUndefined)
                               "tok" (Some "main") (Sample.world Sample.no_ticket)) = Ok t)
    by (eexists; vm_compute; reflexivity).
  destruct E as (t & E).
  destruct (@created_ticket_path_names_its_id Sample.P Sample.V "o" "r" "tok" (Some "main")
              (Sample.ticket JUndefined) (Sample.world Sample.no_ticket) t
              eq_refl eq_refl E) as (I & P & X & _ & _ & T).
  exists t. split; [exact E|]. split; [exact I|]. split; [exact P|].
  split; [exact X | exact T].
Defined.

(** A document with a list of labels gives a ticket; the empty document
    gives none. *)
Lemma parseTicketFile_witness :
  (exists t,
      @parseTicketFile Sample.P (RefPlatform.print Fixture.labelled)
        ".kabane/tickets/t9.yml" (JStr "abc") = Ok t
      /\ id t = "t9"
      /\ labels t = Some ["ui"; "3"])
  /\ (exists e, @parseTicketFile Sample.P "null" ".kabane/tickets/t9.yml" (JStr "abc")
                = Throw e).
Proof.
  split.
  - assert (E : exists t,
               @parseTicketFile Sample.P (RefPlatform.print Fixture.labelled)
                 ".kabane/tickets/t9.yml" (JStr "abc") = Ok t
               /\ labels t = Some ["ui"; "3"])
      by (eexists; split; vm_compute; reflexivity).
    destruct E as (t & E & L). exists t. split; [exact E|]. split; [|exact L].
    assert (C : forall data,
               @YAML_parse Sample.P (RefPlatform.print Fixture.labelled) = Some data ->
               converts (field_of data "assignees") = true
               /\ converts (field_of data "labels") = true
               /\ converts (field_of data "images") = true).
    { intros data Y.
      assert (Q : @YAML_parse Sample.P (RefPlatform.print Fixture.labelled)
                  = Some Fixture.labelled) by (vm_compute; reflexivity).
      rewrite Q in Y. injection Y as <-. repeat split. }
    exact (proj1 (proj2 (@parseTicketFile_throws_only_on_no_document Sample.P
                           (RefPlatform.print Fixture.labelled) ".kabane/tickets/t9.yml"
                           (JStr "abc") C) t E)).
  - assert (C : forall data,
               @YAML_parse Sample.P "null" = Some data ->
               converts (field_of data "assignees") = true
               /\ converts (field_of data "labels") = true
               /\ converts (field_of data "images") = true).
    { intros data Y.
      assert (Q : @YAML_parse Sample.P "null" = Some JNull) by (vm_compute; reflexivity).
      rewrite Q in Y. injection Y as <-. repeat split. }
    apply (proj1 (@parseTicketFile_throws_only_on_no_document Sample.P "null"
                    ".kabane/tickets/t9.yml" (JStr "abc") C)).
    right. exists JNull. split; vm_compute; reflexivity.
Defined.

(** The sample ticket without a title, written twice. *)
Lemma parse_serialize_is_idempotent_witness :
  @parseTicketFile Sample.P (@serializeTicket Sample.P Sample.clock Sample.untitled)
    ".kabane/tickets/t1.yml" (JStr "abc")
  = Ok (@normalise Sample.P Sample.clock ".kabane/tickets/t1.yml" (JStr "abc") Sample.untitled)
  /\ title (@normalise Sample.P Sample.clock ".kabane/tickets/t1.yml" (JStr "abc")
              Sample.untitled) = JStr "Ticket t1"
  /\ @parseTicketFile Sample.P
       (@serializeTicket Sample.P (Sample.clock + 1)
          (@normalise Sample.P Sample.clock ".kabane/tickets/t1.yml" (JStr "abc")
             Sample.untitled))
       ".kabane/tickets/t1.yml" (JStr "abc")
     = Ok (with_updatedAt (JStr "2023-11-14T22:13:20.124Z")
             (@normalise Sample.P Sample.clock ".kabane/tickets/t1.yml" (JStr "abc")
                Sample.untitled)).
Proof.
  destruct (@parse_serialize_is_idempotent Sample.P Sample.clock (Sample.clock + 1)
              Sample.untitled ".kabane/tickets/t1.yml" (JStr "abc")) as (A & B).
  - vm_compute; reflexivity.
  - vm_compute; reflexivity.
  - split; [exact A|]. split; [reflexivity | exact B].
Defined.

(** The default configuration and the sample versions, written and read. *)
Lemma list_files_round_trip_witness :
  @parseVersionsFile Sample.P (@serializeVersionsFile Sample.P Fixture.versions)
  = Ok Fixture.versions
  /\ @parseTicketTypesFile Sample.P (@serializeTicketTypesFile Sample.P DEFAULT_TICKET_TYPES)
     = Ok DEFAULT_TICKET_TYPES
  /\ @parseColumnsFile Sample.P (@serializeColumnsFile Sample.P DEFAULT_COLUMNS)
     = Ok DEFAULT_COLUMNS.
Proof.
  destruct (@list_files_round_trip Sample.P) as (A & B & C).
  split; [|split].
  - apply A; vm_compute; reflexivity.
  - apply B; vm_compute; reflexivity.
  - apply C; vm_compute; reflexivity.
Defined.

(** A column without statuses gets its id as its status. *)
Lemma parseColumnsFile_witness :
  @parseColumnsFile Sample.P (RefPlatform.print (JArr Sample.columns_items))
  = Ok [mkColumn (JStr "todo") (JStr "To Do") [JStr "todo"] JUndefined;
        mkColumn (JStr "done") (JStr "Done") [JStr "done"; JStr "closed"] JUndefined]
  /\ (exists e, @parseColumnsFile Sample.P "[null]" = Throw e)
  /\ @parseColumnsFile Sample.P "{}"
     = Throw (JSError "Error" "columns.yml must contain an array of columns")
  /\ @parseColumnsFile Sample.P "null"
     = Throw (JSError "TypeError" "Cannot read properties of null (reading 'columns')").
Proof.
  split; [|split; [|split]].
  - apply (proj1 (@parseColumnsFile_tolerates_missing_fields Sample.P
                    (RefPlatform.print (JArr Sample.columns_items)))
             Sample.columns_items); vm_compute; reflexivity.
  - apply (proj1 (proj2 (@parseColumnsFile_tolerates_missing_fields Sample.P "[null]"))
             [JNull]); vm_compute; reflexivity.
  - apply (proj1 (proj2 (proj2 (@parseColumnsFile_tolerates_missing_fields Sample.P "{}")))
             (JObj [])); vm_compute; reflexivity.
  - apply (proj2 (proj2 (proj2 (@parseColumnsFile_tolerates_missing_fields Sample.P "null"))));
      vm_compute; reflexivity.
Defined.

(** ** Configuration and versions *)

(** A repository whose columns file holds an empty list and that has no
    other configuration file: the columns are read, the rest defaults, and
    no warning is written. A repository that holds a ticket and none of
    the three files: the default configuration, and a silent console. *)
Lemma loadKabaneConfig_witness :
  fst (@loadKabaneConfig Sample.P Sample.V "o" "r" "tok" (Some "main")
         (Sample.world Sample.no_ticket))
  = Ok (mkConfig [] DEFAULT_TICKET_TYPES DEFAULT_VERSIONS)
  /\ warnings (console (snd (@loadKabaneConfig Sample.P Sample.V "o" "r" "tok" (Some "main")
                               (Sample.world Sample.no_ticket)))) = []
  /\ fst (@loadKabaneConfig Sample.P Sample.V "o" "r" "tok" (Some "main")
            (Sample.world Sample.one_ticket)) = Ok getDefaultConfig
  /\ console (snd (@loadKabaneConfig Sample.P Sample.V "o" "r" "tok" (Some "main")
                     (Sample.world Sample.one_ticket))) = [].
Proof.
  destruct (proj2 (@loadKabaneConfig_never_throws Sample.P Sample.V "o" "r" "tok" (Some "main")
                     (Sample.world Sample.no_ticket)) (ref_reads_only _)) as (E & C & _).
  destruct (proj2 (@loadKabaneConfig_never_throws Sample.P Sample.V "o" "r" "tok" (Some "main")
                     (Sample.world Sample.one_ticket)) (ref_reads_only _)) as (_ & _ & D).
  split; [|split].
  - rewrite E. vm_compute. reflexivity.
  - rewrite C. vm_compute. reflexivity.
  - apply D. intros p [<-|[<-|[<-|[]]]];
      (exists (GitHubAPIError 404 "Not Found" (JObj [("message", JStr "Not Found")])));
      split; vm_compute; reflexivity.
Defined.

Lemma checkKabaneFolderExists_witness :
  fst (@checkKabaneFolderExists Sample.P Scripted.provider "o" "r" "tok" (Some "main")
         (Fixture.world [Scripted.answer (JArr [])])) = Ok true
  /\ fst (@checkKabaneFolderExists Sample.P Scripted.provider "o" "r" "tok" (Some "main")
            (Fixture.world [Scripted.refusal 404 "Not Found"])) = Ok false.
Proof.
  split.
  - apply (@checkKabaneFolderExists_probes_once Sample.P Scripted.provider "o" "r" "tok"
             (Some "main") (Fixture.world [Scripted.answer (JArr [])])).
    eexists. reflexivity.
  - apply (@checkKabaneFolderExists_probes_once Sample.P Scripted.provider "o" "r" "tok"
             (Some "main") (Fixture.world [Scripted.refusal 404 "Not Found"])).
    eexists. split; reflexivity.
Defined.

Lemma checkPushAccess_witness :
  fst (@checkPushAccess Scripted.provider "o" "r" "tok" (Fixture.world Fixture.writable))
  = Ok (PushValue (JBool true))
  /\ fst (@checkPushAccess Scripted.provider "o" "r" "tok" (Fixture.world Fixture.forbidden))
     = Ok (PushValue (JBool false))
  /\ fst (@checkPushAccess Sample.V "o" "r" "tok" (Sample.world Sample.one_ticket))
     = Ok (PushValue (JBool false))
  /\ fst (@checkPushAccess Scripted.provider "o" "r" "tok"
            (Fixture.world Fixture.listed_permissions))
     = Ok ArrayPush.
Proof.
  split; [|split; [|split]].
  - apply (proj1 (proj2 (proj2 (proj2 (proj2
             (@checkPushAccess_outcomes Scripted.provider "o" "r" "tok"
                (Fixture.world Fixture.writable))))))
             (JObj [("full_name", JStr "o/r");
                    ("permissions", JObj [("pull", JBool true); ("push", JBool true)])]));
      reflexivity.
  - apply (proj1 (proj2 (@checkPushAccess_outcomes Scripted.provider "o" "r" "tok"
                           (Fixture.world Fixture.forbidden)))
             (GitHubAPIError 403 "Forbidden" (JObj [("message", JStr "Forbidden")])));
      reflexivity.
  - apply (proj1 (proj2 (proj2
             (@checkPushAccess_outcomes Sample.V "o" "r" "tok"
                (Sample.world Sample.one_ticket))))
             (JObj [("full_name", JStr "o/r"); ("default_branch", JStr "main")]));
      reflexivity.
  - apply (proj1 (proj2 (proj2 (proj2
             (@checkPushAccess_outcomes Scripted.provider "o" "r" "tok"
                (Fixture.world Fixture.listed_permissions)))))
             (JObj [("full_name", JStr "o/r"); ("permissions", JArr [])]) []);
      reflexivity.
Defined.

(** The versions file is there: it is written with its hash. It is not
    there: it is written without one. *)
Lemma saveVersions_witness :
  (exists h,
      requests (snd (@saveVersions Sample.P Sample.V "o" "r" [Fixture.sprint2] "tok"
                       (Some "main") (Sample.world Fixture.with_versions)))
      = [@file_request Sample.P "o" "r" "tok" (Some "main") VERSIONS_FILE;
         @versions_write Sample.P "o" "r" "tok" (Some "main") [Fixture.sprint2] (JStr h)]
      /\ RefProvider.current_sha Fixture.with_versions VERSIONS_FILE = Some h)
  /\ exists put b,
      requests (snd (@saveVersions Sample.P Sample.V "o" "r" [Fixture.sprint2] "tok"
                       (Some "main") (Sample.world Sample.one_ticket)))
      = [@file_request Sample.P "o" "r" "tok" (Some "main") VERSIONS_FILE; put]
      /\ body put = Some b /\ JS.has "sha" b = false.
Proof.
  destruct (@saveVersions_writes_with_the_hash_it_read Sample.P Sample.V "o" "r" "tok"
              (Some "main") [Fixture.sprint2] (Sample.world Fixture.with_versions))
    as (A & _).
  destruct (@saveVersions_writes_with_the_hash_it_read Sample.P Sample.V "o" "r" "tok"
              (Some "main") [Fixture.sprint2] (Sample.world Sample.one_ticket))
    as (_ & B & _).
  split.
  - eexists. split.
    + apply (A (@serializeVersionsFile Sample.P Fixture.versions)). vm_compute. reflexivity.
    + vm_compute. reflexivity.
  - destruct (B (GitHubAPIError 404 "Not Found" (JObj [("message", JStr "Not Found")])))
      as (put & b & R & _ & Bd & S).
    + vm_compute. reflexivity.
    + reflexivity.
    + exists put, b. auto.
Defined.

Lemma updateVersion_witness :
  exists updated,
    fst (@updateVersion Sample.P Sample.V "o" "r" Fixture.renamed Fixture.versions "tok"
           (Some "main") (Sample.world Fixture.with_versions)) = Ok updated
    /\ updated = [Fixture.renamed; Fixture.sprint2]
    /\ map v_id updated = map v_id Fixture.versions.
Proof.
  assert (E : fst (@updateVersion Sample.P Sample.V "o" "r" Fixture.renamed Fixture.versions
                     "tok" (Some "main") (Sample.world Fixture.with_versions))
              = Ok [Fixture.renamed; Fixture.sprint2]) by (vm_compute; reflexivity).
  destruct (@updateVersion_replaces_in_place Sample.P Sample.V "o" "r" "tok" (Some "main")
              Fixture.renamed Fixture.versions (Sample.world Fixture.with_versions) _ _
              (pair_of_fst _ _ E)) as (_ & I & _).
  eexists. split; [exact E|]. split; [reflexivity | exact I].
Defined.

Lemma deleteVersion_witness :
  exists updated,
    fst (@deleteVersion Sample.P Sample.V "o" "r" "v-1" Fixture.versions "tok"
           (Some "main") (Sample.world Fixture.with_versions)) = Ok updated
    /\ updated = [Fixture.sprint2]
    /\ (forall v, In v updated -> In v Fixture.versions /\ v_id v <> JStr "v-1").
Proof.
  assert (E : fst (@deleteVersion Sample.P Sample.V "o" "r" "v-1" Fixture.versions
                     "tok" (Some "main") (Sample.world Fixture.with_versions))
              = Ok [Fixture.sprint2]) by (vm_compute; reflexivity).
  destruct (@deleteVersion_removes_every_match Sample.P Sample.V "o" "r" "tok" (Some "main")
              "v-1" Fixture.versions (Sample.world Fixture.with_versions) _ _
              (pair_of_fst _ _ E)) as (_ & I & _).
  eexists. split; [exact E|]. split; [reflexivity | exact I].
Defined.

Lemma createVersion_witness :
  exists updated,
    fst (@createVersion Sample.P Sample.V "o" "r" Fixture.sprint3 Fixture.versions "tok"
           (Some "main") (Sample.world Fixture.with_versions)) = Ok updated
    /\ updated
       = [Fixture.sprint1; Fixture.sprint2;
          mkVersion (JStr "v-3") (JStr "Sprint 3") JUndefined JUndefined
            (JStr "2023-11-14T22:13:20.123Z")]
    /\ firstn 2 updated = Fixture.versions.
Proof.
  assert (E : fst (@createVersion Sample.P Sample.V "o" "r" Fixture.sprint3 Fixture.versions
                     "tok" (Some "main") (Sample.world Fixture.with_versions))
              = Ok [Fixture.sprint1; Fixture.sprint2;
                    mkVersion (JStr "v-3") (JStr "Sprint 3") JUndefined JUndefined
                      (JStr "2023-11-14T22:13:20.123Z")]) by (vm_compute; reflexivity).
  destruct (@createVersion_appends_stamped Sample.P Sample.V "o" "r" "tok" (Some "main")
              Fixture.sprint3 Fixture.versions (Sample.world Fixture.with_versions) _ _
              (pair_of_fst _ _ E)) as (_ & I & _).
  eexists. split; [exact E|]. split; [reflexivity | exact I].
Defined.

(** ** Images *)

Lemma uploaded_name_witness :
  exists n,
    fst (@uploadImage Sample.P Sample.V "o" "r" "t1" Sample.screenshot "tok" (Some "main")
           (Sample.world Sample.one_ticket)) = Ok n
    /\ n = "1700000000123-screen_shot.PNG"
    /\ isValidImageExtension n = true.
Proof.
  assert (E : fst (@uploadImage Sample.P Sample.V "o" "r" "t1" Sample.screenshot "tok"
                     (Some "main") (Sample.world Sample.one_ticket))
              = Ok "1700000000123-screen_shot.PNG") by (vm_compute; reflexivity).
  destruct (@uploaded_name_keeps_the_extension Sample.P Sample.V "o" "r" "tok" (Some "main")
              "t1" Sample.screenshot (Sample.world Sample.one_ticket) _ _
              (pair_of_fst _ _ E)) as (_ & V).
  eexists. split; [exact E|]. split; [reflexivity | exact V].
Defined.

Lemma deleteImage_witness :
  given (Some "main") = true
  /\ exists del,
      requests (snd (@deleteImage Sample.V "o" "r" "t1" "1700000000123-shot.png" "tok"
                       (Some "main") (Sample.world Fixture.with_image)))
      = [image_read "o" "r" "t1" "1700000000123-shot.png" "tok" "main"; del]
      /\ method del = DELETE
      /\ body del
         = Some (JObj [("message",
                        JStr "Delete image 1700000000123-shot.png from ticket t1");
                       ("sha", JStr "blob-UE5H");
                       ("branch", JStr "main")]).
Proof.
  split; [reflexivity|].
  destruct (proj2 (@deleteImage_deletes_what_it_read Sample.V "o" "r" "tok" (Some "main")
                     "t1" "1700000000123-shot.png" (Sample.world Fixture.with_image) eq_refl)
              (RefProvider.content_value ".kabane/images/t1/1700000000123-shot.png" "PNG" true))
    as (del & R & M & _ & B).
  - vm_compute. reflexivity.
  - reflexivity.
  - exists del. split; [exact R|]. split; [exact M|]. exact B.
Defined.

Lemma listTicketImages_witness :
  given (Some "main") = true
  /\ exists names,
      fst (@listTicketImages Scripted.provider "o" "r" "t1" "tok" (Some "main")
             (Fixture.world [Scripted.answer Fixture.image_folder])) = Ok names
      /\ names = [JStr "1-a.png"; JStr "2-b.JPG"]
      /\ Forall (fun n => is_image_name n = true) names.
Proof.
  split; [reflexivity|]. eexists.
  assert (E : fst (@listTicketImages Scripted.provider "o" "r" "t1" "tok" (Some "main")
                     (Fixture.world [Scripted.answer Fixture.image_folder]))
              = Ok [JStr "1-a.png"; JStr "2-b.JPG"]) by (vm_compute; reflexivity).
  split; [exact E|]. split; [reflexivity|].
  exact (proj2 (proj2 (proj2
           (@listTicketImages_lists_image_names Scripted.provider "o" "r" "tok" (Some "main")
              "t1" (Fixture.world [Scripted.answer Fixture.image_folder]) eq_refl))) _ E).
Defined.

Lemma getImageAsDataUrl_witness :
  (exists u,
      fst (@getImageAsDataUrl Sample.V "o" "r" "t1" "1700000000123-shot.png" "tok"
             (Some "main") (Sample.world Fixture.with_image)) = Ok u
      /\ (exists c, u = "data:image/png;base64," ++ Str.remove_newlines c)
      /\ In (mime_of (extension_of "1700000000123-shot.png")) IMAGE_TYPES)
  /\ (exists blob,
        fst (@getImageAsDataUrl Scripted.provider "o" "r" "t1" "big.png" "tok" (Some "main")
               (Fixture.world Fixture.large_image)) = Ok "data:image/png;base64,UE5H"
        /\ Some blob = nth 1 Fixture.large_image None
        /\ map url (requests (snd (@getImageAsDataUrl Scripted.provider "o" "r" "t1" "big.png"
                                     "tok" (Some "main")
                                     (Fixture.world Fixture.large_image))))
           = [GITHUB_API_BASE ++ "/repos/o/r/contents/.kabane/images/t1/big.png?ref=main";
              GITHUB_API_BASE ++ "/repos/o/r/git/blobs/abc"]).
Proof.
  split.
  - assert (E : fst (@getImageAsDataUrl Sample.V "o" "r" "t1" "1700000000123-shot.png" "tok"
                       (Some "main") (Sample.world Fixture.with_image))
                = Ok "data:image/png;base64,UE5H") by (vm_compute; reflexivity).
    assert (S : forall response,
               interpret (fst (@serve Sample.V
                                 (image_read "o" "r" "t1" "1700000000123-shot.png" "tok"
                                    (or_main (Some "main")))
                                 (remote (Sample.world Fixture.with_image)))) = Ok response ->
               JS.truthy (field_of response "content") = false ->
               stringable (field_of response "sha") = true).
    { intros response O _. vm_compute in O. injection O as <-. reflexivity. }
    destruct (@getImageAsDataUrl_gives_a_data_url Sample.V "o" "r" "tok" (Some "main")
                "t1" "1700000000123-shot.png" (Sample.world Fixture.with_image) _ _
                S (pair_of_fst _ _ E)) as ((response & c & _ & U & _) & T).
    eexists. split; [exact E|]. split; [exists c; exact U | apply T; reflexivity].
  - assert (E : fst (@getImageAsDataUrl Scripted.provider "o" "r" "t1" "big.png" "tok"
                       (Some "main") (Fixture.world Fixture.large_image))
                = Ok "data:image/png;base64,UE5H") by (vm_compute; reflexivity).
    assert (S : forall response,
               interpret (fst (@serve Scripted.provider
                                 (image_read "o" "r" "t1" "big.png" "tok"
                                    (or_main (Some "main")))
                                 (remote (Fixture.world Fixture.large_image)))) = Ok response ->
               JS.truthy (field_of response "content") = false ->
               stringable (field_of response "sha") = true).
    { intros response O _. vm_compute in O. injection O as <-. reflexivity. }
    destruct (@getImageAsDataUrl_gives_a_data_url Scripted.provider "o" "r" "tok" (Some "main")
                "t1" "big.png" (Fixture.world Fixture.large_image) _ _
                S (pair_of_fst _ _ E)) as ((response & c & O & _ & _ & [(C & N & _)|F]) & _).
    + vm_compute in O. injection O as <-. vm_compute in C. injection C as <-.
      now contradiction N.
    + destruct F as (_ & _ & blob & B & R & _).
      vm_compute in O. injection O as <-.
      exists (mkResponse 200 "OK" (Some blob)). split; [exact E|]. split.
      * vm_compute in B. injection B as <-. reflexivity.
      * rewrite R. reflexivity.
Defined.

(** ** Tickets *)

Lemma listFilesRecursively_witness :
  listed_in Sample.one_bad
  = map RefProvider.tree_entry
      (filter (fun pc => Str.startsWith (fst pc) ".kabane/tickets")
              (RefProvider.r_files Sample.one_bad))
  /\ (forall f, In f (listed_in Sample.one_bad) ->
        exists p, JS.get f "path" = Ok (JStr p)
                  /\ Str.startsWith p ".kabane/tickets" = true
                  /\ JS.get f "type" = Ok (JStr "blob"))
  /\ console (after_listing Sample.one_bad) = [].
Proof.
  split; [vm_compute; reflexivity|].
  destruct (@listFilesRecursively_returns_blobs_under_the_root Sample.V "o" "r" "tok"
              (Some "main") TICKETS_FOLDER (Sample.world Sample.one_bad) _ _
              (listing_of_sample Sample.one_bad eq_refl)) as (A & C & _).
  split; [exact A | exact C].
Defined.

Lemma loadTickets_accounts_witness :
  exists tickets,
    fst (@loadTickets Sample.P Sample.V "o" "r" "tok" (Some "main")
           (Sample.world Sample.one_bad)) = Ok tickets
    /\ length tickets = 2%nat
    /\ (forall t, In t tickets ->
          In (path t) [".kabane/tickets/t1.yml"; ".kabane/tickets/bad.yml";
                       ".kabane/tickets/t2.yaml"]
          /\ id t = extractTicketId (path t))
    /\ warnings (console (snd (@loadTickets Sample.P Sample.V "o" "r" "tok" (Some "main")
                                 (Sample.world Sample.one_bad))))
       = [ticket_warning ".kabane/tickets/bad.yml"].
Proof.
  destruct (@loadTickets_accounts_for_every_file Sample.P Sample.V "o" "r" "tok" (Some "main")
              (Sample.world Sample.one_bad) (after_listing Sample.one_bad)
              (listed_in Sample.one_bad)
              (listing_of_sample Sample.one_bad eq_refl) (ref_reads_only _))
    as (tickets & E & I & C & L).
  assert (M : @failing Sample.P Sample.V "o" "r" "tok" (Some "main")
                (remote (after_listing Sample.one_bad)) (yaml_paths (listed_in Sample.one_bad))
              = [".kabane/tickets/bad.yml"]) by (vm_compute; reflexivity).
  assert (Y : yaml_paths (listed_in Sample.one_bad)
              = [".kabane/tickets/t1.yml"; ".kabane/tickets/bad.yml";
                 ".kabane/tickets/t2.yaml"]) by (vm_compute; reflexivity).
  rewrite M in C, L. rewrite Y in L, I.
  exists tickets. split; [exact E|]. split; [|split; [exact I | exact C]].
  simpl in L. lia.
Defined.

Lemma deleteTicketFile_witness :
  sha (Sample.ticket (JStr "")) = JStr ""
  /\ exists req fields,
      requests (snd (@deleteTicketFile Sample.V "o" "r" (Sample.ticket (JStr "")) "tok"
                       (Some "main") (Sample.world Sample.one_ticket))) = [req]
      /\ method req = DELETE
      /\ body req = Some (JObj fields)
      /\ JS.assoc "sha" fields = Some (JStr "").
Proof.
  split; [reflexivity|].
  destruct (@deleteTicketFile_sends_the_hash_as_it_is Sample.V "o" "r" "tok" (Some "main")
              (Sample.ticket (JStr "")) "" (Sample.world Sample.one_ticket) eq_refl)
    as (req & fields & R & M & _ & B & S).
  exists req, fields. auto.
Defined.

(** A ticket created in a repository that has none. *)
Lemma createTicket_witness :
  exists req t,
    requests (snd (@createTicket Sample.P Sample.V "o" "r" (Sample.ticket JUndefined) "tok"
                     (Some "main") (Sample.world Sample.no_ticket))) = [req]
    /\ url req = Sample.ticket_url
    /\ creates_only req = true
    /\ fst (@createTicket Sample.P Sample.V "o" "r" (Sample.ticket JUndefined) "tok"
              (Some "main") (Sample.world Sample.no_ticket)) = Ok t
    /\ path t = ".kabane/tickets/t1.yml"
    /\ createdAt t = JStr "2023-11-14T22:13:20.123Z".
Proof.
  destruct (@createTicket_writes_the_file_of_its_id Sample.P Sample.V "o" "r" "tok"
              (Some "main") (Sample.ticket JUndefined) (Sample.world Sample.no_ticket))
    as (req & R & _ & U & C & T).
  assert (E : exists t, fst (@createTicket Sample.P Sample.V "o" "r" (Sample.ticket JUndefined)
                               "tok" (Some "main") (Sample.world Sample.no_ticket)) = Ok t)
    by (eexists; vm_compute; reflexivity).
  destruct E as (t & E). destruct (T t E) as (response & _ & Q).
  exists req, t. split; [exact R|]. split; [exact U|]. split; [exact C|].
  split; [exact E|]. rewrite Q. split; reflexivity.
Defined.

(** An empty repository is initialised with four writes. *)
Lemma initializeKabaneFolder_witness :
  (fst (@initializeKabaneFolder Sample.P Sample.V "o" "r" "tok" (Some "main")
          (Sample.world (Sample.repository [] 100))) = Ok tt
   /\ map url (requests (snd (@initializeKabaneFolder Sample.P Sample.V "o" "r" "tok"
                                (Some "main") (Sample.world (Sample.repository [] 100)))))
      = map (fun p => GITHUB_API_BASE ++ contents_endpoint "o" "r" p)
          [COLUMNS_FILE; TICKET_TYPES_FILE; VERSIONS_FILE; ".kabane/tickets/welcome.yml"])
  /\ (fst (@initializeKabaneFolder Sample.P Scripted.provider "o" "r" "tok" (Some "main")
             (Fixture.world Fixture.second_refused))
      = Throw (GitHubAPIError 409 "Conflict" (JObj [("message", JStr "Conflict")]))
      /\ map url (requests (snd (@initializeKabaneFolder Sample.P Scripted.provider "o" "r"
                                   "tok" (Some "main")
                                   (Fixture.world Fixture.second_refused))))
         = map (fun p => GITHUB_API_BASE ++ contents_endpoint "o" "r" p)
             [COLUMNS_FILE; TICKET_TYPES_FILE]).
Proof.
  split.
  - destruct (proj1 (proj2 (proj2 (proj2
               (@initializeKabaneFolder_writes_in_order Sample.P Sample.V "o" "r" "tok"
                  (Some "main") (Sample.world (Sample.repository [] 100))))))) as (E & R).
    + intros k L.
      destruct k as [|[|[|[|k]]]]; [| | | |lia]; eexists; vm_compute; reflexivity.
    + split; [exact E|]. rewrite R. reflexivity.
  - destruct (proj1 (proj2 (proj2
               (@initializeKabaneFolder_writes_in_order Sample.P Scripted.provider "o" "r"
                  "tok" (Some "main") (Fixture.world Fixture.second_refused))))
               1%nat (GitHubAPIError 409 "Conflict" (JObj [("message", JStr "Conflict")])))
      as (E & R).
    + intros k L. destruct k as [|k]; [|lia]. eexists. vm_compute. reflexivity.
    + vm_compute. reflexivity.
    + split; [exact E|]. rewrite R. reflexivity.
Defined.

(** A stored file is read; a folder is not a file. *)
Lemma fetchFileContent_witness :
  fst (@fetchFileContent Sample.P Sample.V "o" "r" ".kabane/tickets/t1.yml" "tok" (Some "main")
         (Sample.world Sample.one_ticket)) = Ok ("{}", JStr "blob-e30=")
  /\ fst (@fetchFileContent Sample.P Scripted.provider "o" "r" ".kabane" "tok" None
            (Fixture.world [Scripted.answer (JArr [])]))
     = Throw (JSError "Error" "Expected file but got undefined").
Proof.
  split.
  - apply (proj2 (proj2 (proj2 (proj2
             (@fetchFileContent_outcomes Sample.P Sample.V "o" "r" "tok" (Some "main")
                ".kabane/tickets/t1.yml" (Sample.world Sample.one_ticket)))))
             (RefProvider.content_value ".kabane/tickets/t1.yml" "{}" true) "e30=" "{}");
      first [reflexivity | discriminate].
  - apply (proj1 (proj2 (proj2
             (@fetchFileContent_outcomes Sample.P Scripted.provider "o" "r" "tok" None
                ".kabane" (Fixture.world [Scripted.answer (JArr [])])))) []).
    reflexivity.
Defined.

Lemma uploadImage_creates_only_witness :
  given (Some "main") = true
  /\ isValidImageExtension (file_name Sample.screenshot) = true
  /\ exists req,
      requests (snd (@uploadImage Sample.P Sample.V "o" "r" "t1" Sample.screenshot "tok"
                       (Some "main") (Sample.world Sample.one_ticket))) = [req]
      /\ method req = PUT
      /\ url req = "https://api.github.com/repos/o/r/contents/.kabane/images/t1/1700000000123-screen_shot.PNG"
      /\ creates_only req = true.
Proof.
  split; [reflexivity|]. split; [reflexivity|].
  destruct (@uploadImage_creates_only Sample.P Sample.V "o" "r" "tok" (Some "main") "t1"
              Sample.screenshot _ (Sample.world Sample.one_ticket) eq_refl eq_refl eq_refl)
    as (req & R & M & U & C).
  exists req. split; [exact R|]. split; [exact M|]. split; [exact U | exact C].
Defined.

(** A missing file, an error without a body, and an unreadable error
    body. *)
Lemma githubFetch_witness :
  fst (@githubFetch Sample.V "/repos/o/r/contents/none.yml" "tok" GET JUndefined
         (Sample.world Sample.one_ticket))
  = Throw (GitHubAPIError 404 "Not Found" (JObj [("message", JStr "Not Found")]))
  /\ fst (@githubFetch Scripted.provider "/user" "tok" GET JUndefined
            (Fixture.world [Some (mkResponse 502 "Bad Gateway" None)]))
     = Throw (GitHubAPIError 502 "GitHub API error: Bad Gateway" (JObj []))
  /\ fst (@githubFetch Scripted.provider "/user" "tok" GET JUndefined
            (Fixture.world [Some (mkResponse 404 "Not Found" (Some JNull))]))
     = Throw (JSError "TypeError" "Cannot read properties of null (reading 'message')")
  /\ fst (@githubFetch Scripted.provider "/user" "tok" GET JUndefined
            (Fixture.world [Some (mkResponse 204 "No Content" None)])) = Ok (JObj []).
Proof.
  split; [|split; [|split]].
  - exact (proj1 (proj1 (proj2 (proj2 (proj2 (proj2
             (@githubFetch_outcomes Sample.V "/repos/o/r/contents/none.yml" "tok" GET
                JUndefined (Sample.world Sample.one_ticket)))))
             RefProvider.not_found eq_refl) eq_refl eq_refl eq_refl)).
  - exact (proj1 (proj1 (proj2 (proj2 (proj2 (proj2
             (@githubFetch_outcomes Scripted.provider "/user" "tok" GET JUndefined
                (Fixture.world [Some (mkResponse 502 "Bad Gateway" None)])))))
             (mkResponse 502 "Bad Gateway" None) eq_refl) eq_refl eq_refl eq_refl)).
  - destruct (proj2 (proj2 (proj2 (proj2
               (@githubFetch_outcomes Scripted.provider "/user" "tok" GET JUndefined
                  (Fixture.world [Some (mkResponse 404 "Not Found" (Some JNull))])))))
               (mkResponse 404 "Not Found" (Some JNull)) eq_refl) as (_ & B & _).
    apply B; reflexivity.
  - destruct (proj2 (proj2 (proj2 (proj2
               (@githubFetch_outcomes Scripted.provider "/user" "tok" GET JUndefined
                  (Fixture.world [Some (mkResponse 204 "No Content" None)])))))
               (mkResponse 204 "No Content" None) eq_refl) as (_ & _ & B & _).
    apply B; reflexivity.
Defined.

(** A collaborator who owns a fork is listed twice; when the forks are
    not found she is not listed at all. *)
Lemma loadContributors_witness :
  fst (@loadContributors Scripted.provider "o" "r" "tok"
         (Fixture.world [Scripted.answer (JArr [Fixture.ann]);
                         Scripted.answer (JArr [Fixture.fork_of_ann])]))
  = Ok [Fixture.ann; Fixture.ann]
  /\ fst (@loadContributors Scripted.provider "o" "r" "tok"
            (Fixture.world [Scripted.answer (JArr [Fixture.ann]);
                            Scripted.refusal 404 "Not Found"]))
     = Ok [].
Proof.
  split.
  - apply (proj1 (proj2 (proj2
             (@loadContributors_outcomes Scripted.provider "o" "r" "tok"
                (Fixture.world [Scripted.answer (JArr [Fixture.ann]);
                                Scripted.answer (JArr [Fixture.fork_of_ann])]))))
             [Fixture.ann] [Fixture.fork_of_ann]); reflexivity.
  - apply (proj1 (proj2
             (@loadContributors_outcomes Scripted.provider "o" "r" "tok"
                (Fixture.world [Scripted.answer (JArr [Fixture.ann]);
                                Scripted.refusal 404 "Not Found"])))
             [Fixture.ann]
             (GitHubAPIError 404 "Not Found" (JObj [("message", JStr "Not Found")])));
      reflexivity.
Defined.

(** Two files of the tickets folder, and one of a folder beside it, that
    load under one id. *)
Lemma extractTicketId_witness :
  extractTicketId ".kabane/tickets/t1.yml" = "t1"
  /\ extractTicketId ".kabane/tickets/t1.yaml" = "t1"
  /\ extractTicketId ".kabane/tickets-archive/t1.yml" = "t1".
Proof.
  split; [|split].
  - apply (extractTicketId_ignores_folder_and_extension ".kabane/tickets" "t1" eq_refl).
  - apply (extractTicketId_ignores_folder_and_extension ".kabane/tickets" "t1" eq_refl).
  - apply (extractTicketId_ignores_folder_and_extension ".kabane/tickets-archive" "t1"
             eq_refl).
Defined.
